(** * MAYA: the note-transcription pipeline of [music_helper.py]

    A shallow embedding of the locally written functions of
    [src/music_helper.py]:

    - [update_musicxml]          (decode of the correction text, write, summary)
    - [get_notes_from_xml]       (the textual note summary)
    - [play_violin_mp3_library]  (sample playback)
    - [generate_visual_sheet]    (sticker renderer)

    The Python built-ins the script calls on strings ([split], [strip],
    [lower], [replace], [join]) are written out, on byte strings: white
    space and letters are the ASCII ones, so that the functions are
    Python's on ASCII texts ([Py.isascii]).  What the script calls in
    third-party libraries (music21, pygame, PIL) and the built-in [float]
    is gathered in the class [Extern]: every general theorem below holds
    for any behaviour of those calls.  [Module Lib] gives one concrete
    behaviour, used to run the functions on examples.

    Numbers.  A music21 quarter length is a float or a [Fraction]; it is
    kept here as its exact value, a rational.  The value of [float(s)]
    and the numbers of the renderer (the accumulator, which decides the
    line wraps, and the cursor) are Python numbers: binary64 floats with
    their rounding, integers and fractions ([Py.number]).  The seconds of
    the playback engine are kept exact: the engine compares them with
    nothing but zero. *)

From Stdlib Require Import ZArith QArith Qround Qabs Ascii String DecimalString List Bool Lia.
From Stdlib Require Import Floats.
From stdpp Require Import base option list strings gmap.

Open Scope string_scope.

(** ** Python exceptions and fallible computations *)

Inductive exn_kind : Set :=
| ValueError | TypeError | FileNotFoundError | OverflowError | OtherException.

(** An exception: its class and [str(e)]. *)
Record exn : Set := mkExn { exn_class : exn_kind; exn_str : string }.

Inductive result (A : Type) : Type :=
| Ok (a : A)
| Raise (e : exn).
Arguments Ok {A} a.
Arguments Raise {A} e.

Definition rbind {A B} (r : result A) (k : A -> result B) : result B :=
  match r with
  | Ok a => k a
  | Raise e => Raise e
  end.

Declare Scope result_scope.
Delimit Scope result_scope with result.
Notation "'let!' x ':=' r 'in' k" := (rbind r (fun x => k))
  (at level 10, x name, r at level 100, k at level 200) : result_scope.
Open Scope result_scope.

Definition is_Ok {A} (r : result A) : bool :=
  match r with Ok _ => true | Raise _ => false end.

(** ** Python string built-ins, on byte strings *)

Module Py.

(** [s.split(sep)] for a one-character separator: every occurrence of
    [sep] ends a field; the result never is the empty list. *)
Fixpoint split (sep : ascii) (s : string) : list string :=
  match s with
  | EmptyString => [EmptyString]
  | String c s' =>
      if Ascii.eqb c sep then EmptyString :: split sep s'
      else match split sep s' with
           | hd :: tl => String c hd :: tl
           | [] => [String c EmptyString]
           end
  end.

(** Characters removed by [str.strip()]: the ASCII white space of
    [str.isspace] (tab, LF, VT, FF, CR, the separators 0x1c..0x1f and the
    space). *)
Definition isspace (c : ascii) : bool :=
  let n := nat_of_ascii c in
  (Nat.leb 9 n && Nat.leb n 13) || (Nat.leb 28 n && Nat.leb n 32).

Fixpoint lstrip (s : string) : string :=
  match s with
  | String c s' => if isspace c then lstrip s' else s
  | EmptyString => EmptyString
  end.

(** [rstrip]: a character is kept when it is no white space or something
    is kept after it. *)
Fixpoint rstrip (s : string) : string :=
  match s with
  | EmptyString => EmptyString
  | String c s' =>
      match rstrip s' with
      | EmptyString => if isspace c then EmptyString else String c EmptyString
      | r => String c r
      end
  end.

Definition strip (s : string) : string := rstrip (lstrip s).

Definition lower_char (c : ascii) : ascii :=
  let n := nat_of_ascii c in
  if Nat.leb 65 n && Nat.leb n 90 then ascii_of_nat (n + 32) else c.

(** [s.lower()], on ASCII letters; other bytes are kept. *)
Fixpoint lower (s : string) : string :=
  match s with
  | EmptyString => EmptyString
  | String c s' => String (lower_char c) (lower s')
  end.

(** [s.replace(old, new)] for a one-character [old]. *)
Fixpoint replace_char (old : ascii) (new : string) (s : string) : string :=
  match s with
  | EmptyString => EmptyString
  | String c s' =>
      if Ascii.eqb c old then new ++ replace_char old new s'
      else String c (replace_char old new s')
  end.

(** [sep.join(l)]. *)
Fixpoint join (sep : string) (l : list string) : string :=
  match l with
  | [] => EmptyString
  | [x] => x
  | x :: tl => x ++ sep ++ join sep tl
  end.

(** [needle in s]. *)
Fixpoint prefix_of (p s : string) : bool :=
  match p, s with
  | EmptyString, _ => true
  | String a p', String b s' => Ascii.eqb a b && prefix_of p' s'
  | String _ _, EmptyString => false
  end.

Fixpoint contains (s needle : string) : bool :=
  prefix_of needle s ||
  match s with
  | EmptyString => false
  | String _ s' => contains s' needle
  end.

(** A string of white space only (the empty string included). *)
Fixpoint blank (s : string) : bool :=
  match s with
  | EmptyString => true
  | String c s' => isspace c && blank s'
  end.

(** [s.isascii()]: every character is below 128. *)
Fixpoint isascii (s : string) : bool :=
  match s with
  | EmptyString => true
  | String c s' => Nat.ltb (nat_of_ascii c) 128 && isascii s'
  end.

(** *** Numbers

    The numbers the script computes with: [int], [float] (binary64) and
    [fractions.Fraction]. *)
Inductive number : Set :=
| Int (z : Z)
| Float (f : PrimFloat.float)
| Fraction (q : Q).

(** [int(x)] of a rational: truncation towards zero. *)
Definition int (q : Q) : Z := Z.quot (Qnum q) (Zpos (Qden q)).

(** [float(z)] of an integer: the nearest float.  (Beyond the range of
    the floats Python raises; here the result is an infinity.) *)
Definition float_of_int (z : Z) : PrimFloat.float :=
  SF2Prim (binary_normalize prec emax z 0 false).

(** [float(q)] of a fraction: the numerator divided by the denominator,
    the nearest float when both are below 2^53. *)
Definition float_of_fraction (q : Q) : PrimFloat.float :=
  PrimFloat.div (float_of_int (Qnum q)) (float_of_int (Zpos (Qden q))).

(** The exact value of a finite float, in lowest terms
    ([f.as_integer_ratio()]); nothing for an infinity or a NaN. *)
Definition float_value (f : PrimFloat.float) : option Q :=
  match Prim2SF f with
  | S754_zero _ => Some 0%Q
  | S754_finite s m e =>
      let z := if s then Zneg m else Zpos m in
      Some (Qred (match e with
                  | Z.neg p => z # Pos.pow 2 p
                  | _ => inject_Z (z * 2 ^ e)
                  end))
  | S754_infinity _ => None
  | S754_nan => None
  end.

Definition to_float (a : number) : PrimFloat.float :=
  match a with
  | Int z => float_of_int z
  | Float f => f
  | Fraction q => float_of_fraction q
  end.

(** [a + b]: two integers give an integer; a fraction and an integer or
    fraction give a fraction; a float with anything gives the float sum of
    both as floats. *)
Definition add (a b : number) : number :=
  match a, b with
  | Int x, Int y => Int (x + y)
  | Int x, Fraction q => Fraction (Qred (inject_Z x + q))
  | Fraction q, Int y => Fraction (Qred (q + inject_Z y))
  | Fraction p, Fraction q => Fraction (Qred (p + q))
  | _, _ => Float (PrimFloat.add (to_float a) (to_float b))
  end.

(** [a * b], likewise. *)
Definition mul (a b : number) : number :=
  match a, b with
  | Int x, Int y => Int (x * y)
  | Int x, Fraction q => Fraction (Qred (inject_Z x * q))
  | Fraction q, Int y => Fraction (Qred (q * inject_Z y))
  | Fraction p, Fraction q => Fraction (Qred (p * q))
  | _, _ => Float (PrimFloat.mul (to_float a) (to_float b))
  end.

(** [int(a)]: truncation towards zero; an infinity and a NaN are
    refused. *)
Definition int_of (a : number) : result Z :=
  match a with
  | Int z => Ok z
  | Fraction q => Ok (int q)
  | Float f =>
      match float_value f with
      | Some q => Ok (int q)
      | None =>
          if PrimFloat.is_nan f then
            Raise (mkExn ValueError "cannot convert float NaN to integer")
          else
            Raise (mkExn OverflowError "cannot convert float infinity to integer")
      end
  end.

End Py.

(** ** The music21 objects the script reads

    A pitch is a step letter, an optional accidental and an optional
    octave; the attributes below are the ones the script reads
    ([nameWithOctave], [accidental.name], [diatonicNoteNum]), as the
    music21 documentation defines them.  Microtonal accidentals are left
    out. *)

Inductive Step : Set := sC | sD | sE | sF | sG | sA | sB.

Inductive Accidental : Set :=
| natural | sharp | double_sharp | triple_sharp | quadruple_sharp
| flat | double_flat | triple_flat | quadruple_flat.

Record Pitch : Set := mkPitch {
  step : Step;
  accidental : option Accidental;
  octave : option Z
}.

Record Duration : Set := mkDuration {
  type : string;          (* duration.type: "quarter", "half", ... *)
  quarterLength : Q       (* duration.quarterLength, its exact value *)
}.

(** An element of [score.flatten().notes]. *)
Inductive Event : Set :=
| NoteEv (pitch : Pitch) (duration : Duration)            (* n.isNote *)
| ChordEv (pitches : list Pitch) (duration : Duration)    (* n.isChord *)
| OtherEv (duration : Duration).                          (* neither *)

(** A note of [new_stream]: [Note(pitch_name)] with its [quarterLength]
    assigned: the pitch, and the exact value of the quarter length the
    note holds after the assignment. *)
Record NewNote : Set := mkNewNote {
  nn_pitch : Pitch;
  nn_quarterLength : Q
}.

Module M21.

Definition step_letter (s : Step) : string :=
  match s with
  | sC => "C" | sD => "D" | sE => "E" | sF => "F"
  | sG => "G" | sA => "A" | sB => "B"
  end.

(** [accidental.name] *)
Definition accidental_name (a : Accidental) : string :=
  match a with
  | natural => "natural"
  | sharp => "sharp"
  | double_sharp => "double-sharp"
  | triple_sharp => "triple-sharp"
  | quadruple_sharp => "quadruple-sharp"
  | flat => "flat"
  | double_flat => "double-flat"
  | triple_flat => "triple-flat"
  | quadruple_flat => "quadruple-flat"
  end.

(** [accidental.modifier]: what the accidental adds to the pitch name. *)
Definition modifier (a : Accidental) : string :=
  match a with
  | natural => ""
  | sharp => "#"
  | double_sharp => "##"
  | triple_sharp => "###"
  | quadruple_sharp => "####"
  | flat => "-"
  | double_flat => "--"
  | triple_flat => "---"
  | quadruple_flat => "----"
  end.

(** [accidental.alter], in semitones. *)
Definition alter (a : Accidental) : Z :=
  match a with
  | natural => 0
  | sharp => 1 | double_sharp => 2 | triple_sharp => 3 | quadruple_sharp => 4
  | flat => -1 | double_flat => -2 | triple_flat => -3 | quadruple_flat => -4
  end%Z.

(** [str(n)] of an integer. *)
Definition str_int (z : Z) : string :=
  DecimalString.NilEmpty.string_of_int (Z.to_int z).

(** [pitch.name] *)
Definition name (p : Pitch) : string :=
  step_letter (step p) ++
  match accidental p with Some a => modifier a | None => "" end.

(** [pitch.nameWithOctave] *)
Definition nameWithOctave (p : Pitch) : string :=
  match octave p with
  | Some o => name p ++ str_int o
  | None => name p
  end.

Definition step_index (s : Step) : Z :=
  match s with
  | sC => 0 | sD => 1 | sE => 2 | sF => 3 | sG => 4 | sA => 5 | sB => 6
  end%Z.

(** [pitch.implicitOctave]: the octave, 4 when none is given. *)
Definition implicitOctave (p : Pitch) : Z :=
  match octave p with Some o => o | None => 4%Z end.

(** [pitch.diatonicNoteNum]: C4 is 29, B4 is 35. *)
Definition diatonicNoteNum (p : Pitch) : Z :=
  (step_index (step p) + 1 + 7 * implicitOctave p)%Z.

Fixpoint is_power_of_two (p : positive) : bool :=
  match p with
  | xH => true
  | xO p' => is_power_of_two p'
  | xI _ => false
  end.

(** The Python number that [duration.quarterLength] returns: music21
    keeps a quarter length as a float when its denominator is a power of
    two, and as a [Fraction] otherwise.  (A float that music21 has rounded
    to a fraction whose denominator is a power of two stays a [Fraction];
    it counts here as the float of the same value.) *)
Definition quarterLength_number (q : Q) : Py.number :=
  let q := Qred q in
  if is_power_of_two (Qden q) then Py.Float (Py.float_of_fraction q)
  else Py.Fraction q.

End M21.

(** ** What the script calls outside itself

    [File] is what a path of the file system holds. *)

Class Extern (File : Type) : Type := {
  (** the built-in [float(s)]: the float, which may be an infinity or a
      NaN, or the exception *)
  float : string -> result PrimFloat.float;
  (** [music21.note.Note(pitch_name)]: the pitch of the new note, or the
      exception *)
  Note : string -> result Pitch;
  (** [n.duration.quarterLength = dur_val] on a new note: the exact value
      of the quarter length the note holds afterwards (music21 rounds the
      float to a fraction of small denominator), or the exception (on an
      infinity or a NaN) *)
  set_quarterLength : PrimFloat.float -> result Q;
  (** [new_stream.write("musicxml", fp)]: the document written, or the
      exception *)
  stream_write : list NewNote -> result File;
  (** [music21.converter.parse(path)] followed by [.flatten().notes], given
      what the path holds *)
  converter_parse : string -> option File -> result (list Event);
  (** [pitch.getLowerEnharmonic()] *)
  getLowerEnharmonic : Pitch -> result Pitch;
  (** [pygame.mixer.Sound(path)] on an existing file *)
  mixer_Sound : File -> result unit;
  (** [Image.open(path).convert("RGBA")] on an existing file *)
  Image_decode : File -> result unit
}.

(** ** Effects *)

(** What the playback engine does to the audio subsystem and the clock. *)
Inductive audio_op : Set :=
| mixer_init
| mixer_quit
| sound_play (file_path : string)
| time_sleep (secs : Q)
| sound_fadeout (file_path : string) (ms : Z).

(** The pieces appended to the playback message, in order. *)
Inductive msg_part : Set :=
| MsgNotFound (xml_path : string)
| MsgReady (folder_name : string)
| MsgPlaying (filename : string)
| MsgErrorPlaying (filename : string) (e : exn)
| MsgMissing (filename : string)
| MsgFinished.

(** What the renderer does to the canvas: [alpha_composite] of the image
    opened from [image] at [(x, y)], then [show] and [save]. *)
Inductive canvas_op : Set :=
| composite (image : string) (x y : Z)
| canvas_show
| canvas_save (path : string).

Record sheet_state : Set := mkSheet {
  x_cursor : Py.number;
  y_origin_offset : Z;
  accumulated_duration : PrimFloat.float;
  master_canvas : list canvas_op     (* latest operation last *)
}.

Record play_state : Set := mkPlay {
  audio : list audio_op;             (* latest operation last *)
  message : list msg_part
}.

(** ** The script *)

Definition newline : string := String (ascii_of_nat 10) EmptyString.
Definition dquote : string := String (ascii_of_nat 34) EmptyString.

(** [os.path.join(a, b)] for two components. *)
Definition os_path_join (a b : string) : string :=
  if Py.prefix_of "/" b then b
  else if String.eqb a "" then b
  else if String.eqb (substring (String.length a - 1) 1 a) "/" then a ++ b
  else a ++ "/" ++ b.

(** [duration_map] of [update_musicxml]. *)
Definition duration_map : list (string * PrimFloat.float) :=
  [ ("16th", 0.25); ("eighth", 0.5); ("quarter", 1); ("half", 2);
    ("whole", 4) ]%float.

(** [key in d] and [d[key]] on such a table. *)
Fixpoint dict_get {V : Type} (d : list (string * V)) (key : string) : option V :=
  match d with
  | [] => None
  | (k, v) :: d' => if String.eqb key k then Some v else dict_get d' key
  end.

(** What [pitch_name, dur_val = entry.split(":")] raises when the split
    has not two parts. *)
Definition unpack_error (got : nat) : exn :=
  if Nat.ltb got 2 then
    mkExn ValueError
      ("not enough values to unpack (expected 2, got " ++
       M21.str_int (Z.of_nat got) ++ ")")
  else mkExn ValueError "too many values to unpack (expected 2)".

(** [time.sleep] refuses a negative length. *)
Definition sleep_error : exn :=
  mkExn ValueError "sleep length must be non-negative".

(** [n.pitches + ":"]: a tuple and a string are not concatenated. *)
Definition concat_error : exn :=
  mkExn TypeError
    ("can only concatenate tuple (not " ++ dquote ++ "str" ++ dquote ++
     ") to tuple").

(** [Image.open] of a path that holds nothing. *)
Definition no_such_file (path : string) : exn :=
  mkExn FileNotFoundError
    ("[Errno 2] No such file or directory: '" ++ path ++ "'").

Definition add_audio (op : audio_op) (st : play_state) : play_state :=
  mkPlay (audio st ++ [op]) (message st).
Definition add_message (m : msg_part) (st : play_state) : play_state :=
  mkPlay (audio st) (message st ++ [m]).

(** The text of one piece of the playback message. *)
Definition msg_text (m : msg_part) : string :=
  match m with
  | MsgNotFound xml_path => "🚨 XML file not found: " ++ xml_path
  | MsgReady folder_name =>
      "🎻 Ready! Accessing library: " ++ folder_name ++ "..."
  | MsgPlaying filename => "🔊 Playing: " ++ filename
  | MsgErrorPlaying filename e =>
      "🚨 Error playing " ++ filename ++ ": " ++ exn_str e
  | MsgMissing filename => "⚠️ Missing from library: " ++ filename
  | MsgFinished => "✅ Performance finished!"
  end.

Definition render_message (l : list msg_part) : string :=
  String.concat "" (map msg_text l).

Section Script.

Context {File : Type} `{Ext : Extern File}.

(** The file system: what each existing path holds. *)
Abbreviation FS := (gmap string File).

(** *** [get_notes_from_xml] *)

(** The loop over [notes]; [notes_list] is the list built so far. *)
Fixpoint notes_loop (notes : list Event) (notes_list : list string)
  : result (list string) :=
  match notes with
  | [] => Ok notes_list
  | NoteEv pitch duration :: rest =>
      let note_st := M21.nameWithOctave pitch ++ ":" ++ type duration in
      notes_loop rest (notes_list ++ [note_st])
  | ChordEv pitches duration :: rest => Raise concat_error
  | OtherEv _ :: rest => notes_loop rest notes_list
  end.

Definition get_notes_from_xml (fs : FS) (file_path : string) : result string :=
  match fs !! file_path with
  | Some f =>
      let message := "🎉 Found the payload: " ++ file_path in
      let! notes := converter_parse file_path (Some f) in
      let message := message ++ newline ++ "--- 🎼 NOTES DETECTED ---" in
      let! notes_list := notes_loop notes [] in
      let notes_str := Py.join ", " notes_list in
      Ok (message ++ ":" ++ notes_str)
  | None =>
      Ok ("🤔 The tool finished, but I can't find '" ++ file_path ++
          "' in the folder.")
  end.

(** *** [update_musicxml] *)

(** The duration of a token: [duration_map[dur_val.strip().lower()]] when
    that is a key, [float(dur_val)] otherwise. *)
Definition resolve_duration (dur_val : string) : result PrimFloat.float :=
  match dict_get duration_map (Py.lower (Py.strip dur_val)) with
  | Some q => Ok q
  | None => float dur_val
  end.

(** The body of the loop over [note_entries]: the duration is resolved,
    the note is made, and only then is the duration assigned to it. *)
Definition decode_entry (entry : string) : result NewNote :=
  match Py.split ":" entry with
  | [pitch_name; dur_val] =>
      let! dur_val := resolve_duration dur_val in
      let! n := Note pitch_name in
      let! stored := set_quarterLength dur_val in
      Ok (mkNewNote n stored)
  | parts => Raise (unpack_error (length parts))
  end.

Fixpoint decode_loop (note_entries : list string) (new_stream : list NewNote)
  : result (list NewNote) :=
  match note_entries with
  | [] => Ok new_stream
  | entry :: rest =>
      let! n := decode_entry entry in
      decode_loop rest (new_stream ++ [n])
  end.

(** Decode: the stream built from the correction text (step 2 of
    [update_musicxml]). *)
Definition decode (corrected_notes_text : string) : result (list NewNote) :=
  let note_entries := map Py.strip (Py.split "," corrected_notes_text) in
  decode_loop note_entries [].

Definition error_parsing (e : exn) : string :=
  "Error parsing notes: " ++ exn_str e ++
  ". Please use format 'Pitch:Duration'.".

(** The whole function: the file system afterwards and the string
    returned.  A write that raises leaves the file system as it was. *)
Definition update_musicxml (fs : FS) (xml_path corrected_notes_text : string)
  : FS * string :=
  match decode corrected_notes_text with
  | Raise e => (fs, error_parsing e)
  | Ok new_stream =>
      let output_path := xml_path in
      match stream_write new_stream with
      | Raise e => (fs, error_parsing e)
      | Ok doc =>
          let fs' := <[output_path := doc]> fs in
          match get_notes_from_xml fs' output_path with
          | Ok message => (fs', message)
          | Raise e => (fs', error_parsing e)
          end
      end
  end.

End Script.

Section Playback.

Context {File : Type} `{Ext : Extern File}.
Abbreviation FS := (gmap string File).

(** *** [play_violin_mp3_library] *)

(** [time.sleep(secs)] *)
Definition sleep (secs : Q) (st : play_state) : result play_state :=
  if Qle_bool 0 secs then Ok (add_audio (time_sleep secs) st)
  else Raise sleep_error.

(** Step 2 of the loop body: the name of the sample file of a pitch. *)
Definition sample_filename (pitch : Pitch) : result string :=
  let! filename_base :=
    match accidental pitch with
    | Some a =>
        if String.eqb (M21.accidental_name a) "sharp" then
          let! low := getLowerEnharmonic pitch in
          Ok (M21.nameWithOctave low)
        else Ok (M21.nameWithOctave pitch)
    | None => Ok (M21.nameWithOctave pitch)
    end in
  Ok (Py.replace_char "-" "b" filename_base ++ ".mp3").

(** Seconds per quarter note. *)
Definition seconds_per_beat : Q := 6 # 10.

(** The body of the loop for a note: the state afterwards, and the
    exception when one leaves the loop. *)
Definition play_note (fs : FS) (folder_name : string)
    (pitch : Pitch) (duration : Duration) (st : play_state)
  : play_state * option exn :=
  match sample_filename pitch with
  | Raise e => (st, Some e)
  | Ok filename =>
      let file_path := os_path_join folder_name filename in
      match fs !! file_path with
      | Some f =>
          let secs := (quarterLength duration * seconds_per_beat)%Q in
          let st := add_message (MsgPlaying filename) st in
          (* try: *)
          match mixer_Sound f with
          | Raise e => (add_message (MsgErrorPlaying filename e) st, None)
          | Ok _ =>
              let st := add_audio (sound_play file_path) st in
              match sleep secs st with
              | Raise e => (add_message (MsgErrorPlaying filename e) st, None)
              | Ok st => (add_audio (sound_fadeout file_path 150) st, None)
              end
          end
      | None =>
          let st := add_message (MsgMissing filename) st in
          match sleep (quarterLength duration * seconds_per_beat)%Q st with
          | Raise e => (st, Some e)
          | Ok st => (st, None)
          end
      end
  end.

Fixpoint play_loop (fs : FS) (folder_name : string) (notes : list Event)
    (st : play_state) : play_state * option exn :=
  match notes with
  | [] => (st, None)
  | NoteEv pitch duration :: rest =>
      match play_note fs folder_name pitch duration st with
      | (st, None) => play_loop fs folder_name rest st
      | (st, Some e) => (st, Some e)
      end
  | _ :: rest => play_loop fs folder_name rest st
  end.

(** The whole function: what was done to the audio subsystem, and the
    message returned, as its pieces in order ([render_message] gives the
    string), or the exception raised.  The mixer is taken to start. *)
Definition play_violin_mp3_library (fs : FS) (xml_path folder_name : string)
  : list audio_op * result (list msg_part) :=
  let st := mkPlay [mixer_init] [] in
  match fs !! xml_path with
  | None => (audio st, Ok [MsgNotFound xml_path])
  | Some f =>
      match converter_parse xml_path (Some f) with
      | Raise e => (audio st, Raise e)
      | Ok notes =>
          let st := mkPlay (audio st) [MsgReady folder_name] in
          match play_loop fs folder_name notes st with
          | (st, Some e) => (audio st, Raise e)
          | (st, None) =>
              let st := add_audio mixer_quit st in
              let st := add_message MsgFinished st in
              (audio st, Ok (message st))
          end
      end
  end.

(** The default [folder_name]. *)
Definition chromatic_samples_library : string := "chromatic_samples_library".

End Playback.

Section Renderer.

Context {File : Type} `{Ext : Extern File}.
Abbreviation FS := (gmap string File).

(** *** [generate_visual_sheet] *)

Definition BEAT_WIDTH : Z := 150.
Definition LINE_SPACING : Z := 500.
Definition MAX_DURATION_PER_LINE : PrimFloat.float := 4%float.

(** [Image.open(path).convert("RGBA")]: the path opened, as the image. *)
Definition Image_open (fs : FS) (path : string) : result string :=
  match fs !! path with
  | None => Raise (no_such_file path)
  | Some f => let! _ := Image_decode f in Ok path
  end.

Definition staff_path (library_folder : string) : string :=
  library_folder ++ "/blank_staff.png".

(** The line wrap at the head of the loop body:
    [accumulated_duration > MAX_DURATION_PER_LINE], on floats. *)
Definition wrap_needed (st : sheet_state) : bool :=
  PrimFloat.ltb MAX_DURATION_PER_LINE (accumulated_duration st).

Definition wrap_line (library_folder : string) (st : sheet_state) : sheet_state :=
  let y := (y_origin_offset st + LINE_SPACING)%Z in
  mkSheet (Py.Int 100) y 0%float
    (master_canvas st ++ [composite (staff_path library_folder) 0 y]).

(** The stem direction: the name of the sticker asked for first. *)
Definition sticker_name (pitch : Pitch) (duration : Duration) : string :=
  if (35 <=? M21.diatonicNoteNum pitch)%Z then type duration ++ "_rev.png"
  else type duration ++ ".png".

(** The [try]/[except FileNotFoundError] around the opening of the
    sticker. *)
Definition open_sticker (fs : FS) (library_folder : string)
    (pitch : Pitch) (duration : Duration) : result string :=
  match Image_open fs (library_folder ++ "/" ++ sticker_name pitch duration) with
  | Ok sticker => Ok sticker
  | Raise e =>
      match exn_class e with
      | FileNotFoundError =>
          Image_open fs (library_folder ++ "/" ++ type duration ++ ".png")
      | _ => Raise e
      end
  end.

(** The body of the loop for a note.  [x_cursor] is the integer 100 at
    the start of a line and then what Python's [+=] makes of it;
    [accumulated_duration] is a float throughout. *)
Definition render_note (fs : FS) (library_folder : string)
    (pitch : Pitch) (duration : Duration) (st : sheet_state)
  : result sheet_state :=
  let st := if wrap_needed st then wrap_line library_folder st else st in
  let! sticker := open_sticker fs library_folder pitch duration in
  let pitch_steps := M21.diatonicNoteNum pitch in
  let y_offset := ((544 + y_origin_offset st) - pitch_steps * 15)%Z in
  let! x := Py.int_of (x_cursor st) in
  let canvas := (master_canvas st ++ [composite sticker x y_offset])%list in
  let duration_value := M21.quarterLength_number (quarterLength duration) in
  Ok (mkSheet (Py.add (x_cursor st)
                 (Py.mul (Py.mul duration_value (Py.Int BEAT_WIDTH)) (Py.Int 2)))
              (y_origin_offset st)
              (Py.to_float (Py.add (Py.Float (accumulated_duration st)) duration_value))
              canvas).

Fixpoint render_loop (fs : FS) (library_folder : string) (notes : list Event)
    (st : sheet_state) : result sheet_state :=
  match notes with
  | [] => Ok st
  | NoteEv pitch duration :: rest =>
      let! st := render_note fs library_folder pitch duration st in
      render_loop fs library_folder rest st
  | _ :: rest => render_loop fs library_folder rest st
  end.

(** The state before the loop: the staff tile at offset 0. *)
Definition initial_sheet (library_folder : string) : sheet_state :=
  mkSheet (Py.Int 100) 0 0%float [composite (staff_path library_folder) 0 0].

(** [xml_path.split(".")[0]] *)
Definition path_stem (xml_path : string) : string :=
  match Py.split "." xml_path with
  | stem :: _ => stem
  | [] => ""
  end.

(** The whole function: the operations on the canvas, or the exception.
    Compositing, showing and saving are taken to succeed. *)
Definition generate_visual_sheet (fs : FS) (xml_path library_folder : string)
  : result (list canvas_op) :=
  let! _ := Image_open fs (staff_path library_folder) in
  let! notes := converter_parse xml_path (fs !! xml_path) in
  let! st := render_loop fs library_folder notes (initial_sheet library_folder) in
  let rendered_image_path := "rendered_" ++ path_stem xml_path ++ ".png" in
  Ok (master_canvas st ++ [canvas_show; canvas_save rendered_image_path])%list.

End Renderer.

(** ** One concrete behaviour of the outside world

    Enough of Python's [float] and of music21 to run the script on
    examples.  The general theorems do not depend on this module. *)

Module Lib.

(** What a path holds. *)
Inductive File : Type :=
| Document (notes : list Event)   (* a notation document, as the events read from it *)
| Picture                         (* an image that opens *)
| Sample                          (* an audio sample that loads *)
| Unreadable.                     (* a file that no library can read *)

Definition is_digit (c : ascii) : bool :=
  let n := nat_of_ascii c in Nat.leb 48 n && Nat.leb n 57.

Definition digit_value (c : ascii) : N := N.of_nat (nat_of_ascii c - 48).

(** A run of decimal digits, single underscores allowed between digits:
    the number read so far, how many digits were read, and the rest. *)
Fixpoint digitpart (s : string) (acc : N) (count : nat) (after_digit : bool)
  : N * nat * string :=
  match s with
  | EmptyString => (acc, count, s)
  | String c s' =>
      if is_digit c then
        digitpart s' (acc * 10 + digit_value c)%N (S count) true
      else if Ascii.eqb c "_" && after_digit &&
              match s' with String d _ => is_digit d | EmptyString => false end
      then digitpart s' acc count false
      else (acc, count, s)
  end.

Definition sign (s : string) : bool * string :=
  match s with
  | String c s' =>
      if Ascii.eqb c "-" then (true, s')
      else if Ascii.eqb c "+" then (false, s')
      else (false, s)
  | EmptyString => (false, s)
  end.

Definition signed (neg : bool) (n : N) : Z :=
  if neg then (- Z.of_N n)%Z else Z.of_N n.

(** [m * 10^e] *)
Definition scale10 (m : Z) (e : Z) : Q :=
  match e with
  | Z.neg p => Qred (m # Pos.pow 10 p)
  | _ => inject_Z (m * 10 ^ e)
  end.

(** The exponent part of a float literal: nothing, or [e]/[E], an optional
    sign and digits up to the end. *)
Definition exponent (s : string) : option Z :=
  match s with
  | EmptyString => Some 0%Z
  | String c s' =>
      if Ascii.eqb c "e" || Ascii.eqb c "E" then
        let (neg, s1) := sign s' in
        match digitpart s1 0 0 false with
        | (e, S _, EmptyString) => Some (signed neg e)
        | _ => None
        end
      else None
  end.

(** The value of a decimal float literal ([[sign] digits [. digits]
    [exponent]], white space around it), before rounding to a float. *)
Definition float_literal (s : string) : option Q :=
  let (neg, s1) := sign (Py.strip s) in
  let '(ip, ni, s2) := digitpart s1 0 0 false in
  let '(m, nf, s3) :=
    match s2 with
    | String c s' =>
        if Ascii.eqb c "." then digitpart s' ip 0 false else (ip, 0%nat, s2)
    | EmptyString => (ip, 0%nat, s2)
    end in
  if Nat.eqb (ni + nf) 0 then None
  else
    match exponent s3 with
    | Some e => Some (scale10 (signed neg m) (e - Z.of_nat nf))
    | None => None
    end.

(** [repr(s)] of a string without quotes or escapes. *)
Definition repr (s : string) : string := "'" ++ s ++ "'".

(** [float(s)]: the float nearest to a decimal literal (for literals
    whose digits and power of ten are below 2^53), an infinity or a NaN
    for their names, the exception otherwise. *)
Definition float (s : string) : result PrimFloat.float :=
  match float_literal s with
  | Some q => Ok (Py.float_of_fraction q)
  | None =>
      let (neg, w) := sign (Py.strip s) in
      let w := Py.lower w in
      if String.eqb w "inf" || String.eqb w "infinity" then
        Ok (if neg then neg_infinity else infinity)
      else if String.eqb w "nan" then Ok nan
      else
        Raise (mkExn ValueError ("could not convert string to float: " ++ repr s))
  end.

(** music21 keeps no denominator above this one. *)
Definition DENOM_LIMIT : Z := 65535.

(** The loop of [Fraction.limit_denominator], of which music21 has a
    copy: the convergents [p0/q0], [p1/q1] of [n/d], up to the last one
    whose denominator is within the limit. *)
Fixpoint limit_loop (fuel : nat) (p0 q0 p1 q1 n d : Z) : Z * Z * Z * Z :=
  match fuel with
  | O => (p0, q0, p1, q1)
  | S fuel' =>
      let a := (n / d)%Z in
      let q2 := (q0 + a * q1)%Z in
      if (DENOM_LIMIT <? q2)%Z then (p0, q0, p1, q1)
      else limit_loop fuel' p1 q1 (p0 + a * p1)%Z q2 d (n - a * d)%Z
  end.

(** The fraction nearest to [q] among those of denominator at most
    [DENOM_LIMIT]; [q] itself when its denominator is. *)
Definition limit_denominator (q : Q) : Q :=
  if (Zpos (Qden q) <=? DENOM_LIMIT)%Z then q
  else
    let '(p0, q0, p1, q1) :=
      limit_loop (2 * Pos.size_nat (Qden q) + 2) 0 1 1 0 (Qnum q) (Zpos (Qden q)) in
    let k := ((DENOM_LIMIT - q0) / q1)%Z in
    let bound1 := (p0 + k * p1) # Z.to_pos (q0 + k * q1) in
    let bound2 := p1 # Z.to_pos q1 in
    if Qle_bool (Qabs (bound2 - q)) (Qabs (bound1 - q)) then bound2 else bound1.

(** [n.duration.quarterLength = value]: music21 takes the integer ratio
    of the float, which an infinity and a NaN do not have, and limits its
    denominator. *)
Definition set_quarterLength (value : PrimFloat.float) : result Q :=
  match Py.float_value value with
  | Some q => Ok (limit_denominator q)
  | None =>
      if PrimFloat.is_nan value then
        Raise (mkExn ValueError "cannot convert NaN to integer ratio")
      else
        Raise (mkExn OverflowError "cannot convert Infinity to integer ratio")
  end.

Definition upper_char (c : ascii) : ascii :=
  let n := nat_of_ascii c in
  if Nat.leb 97 n && Nat.leb n 122 then ascii_of_nat (n - 32) else c.

Definition step_of_char (c : ascii) : option Step :=
  dict_get
    [("C", sC); ("D", sD); ("E", sE); ("F", sF); ("G", sG); ("A", sA); ("B", sB)]
    (String (upper_char c) EmptyString).

Definition all_accidentals : list Accidental :=
  [ sharp; double_sharp; triple_sharp; quadruple_sharp;
    flat; double_flat; triple_flat; quadruple_flat ].

(** The accidental written by a modifier string. *)
Definition accidental_of_modifier (m : string) : option Accidental :=
  List.find (fun a => String.eqb (M21.modifier a) m) all_accidentals.

Fixpoint filter_chars (keep : ascii -> bool) (s : string) : string :=
  match s with
  | EmptyString => EmptyString
  | String c s' =>
      if keep c then String c (filter_chars keep s') else filter_chars keep s'
  end.

Definition pitch_error (what : string) (s : string) : exn :=
  mkExn OtherException ("Cannot make a " ++ what ++ " out of " ++ repr s).

(** [music21.note.Note(pitch_name)] for names made of a step letter, sharp
    and flat modifiers ([#], [-]) and octave digits: the digits are the
    octave, the first other character the step, the rest the accidental.
    music21 knows more spellings of accidentals; they are refused here. *)
Definition Note (pitch_name : string) : result Pitch :=
  let usrStr := Py.strip pitch_name in
  let octFound := filter_chars is_digit usrStr in
  let octNot := filter_chars (fun c => negb (is_digit c)) usrStr in
  match octNot with
  | EmptyString => Raise (pitch_error "name" octNot)
  | String c rest =>
      match step_of_char c with
      | None => Raise (pitch_error "step" (String c EmptyString))
      | Some st =>
          let! acc :=
            match rest with
            | EmptyString => Ok None
            | _ =>
                match accidental_of_modifier rest with
                | Some a => Ok (Some a)
                | None =>
                    Raise (mkExn OtherException
                             (rest ++ " is not a supported accidental type"))
                end
            end in
          let oct :=
            match octFound with
            | EmptyString => None
            | _ => Some (Z.of_N (fst (fst (digitpart octFound 0 0 false))))
            end in
          Ok (mkPitch st acc oct)
      end
  end.

(** Semitones of a step above C. *)
Definition step_semitones (s : Step) : Z :=
  match s with
  | sC => 0 | sD => 2 | sE => 4 | sF => 5 | sG => 7 | sA => 9 | sB => 11
  end%Z.

Definition step_below (s : Step) : Step :=
  match s with
  | sC => sB | sD => sC | sE => sD | sF => sE | sG => sF | sA => sG | sB => sA
  end.

Definition accidental_of_alter (a : Z) : option (option Accidental) :=
  if (a =? 0)%Z then Some None
  else match List.find (fun x => (M21.alter x =? a)%Z) all_accidentals with
       | Some x => Some (Some x)
       | None => None
       end.

(** [pitch.getLowerEnharmonic()]: the same sound written on the step
    below (a diminished second lower): C#3 becomes B##2, C-3 becomes B2,
    G#4 becomes F###4. *)
Definition getLowerEnharmonic (p : Pitch) : result Pitch :=
  let st := step_below (step p) in
  let down := match step p with sC => 1%Z | _ => 0%Z end in
  let old_alter := match accidental p with Some a => M21.alter a | None => 0%Z end in
  let new_alter :=
    (step_semitones (step p) + old_alter - (step_semitones st - 12 * down))%Z in
  match accidental_of_alter new_alter with
  | Some acc =>
      Ok (mkPitch st acc (match octave p with Some o => Some (o - down)%Z | None => None end))
  | None =>
      Raise (mkExn OtherException
               (M21.str_int new_alter ++ " is not a supported accidental type"))
  end.

(** The quarter lengths that have a type name. *)
Definition type_lengths : list (string * Q) :=
  [ ("duplex-maxima", 64); ("maxima", 32); ("longa", 16); ("breve", 8);
    ("whole", 4); ("half", 2); ("quarter", 1); ("eighth", 1 # 2);
    ("16th", 1 # 4); ("32nd", 1 # 8); ("64th", 1 # 16); ("128th", 1 # 32);
    ("256th", 1 # 64); ("512th", 1 # 128); ("1024th", 1 # 256);
    ("2048th", 1 # 512) ]%Q.

(** What no dot and one to four dots make of a length, and what the
    tuplets of 3, 5, 7, 11 and 13 do. *)
Definition dot_ratios : list Q := [1; 3 # 2; 7 # 4; 15 # 8; 31 # 16]%Q.
Definition tuplet_ratios : list Q := [2 # 3; 4 # 5; 4 # 7; 8 # 11; 8 # 13]%Q.

Definition type_with (ratios : list Q) (q : Q) : option string :=
  option_map fst
    (List.find
       (fun kv => existsb (fun r => Qeq_bool (snd kv * r) q) ratios)
       type_lengths).

(** [duration.type] of a quarter length: the type of the plain, dotted or
    tuplet note of that length; ["complex"] when there is none. *)
Definition duration_type (q : Q) : string :=
  if Qeq_bool q 0 then "zero"
  else match type_with dot_ratios q with
       | Some t => t
       | None =>
           match type_with tuplet_ratios q with
           | Some t => t
           | None => "complex"
           end
       end.

(** The longest plain or dotted length that is not above [q]. *)
Definition longest_within (q : Q) : option Q :=
  fold_left
    (fun best c =>
       if Qle_bool c q then
         match best with
         | Some b => if Qle_bool c b then best else Some c
         | None => Some c
         end
       else best)
    (flat_map (fun kv => map (fun r => Qred (snd kv * r)) dot_ratios) type_lengths)
    None.

(** A length that no single note has is written as tied notes, longest
    first. *)
Fixpoint components (fuel : nat) (q : Q) : list Q :=
  match fuel with
  | O => [q]
  | S fuel' =>
      if negb (String.eqb (duration_type q) "complex") then [q]
      else match longest_within q with
           | Some c => c :: components fuel' (Qred (q - c))
           | None => [q]
           end
  end.

(** The bars of the writer are those of 4/4. *)
Definition BAR : Q := 4.

(** A note of length [d] that starts at [offset] is cut at the bar
    lines. *)
Fixpoint split_at_bars (fuel : nat) (offset d : Q) : list Q :=
  let room := Qred (BAR - (offset - BAR * inject_Z (Qfloor (offset / BAR)))) in
  match fuel with
  | O => [d]
  | S fuel' =>
      if Qle_bool d room then [d]
      else room :: split_at_bars fuel' (Qred (offset + room)) (Qred (d - room))
  end.

(** What is read back from the document written for a stream: the notes
    in order, each cut at the bar lines and into tied notes of lengths
    that have a type. *)
Fixpoint written_events (offset : Q) (new_stream : list NewNote) : list Event :=
  match new_stream with
  | [] => []
  | n :: rest =>
      let d := nn_quarterLength n in
      let parts :=
        flat_map (components 8)
          (split_at_bars (Z.to_nat (Qceiling (d / BAR))) offset d) in
      (map (fun q => NoteEv (nn_pitch n) (mkDuration (duration_type q) q)) parts
       ++ written_events (Qred (offset + d)) rest)%list
  end.

(** The writer refuses a note whose duration is zero or negative (the
    text of its exception is not music21's). *)
Definition refused_duration : exn :=
  mkExn OtherException "cannot write a duration that is not positive".

(** [new_stream.write("musicxml", fp)]: the document, as the events read
    back from it.  Lengths that music21 writes as tuplets of dotted notes
    are left whole here, typed ["complex"]. *)
Definition stream_write (new_stream : list NewNote) : result File :=
  if forallb (fun n => negb (Qle_bool (nn_quarterLength n) 0)) new_stream then
    Ok (Document (written_events 0 new_stream))
  else Raise refused_duration.

Definition unreadable (path : string) : exn :=
  mkExn OtherException ("cannot read " ++ path).

Definition converter_parse (path : string) (f : option File) : result (list Event) :=
  match f with
  | Some (Document notes) => Ok notes
  | _ => Raise (unreadable path)
  end.

Definition mixer_Sound (f : File) : result unit :=
  match f with
  | Sample => Ok tt
  | _ => Raise (mkExn OtherException "Unable to open file")
  end.

Definition Image_decode (f : File) : result unit :=
  match f with
  | Picture => Ok tt
  | _ => Raise (mkExn OtherException "cannot identify image file")
  end.

#[export] Instance extern : Extern File :=
  Build_Extern File float Note set_quarterLength stream_write converter_parse
    getLowerEnharmonic mixer_Sound Image_decode.

End Lib.

(** ** Example documents and libraries *)

Module Demo.

Definition C4 : Pitch := mkPitch sC None (Some 4%Z).
Definition G4 : Pitch := mkPitch sG None (Some 4%Z).
Definition A4 : Pitch := mkPitch sA None (Some 4%Z).
Definition B4 : Pitch := mkPitch sB None (Some 4%Z).
Definition E4 : Pitch := mkPitch sE None (Some 4%Z).
Definition G_sharp_4 : Pitch := mkPitch sG (Some sharp) (Some 4%Z).
Definition C_double_sharp_4 : Pitch := mkPitch sC (Some double_sharp) (Some 4%Z).

Definition quarter : Duration := mkDuration "quarter" 1.
Definition half : Duration := mkDuration "half" 2.
Definition whole : Duration := mkDuration "whole" 4.

(** A document of two notes, with the sample of the first in the library. *)
Definition two_notes : gmap string Lib.File :=
  {[ "song.musicxml" := Lib.Document [NoteEv G4 quarter; NoteEv A4 half];
     "chromatic_samples_library/G4.mp3" := Lib.Sample ]}.

(** The same, the sample of the first being a file that does not load. *)
Definition broken_sample : gmap string Lib.File :=
  {[ "song.musicxml" := Lib.Document [NoteEv G4 quarter; NoteEv A4 half];
     "chromatic_samples_library/G4.mp3" := Lib.Unreadable ]}.

(** A G sharp, with the A flat sample in the library. *)
Definition one_sharp : gmap string Lib.File :=
  {[ "song.musicxml" := Lib.Document [NoteEv G_sharp_4 quarter];
     "chromatic_samples_library/Ab4.mp3" := Lib.Sample ]}.

(** A document with a chord. *)
Definition with_chord : gmap string Lib.File :=
  {[ "song.musicxml" :=
       Lib.Document [NoteEv G4 quarter; ChordEv [C4; E4] half] ]}.

(** The sticker library without reversed stickers. *)
Definition stickers (notes : list Event) : gmap string Lib.File :=
  {[ "song.musicxml" := Lib.Document notes;
     "visual_notes_library/blank_staff.png" := Lib.Picture;
     "visual_notes_library/quarter.png" := Lib.Picture;
     "visual_notes_library/whole.png" := Lib.Picture ]}.

End Demo.

(** ** Vocabulary of the statements *)

(** Seconds the caller is blocked: the sum of the sleeps. *)
Fixpoint blocked_time (trace : list audio_op) : Q :=
  match trace with
  | [] => 0
  | time_sleep secs :: rest => secs + blocked_time rest
  | _ :: rest => blocked_time rest
  end.

Definition is_missing_warning (m : msg_part) : bool :=
  match m with MsgMissing _ => true | _ => false end.

(** The missing-asset warnings of a message. *)
Definition missing_warnings (msg : list msg_part) : nat :=
  length (filter (fun m => is_missing_warning m = true) msg).

(** The sample files the engine started. *)
Fixpoint sounds_played (trace : list audio_op) : list string :=
  match trace with
  | [] => []
  | sound_play file_path :: rest => file_path :: sounds_played rest
  | _ :: rest => sounds_played rest
  end.

(** The multiples of the line capacity 4.0 that lie strictly below a total
    duration: the boundaries a sequence of that total length has crossed. *)
Definition boundaries_crossed (total : Q) : Z :=
  Z.max 0 (Qceiling (total / 4) - 1).

(** The total duration of the notes of a sequence. *)
Fixpoint total_duration (notes : list Event) : Q :=
  match notes with
  | [] => 0
  | NoteEv _ duration :: rest => quarterLength duration + total_duration rest
  | _ :: rest => total_duration rest
  end.

(** The notes of a sequence. *)
Fixpoint note_count (notes : list Event) : nat :=
  match notes with
  | [] => 0
  | NoteEv _ _ :: rest => S (note_count rest)
  | _ :: rest => note_count rest
  end.

(** The float sum [acc + q] of the accumulator and a quarter length. *)
Definition accumulate (acc : PrimFloat.float) (q : Q) : PrimFloat.float :=
  PrimFloat.add acc (Py.to_float (M21.quarterLength_number q)).

(** What a note of quarter length [q] adds to the cursor:
    [q * BEAT_WIDTH * 2], as Python computes it. *)
Definition advance (q : Q) : Py.number :=
  Py.mul (Py.mul (M21.quarterLength_number q) (Py.Int 150)) (Py.Int 2).

(** The cursors at which the notes of a sequence are placed, from a line
    that starts at [x] and holds [acc]. *)
Fixpoint cursors (x : Py.number) (acc : PrimFloat.float) (notes : list Event)
  : list Py.number :=
  match notes with
  | [] => []
  | NoteEv _ duration :: rest =>
      let x := if PrimFloat.ltb 4 acc then Py.Int 100 else x in
      let acc := if PrimFloat.ltb 4 acc then 0%float else acc in
      x :: cursors (Py.add x (advance (quarterLength duration)))
             (accumulate acc (quarterLength duration)) rest
  | _ :: rest => cursors x acc rest
  end.

(** The notes that are met with a line already holding more than 4.0:
    [acc] is the float sum of what the current line holds. *)
Fixpoint overfull_lines (acc : PrimFloat.float) (notes : list Event) : nat :=
  match notes with
  | [] => 0
  | NoteEv _ duration :: rest =>
      if PrimFloat.ltb 4 acc then
        S (overfull_lines (accumulate 0 (quarterLength duration)) rest)
      else overfull_lines (accumulate acc (quarterLength duration)) rest
  | _ :: rest => overfull_lines acc rest
  end.

Section Assets.

Context {File : Type} `{Ext : Extern File}.
Abbreviation FS := (gmap string File).

(** The sample of a pitch is missing from the library folder. *)
Definition sample_missing (fs : FS) (folder_name : string) (pitch : Pitch) : bool :=
  match sample_filename pitch with
  | Ok filename =>
      match fs !! os_path_join folder_name filename with
      | None => true
      | Some _ => false
      end
  | Raise _ => false
  end.

(** The sample of a pitch is in the library folder and loads. *)
Definition sample_loads (fs : FS) (folder_name : string) (pitch : Pitch) : bool :=
  match sample_filename pitch with
  | Ok filename =>
      match fs !! os_path_join folder_name filename with
      | None => false
      | Some f => is_Ok (mixer_Sound f)
      end
  | Raise _ => false
  end.

(** The notes of a sequence whose sample is missing. *)
Fixpoint missing_notes (fs : FS) (folder_name : string) (notes : list Event) : nat :=
  match notes with
  | [] => 0
  | NoteEv pitch _ :: rest =>
      (if sample_missing fs folder_name pitch then 1 else 0) +
      missing_notes fs folder_name rest
  | _ :: rest => missing_notes fs folder_name rest
  end.

(** The scaled durations of the notes whose sample is missing or loads. *)
Fixpoint scaled_durations (fs : FS) (folder_name : string) (notes : list Event) : Q :=
  match notes with
  | [] => 0
  | NoteEv pitch duration :: rest =>
      (if sample_missing fs folder_name pitch || sample_loads fs folder_name pitch
       then quarterLength duration * seconds_per_beat else 0) +
      scaled_durations fs folder_name rest
  | _ :: rest => scaled_durations fs folder_name rest
  end.

(** The sample file of a pitch when it is in the library folder and
    loads. *)
Definition loaded_sample (fs : FS) (folder_name : string) (pitch : Pitch)
  : list string :=
  match sample_filename pitch with
  | Ok filename =>
      match fs !! os_path_join folder_name filename with
      | Some f =>
          if is_Ok (mixer_Sound f) then [os_path_join folder_name filename]
          else []
      | None => []
      end
  | Raise _ => []
  end.

(** The sample files of the notes of a sequence that are there and load,
    in order. *)
Fixpoint loaded_samples (fs : FS) (folder_name : string) (notes : list Event)
  : list string :=
  match notes with
  | [] => []
  | NoteEv pitch _ :: rest =>
      loaded_sample fs folder_name pitch ++ loaded_samples fs folder_name rest
  | _ :: rest => loaded_samples fs folder_name rest
  end.

(** A note the engine can time: its sample has a name and its duration is
    not negative. *)
Definition timed_note (ev : Event) : Prop :=
  match ev with
  | NoteEv pitch duration =>
      is_Ok (sample_filename pitch) = true /\ (0 <= quarterLength duration)%Q
  | _ => True
  end.

(** A note whose sticker opens, at first try or by the fallback. *)
Definition sticker_opens (fs : FS) (library_folder : string) (ev : Event) : Prop :=
  match ev with
  | NoteEv pitch duration =>
      is_Ok (open_sticker fs library_folder pitch duration) = true
  | _ => True
  end.

End Assets.

Definition is_chord (ev : Event) : bool :=
  match ev with ChordEv _ _ => true | _ => false end.

(** The tokens [PitchOctave:durationName] of the notes of a sequence. *)
Fixpoint note_tokens (notes : list Event) : list string :=
  match notes with
  | [] => []
  | NoteEv pitch duration :: rest =>
      (M21.nameWithOctave pitch ++ ":" ++ type duration) :: note_tokens rest
  | _ :: rest => note_tokens rest
  end.

(** ** The rest of [music_helper.py] and its callers *)

Module PyStr.

(** [s.replace(old, new)] for a non-empty [old]: the occurrences of [old]
    are replaced from left to right without overlap; [skip] counts the
    characters of an occurrence still to pass. *)
Fixpoint replace_from (old new : string) (s : string) (skip : nat) : string :=
  match s with
  | EmptyString => EmptyString
  | String c s' =>
      match skip with
      | S k => replace_from old new s' k
      | O =>
          if Py.prefix_of old s then
            new ++ replace_from old new s' (String.length old - 1)
          else String c (replace_from old new s' 0)
      end
  end.

Definition replace (old new : string) (s : string) : string :=
  replace_from old new s 0.

(** [s.rsplit(sep, 1)[0]]: what stands before the last [sep], the whole
    string when there is none. *)
Definition rsplit_head (sep : ascii) (s : string) : string :=
  match Py.split sep s with
  | [] | [_] => s
  | parts => Py.join (String sep EmptyString) (removelast parts)
  end.

(** [os.path.basename(p)]: what stands after the last slash. *)
Definition basename (p : string) : string :=
  List.last (Py.split "/" p) EmptyString.

End PyStr.

(** What these functions call outside themselves, besides [Extern]. *)
Class Tools (File : Type) : Type := {
  (** [subprocess.Popen(["oemer", image_path], ...)], the reading of its
      output and [process.wait()]: the file system afterwards, the lines
      read, and the return code or the exception that ends the [try]
      block *)
  oemer : gmap string File -> string -> gmap string File * list string * result Z;
  (** [score.write(fmt, fp=fp)] for the score parsed from [xml_path]: the
      file system afterwards, and the exception if any *)
  score_write : string -> gmap string File -> string -> string ->
                gmap string File * result unit;
  (** [subprocess.run(["fluidsynth", ..., midi_path, "-F", mp3_path, ...],
      check=True)] *)
  fluidsynth : gmap string File -> string -> string ->
               gmap string File * result unit;
  (** the image that [master_canvas.save] writes *)
  canvas_image : list canvas_op -> File
}.

Section Helpers.

Context {File : Type} `{Ext : Extern File} `{Tls : Tools File}.
Abbreviation FS := (gmap string File).

(** *** [run_oemer_with_updates] *)

(** The [try] block: the file system afterwards, what was printed, and
    the message or the exception. *)
Definition oemer_try (fs : FS) (image_path : string)
  : FS * list string * result string :=
  let '(fs', lines, r) := oemer fs image_path in
  let printed := map (fun line => "[oemer]: " ++ Py.strip line) lines in
  (fs', printed,
   let! returncode := r in
   if (returncode =? 0)%Z then
     Ok (newline ++ "✅ Success! Check your folder for the MIDI/MusicXML files.")
   else
     Ok (newline ++ "❌ Oemer exited with error code: " ++ M21.str_int returncode)).

Definition run_oemer_with_updates (fs : FS) (image_path : string)
  : FS * list string * result string :=
  let printed :=
    [ "🚀 Starting oemer for: " ++ image_path ++ "...";
      "Note: This can take several minutes. Watching the logs below:" ++ newline ] in
  let '(fs', lines, r) := oemer_try fs image_path in
  (fs', (printed ++ lines)%list,
   match r with
   | Ok message => Ok message
   | Raise e =>
       match exn_class e with
       | FileNotFoundError =>
           Ok "❌ Error: 'oemer' command not found. Is it installed in your environment?"
       | _ => Ok ("❌ An unexpected error occurred: " ++ exn_str e)
       end
   end).

(** *** [save_violin_mp3_library] *)

Definition save_violin_mp3_library (fs : FS) (file_path : string)
  : FS * result string :=
  match converter_parse file_path (fs !! file_path) with
  | Raise e => (fs, Raise e)
  | Ok _ =>
      let midi_path := PyStr.replace ".musicxml" ".mid" file_path in
      let mp3_path := PyStr.replace ".musicxml" ".mp3" file_path in
      match score_write "midi" fs file_path midi_path with
      | (fs, Raise e) => (fs, Raise e)
      | (fs, Ok _) =>
          match fluidsynth fs midi_path mp3_path with
          | (fs, Ok _) => (fs, Ok ("MP3 created at " ++ mp3_path))
          | (fs, Raise e) =>
              (fs, Ok ("MIDI created, but MP3 conversion failed: " ++ exn_str e))
          end
      end
  end.

(** *** [save_visual_sheet] *)

Definition save_visual_sheet (fs : FS) (xml_path : string)
  : FS * list string * result string :=
  match converter_parse xml_path (fs !! xml_path) with
  | Raise e => (fs, [], Raise e)
  | Ok _ =>
      let output_png := PyStr.replace ".musicxml" ".png" xml_path in
      match score_write "musicxml.png" fs xml_path output_png with
      | (fs, Raise e) => (fs, [], Raise e)
      | (fs, Ok _) =>
          (fs, ["Visualization saved to: " ++ output_png], Ok output_png)
      end
  end.

(** *** [process_and_play] *)

Definition visual_notes_library : string := "visual_notes_library".

(** The first stage: the sheet, or the saved picture when the sheet
    raises. *)
Definition review_sheet (fs : FS) (file_path : string)
  : FS * list string * result unit :=
  match generate_visual_sheet fs file_path visual_notes_library with
  | Ok ops =>
      let rendered_image_path := "rendered_" ++ path_stem file_path ++ ".png" in
      (<[rendered_image_path := canvas_image ops]> fs, [], Ok tt)
  | Raise e =>
      let printed :=
        ["GUI Display failed (" ++ exn_str e ++ "), saving to file instead..."] in
      let '(fs, lines, r) := save_visual_sheet fs file_path in
      (fs, (printed ++ lines)%list, let! _ := r in Ok tt)
  end.

(** The second stage: the playback, or the conversion when the playback
    raises. *)
Definition review_sound (fs : FS) (file_path : string)
  : FS * list string * list audio_op * result unit :=
  match play_violin_mp3_library fs file_path chromatic_samples_library with
  | (trace, Ok _) => (fs, [], trace, Ok tt)
  | (trace, Raise e) =>
      let printed :=
        ["Audio device failed (" ++ exn_str e ++ "), rendering MIDI instead..."] in
      let (fs, r) := save_violin_mp3_library fs file_path in
      (fs, printed, trace, let! _ := r in Ok tt)
  end.

(** The whole function: the file system afterwards, what was printed,
    what was done to the audio subsystem, and the value returned ([None]
    when the summary raised) or the exception. *)
Definition process_and_play (fs : FS) (full_path : string)
  : FS * list string * list audio_op * result (option string) :=
  let file_path := PyStr.basename full_path in
  let printed := [file_path] in
  match review_sheet fs file_path with
  | (fs, lines, Raise e) => (fs, (printed ++ lines)%list, [], Raise e)
  | (fs, lines, Ok _) =>
      let printed := (printed ++ lines)%list in
      match review_sound fs file_path with
      | (fs, lines, trace, Raise e) => (fs, (printed ++ lines)%list, trace, Raise e)
      | (fs, lines, trace, Ok _) =>
          let printed := (printed ++ lines)%list in
          match get_notes_from_xml fs file_path with
          | Ok message => (fs, printed, trace, Ok (Some message))
          | Raise e =>
              let line := "Failed (" ++ exn_str e ++ ")..." in
              (fs, (printed ++ [line])%list, trace, Ok None)
          end
      end
  end.

(** *** [VisionTranscribeTool._run] of [maya.py]

    [model] is the tool's vision model: what it answers to the picture,
    or the exception. *)
Definition VisionTranscribeTool_run (model : option (File -> result string))
    (fs : FS) (image_path : string) : FS * list string * string :=
  (* tier 1 *)
  match run_oemer_with_updates fs image_path with
  | (fs, printed, Ok message) => (fs, printed, message)
  | (fs, printed, Raise e) =>
      let error_log := "OMR Error: " ++ exn_str e in
      (* tier 2 *)
      match model with
      | None => (fs, printed, "Error: Vision model not properly initialized in tool.")
      | Some invoke =>
          let response :=
            match fs !! image_path with
            | None => Raise (no_such_file image_path)
            | Some f => invoke f
            end in
          match response with
          | Ok content =>
              let notes_text := Py.strip content in
              let xml_path := PyStr.rsplit_head "." image_path ++ ".musicxml" in
              let (fs, result_log) := update_musicxml fs xml_path notes_text in
              (fs, printed,
               "OMR failed: " ++ error_log ++ ", but Vision Fallback succeeded!" ++
               newline ++ "Log: " ++ result_log)
          | Raise e2 =>
              let error_log :=
                error_log ++ "Vision Fallback Error: " ++ exn_str e2 in
              (* tier 3 *)
              (fs, printed,
               "Total Transcription Failure. Details:" ++ newline ++ error_log)
          end
      end
  end.

End Helpers.

(** ** The routing of the two agents *)

Record ToolCall : Type := mkToolCall {
  tc_name : string;                 (* tool_call["name"] *)
  tc_args : gmap string string;     (* tool_call["args"] *)
  tc_id : string                    (* tool_call["id"] *)
}.

(** The messages of a conversation; only an [AIMessage] has
    [tool_calls]. *)
Inductive Message : Type :=
| HumanMessage (content : string)
| AIMessage (content : string) (tool_calls : list ToolCall)
| SystemMessage (content : string)
| ToolMessage (content : string) (name : string) (tool_call_id : string).

Definition content_of (m : Message) : string :=
  match m with
  | HumanMessage c | AIMessage c _ | SystemMessage c | ToolMessage c _ _ => c
  end.

Definition IndexError : exn := mkExn OtherException "list index out of range".
Definition AttributeError : exn :=
  mkExn OtherException "object has no attribute 'tool_calls'".
Definition KeyError (key : string) : exn :=
  mkExn OtherException ("'" ++ key ++ "'").

(** [state.messages[-1].tool_calls] *)
Definition last_tool_calls (messages : list Message) : result (list ToolCall) :=
  match last messages with
  | None => Raise IndexError
  | Some (AIMessage _ tool_calls) => Ok tool_calls
  | Some _ => Raise AttributeError
  end.

(** [_route_user_input], the same in both agents. *)
Definition route_user_input (messages : list Message) : result string :=
  match last messages with
  | None => Raise IndexError
  | Some m =>
      let last_message := Py.strip (Py.lower (content_of m)) in
      if String.eqb last_message "exit" || String.eqb last_message "quit"
      then Ok "end" else Ok "model_response"
  end.

(** The conditional edges out of [user_input], in both agents. *)
Definition user_input_edges : list (string * string) :=
  [("model_response", "model_response"); ("end", "__end__")].

Module Maya.

(** [mapping] of [_check_tool_use]. *)
Definition mapping : list (string * string) :=
  [ ("vision_literal_transcription", "transcribe");
    ("update_musicxml_from_text", "update");
    ("Review_Process_and_Play", "review");
    ("list_workspace_files", "list_files");
    ("clear_conversation_history", "clear") ].

Definition check_tool_use (messages : list Message) : result string :=
  let! tool_calls := last_tool_calls messages in
  match tool_calls with
  | [] => Ok "user_input"
  | tool_call :: _ =>
      match dict_get mapping (tc_name tool_call) with
      | Some node => Ok node
      | None => Ok "user_input"
      end
  end.

(** The conditional edges out of [model_response]. *)
Definition model_response_edges : list (string * string) :=
  [ ("transcribe", "transcribe"); ("update", "update"); ("review", "review");
    ("list_files", "list_files"); ("user_input", "user_input");
    ("clear", "clear") ].

End Maya.

Module FirstAgent.

Definition check_tool_use (messages : list Message) : result string :=
  let! tool_calls := last_tool_calls messages in
  match tool_calls with
  | [] => Ok "user_input"
  | _ => Ok "tool_use"
  end.

Definition model_response_edges : list (string * string) :=
  [("tool_use", "tool_use"); ("user_input", "user_input")].

Section ToolUse.

(** The text files of the file system, and the text of the [TypeError]
    that a call with the wrong keywords raises. *)
Variable fs : gmap string string.
Variable call_error : gmap string string -> string.

(** [FileReadTool._run(file_path)] *)
Definition FileReadTool_run (file_path : string) : result string :=
  match fs !! file_path with
  | Some text => Ok text
  | None => Raise (no_such_file file_path)
  end.

(** [tool._run] called with [tool_args] as keywords: they must be
    [file_path] alone. *)
Definition call_file_read (tool_args : gmap string string) : result string :=
  match tool_args !! "file_path" with
  | Some file_path =>
      if Nat.eqb (size tool_args) 1 then FileReadTool_run file_path
      else Raise (mkExn TypeError (call_error tool_args))
  | None => Raise (mkExn TypeError (call_error tool_args))
  end.

(** [tools_by_name] *)
Definition tools_by_name
  : list (string * (gmap string string -> result string)) :=
  [("file_read", call_file_read)].

(** The loop of [_get_tool_use]; [response] is the list built so far. *)
Fixpoint tool_use_loop (tool_calls : list ToolCall) (response : list Message)
  : result (list Message) :=
  match tool_calls with
  | [] => Ok response
  | tool_call :: rest =>
      let tool_name := tc_name tool_call in
      let tool_args := tc_args tool_call in
      match dict_get tools_by_name tool_name with
      | None => Raise (KeyError tool_name)
      | Some tool =>
          let message :=
            match tool tool_args with
            | Ok tool_result => ToolMessage tool_result tool_name (tc_id tool_call)
            | Raise e =>
                ToolMessage ("Error" ++ exn_str e) tool_name (tc_id tool_call)
            end in
          tool_use_loop rest (response ++ [message])
      end
  end.

Definition get_tool_use (messages : list Message) : result (list Message) :=
  let! tool_calls := last_tool_calls messages in
  tool_use_loop tool_calls [].

(** The tool message that answers a call of [file_read]: the text of the
    file, or the word Error and the text of the exception. *)
Definition file_read_answer (tool_call : ToolCall) : Message :=
  ToolMessage
    match call_file_read (tc_args tool_call) with
    | Ok text => text
    | Raise e => "Error" ++ exn_str e
    end
    "file_read" (tc_id tool_call).

End ToolUse.

End FirstAgent.

(** One behaviour of the tools, for the examples. *)
Module Host.

Definition oemer (fs : gmap string Lib.File) (image_path : string)
  : gmap string Lib.File * list string * result Z :=
  match fs !! image_path with
  | Some Lib.Picture =>
      (<[PyStr.rsplit_head "." image_path ++ ".musicxml" := Lib.Document []]> fs,
       ["reading " ++ image_path; " done "], Ok 0%Z)
  | Some _ => (fs, ["cannot read " ++ image_path], Ok 1%Z)
  | None => (fs, [], Raise (no_such_file "oemer"))
  end.

Definition score_write (fmt : string) (fs : gmap string Lib.File)
    (xml_path fp : string) : gmap string Lib.File * result unit :=
  if String.eqb fmt "midi" then (<[fp := Lib.Unreadable]> fs, Ok tt)
  else (<[fp := Lib.Picture]> fs, Ok tt).

Definition fluidsynth (fs : gmap string Lib.File) (midi_path mp3_path : string)
  : gmap string Lib.File * result unit :=
  (<[mp3_path := Lib.Sample]> fs, Ok tt).

Definition canvas_image (ops : list canvas_op) : Lib.File := Lib.Picture.

#[export] Instance tools : Tools Lib.File :=
  Build_Tools Lib.File oemer score_write fluidsynth canvas_image.

End Host.

(** Example file systems for the review and the agents. *)
Module Demo2.

Import Demo.

(** A working directory with the document of two notes, the stickers of
    its durations and the sample of its first note. *)
Definition studio : gmap string Lib.File :=
  {[ "song.musicxml" := Lib.Document [NoteEv G4 quarter; NoteEv A4 half];
     "visual_notes_library/blank_staff.png" := Lib.Picture;
     "visual_notes_library/quarter.png" := Lib.Picture;
     "visual_notes_library/half.png" := Lib.Picture;
     "chromatic_samples_library/G4.mp3" := Lib.Sample ]}.

(** The same with a chord in the document. *)
Definition studio_with_chord : gmap string Lib.File :=
  <["song.musicxml" :=
      Lib.Document [NoteEv G4 quarter; ChordEv [C4; E4] half]]> studio.

(** Text files. *)
Definition notes_folder : gmap string string :=
  {[ "/tmp/a.txt" := "first"; "/tmp/b.txt" := "second" ]}.

Definition call_error (tool_args : gmap string string) : string :=
  "FileReadTool._run() got unexpected keyword arguments".

End Demo2.

(** ** Further vocabulary *)

(** How often a character occurs in a string. *)
Fixpoint count_char (c : ascii) (s : string) : nat :=
  match s with
  | EmptyString => 0
  | String a s' => (if Ascii.eqb a c then 1 else 0) + count_char c s'
  end.

Definition is_note (ev : Event) : bool :=
  match ev with NoteEv _ _ => true | _ => false end.

Definition is_other (ev : Event) : bool :=
  match ev with OtherEv _ => true | _ => false end.

(** The letters that stand for the flats of an accidental in a sample
    file name. *)
Definition flat_letters (a : option Accidental) : string :=
  match a with
  | Some flat => "b"
  | Some double_flat => "bb"
  | Some triple_flat => "bbb"
  | Some quadruple_flat => "bbbb"
  | _ => ""
  end.

(** An accidental that raises the pitch. *)
Definition is_sharpened (a : option Accidental) : bool :=
  match a with
  | Some sharp | Some double_sharp | Some triple_sharp
  | Some quadruple_sharp => true
  | _ => false
  end.

(** The message of the transcription for each way the run of the tool
    can end. *)
Definition oemer_message (r : result Z) : string :=
  match r with
  | Ok 0%Z => newline ++ "✅ Success! Check your folder for the MIDI/MusicXML files."
  | Ok returncode =>
      newline ++ "❌ Oemer exited with error code: " ++ M21.str_int returncode
  | Raise (mkExn FileNotFoundError _) =>
      "❌ Error: 'oemer' command not found. Is it installed in your environment?"
  | Raise e => "❌ An unexpected error occurred: " ++ exn_str e
  end.

(** What the transcription prints: two lines of its own, then the lines of
    the tool, trimmed. *)
Definition oemer_printed (image_path : string) (lines : list string) : list string :=
  [ "🚀 Starting oemer for: " ++ image_path ++ "...";
    "Note: This can take several minutes. Watching the logs below:" ++ newline ] ++
  map (fun line => "[oemer]: " ++ Py.strip line) lines.

Definition is_mixer_op (op : audio_op) : bool :=
  match op with mixer_init | mixer_quit => true | _ => false end.

(** The operations on the mixer itself, in order. *)
Definition mixer_ops (trace : list audio_op) : list audio_op :=
  filter (fun op => is_mixer_op op = true) trace.

Section SafeOps.

Context {File : Type} `{Ext : Extern File}.
Abbreviation FS := (gmap string File).

(** An operation the engine may do on a file system: a sleep is not
    negative, a sound started is a file that is there and loads, a fade
    lasts 150 ms. *)
Definition safe_op (fs : FS) (op : audio_op) : Prop :=
  match op with
  | time_sleep secs => (0 <= secs)%Q
  | sound_play file_path =>
      exists f, fs !! file_path = Some f /\ is_Ok (mixer_Sound f) = true
  | sound_fadeout _ ms => ms = 150%Z
  | _ => True
  end.

End SafeOps.

(** Every sound that a trace starts is followed at once by a sleep and
    by the fade-out of that sound, of 150 ms. *)
Fixpoint every_sound_fades (trace : list audio_op) : Prop :=
  match trace with
  | [] => True
  | sound_play file_path :: rest =>
      (exists secs rest',
         rest = time_sleep secs :: sound_fadeout file_path 150 :: rest') /\
      every_sound_fades rest
  | _ :: rest => every_sound_fades rest
  end.

(** An event that is no note of negative duration. *)
Definition no_negative_duration (ev : Event) : Prop :=
  match ev with
  | NoteEv _ duration => (0 <= quarterLength duration)%Q
  | _ => True
  end.

(** * Properties *)

(** ** Strings *)

Example split_entries :
  Py.split "," "G4:quarter, A4:half" = ["G4:quarter"; " A4:half"].
Proof. reflexivity. Qed.

Example split_empty : Py.split "," "" = [""].
Proof. reflexivity. Qed.

Example split_trailing : Py.split ":" "G4:1:" = ["G4"; "1"; ""].
Proof. reflexivity. Qed.

Example strip_inner_space : Py.strip "  a b  " = "a b".
Proof. reflexivity. Qed.

Example lower_mixed : Py.lower "QuArTer" = "quarter".
Proof. reflexivity. Qed.

Example float_literals :
  map Lib.float_literal ["1.0"; " .5 "; "-2."; "1e1"; "1_0"; "."; "1__0"; "e5"; ""]
  = [Some 1; Some (1 # 2); Some (-2); Some 10; Some 10; None; None; None; None]%Q.
Proof. reflexivity. Qed.

Example note_names :
  map M21.nameWithOctave [Demo.G4; Demo.G_sharp_4; mkPitch sA (Some flat) (Some 4%Z)]
  = ["G4"; "G#4"; "A-4"].
Proof. reflexivity. Qed.

Example lower_enharmonics :
  map Lib.getLowerEnharmonic
      [ mkPitch sC (Some sharp) (Some 3%Z); mkPitch sC (Some flat) (Some 3%Z);
        mkPitch sE (Some flat) None ]
  = [ Ok (mkPitch sB (Some double_sharp) (Some 2%Z));
      Ok (mkPitch sB None (Some 2%Z));
      Ok (mkPitch sD (Some sharp) None) ].
Proof. reflexivity. Qed.

Lemma split_nonempty (sep : ascii) (s : string) : Py.split sep s <> [].
Proof.
  destruct s as [|c s]; simpl; [discriminate|].
  destruct (Ascii.eqb c sep); [discriminate|].
  destruct (Py.split sep s); discriminate.
Qed.

(** A string without the separator is one field. *)
Lemma split_without_sep (sep : ascii) (s : string) :
  (forall c, In c (list_ascii_of_string s) -> Ascii.eqb c sep = false) ->
  Py.split sep s = [s].
Proof.
  induction s as [|c s IH]; intros Hs; simpl; [reflexivity|].
  rewrite (Hs c) by (simpl; auto).
  rewrite IH; [reflexivity|].
  intros d Hd. apply Hs. simpl; auto.
Qed.

Lemma isspace_not_comma (c : ascii) : Py.isspace c = true -> Ascii.eqb c "," = false.
Proof.
  destruct (Ascii.eqb_spec c ","%char) as [->|]; [|reflexivity].
  vm_compute. discriminate.
Qed.

Lemma blank_chars (s : string) :
  Py.blank s = true ->
  forall c, In c (list_ascii_of_string s) -> Py.isspace c = true.
Proof.
  induction s as [|a s IH]; simpl; intros Hb c Hc; [contradiction|].
  apply andb_prop in Hb as [Ha Hs].
  destruct Hc as [<-|Hc]; auto.
Qed.

Lemma lstrip_blank (s : string) : Py.blank s = true -> Py.lstrip s = "".
Proof.
  induction s as [|a s IH]; simpl; intros Hb; [reflexivity|].
  apply andb_prop in Hb as [Ha Hs]. rewrite Ha. auto.
Qed.

Lemma strip_blank (s : string) : Py.blank s = true -> Py.strip s = "".
Proof. intros Hb. unfold Py.strip. rewrite lstrip_blank by assumption. reflexivity. Qed.

Lemma string_app_assoc (a b c : string) : (a ++ b) ++ c = a ++ (b ++ c).
Proof.
  induction a as [|x a IH]; [reflexivity|].
  change (String x ((a ++ b) ++ c) = String x (a ++ (b ++ c))).
  now rewrite IH.
Qed.

(** The suffixes [_rev.png] and [.png] name different files. *)
Lemma rev_name_differs (t : string) : t ++ "_rev.png" <> t ++ ".png".
Proof.
  induction t as [|c t IH]; simpl; [discriminate|].
  intros H. injection H as H. contradiction.
Qed.

Section Decode.

Context {File : Type} `{Ext : Extern File}.
Abbreviation FS := (gmap string File).

(** ** Decode *)

(** An entry decodes exactly when it has two [:]-separated parts, the
    second resolves to a duration, the first names a pitch and the
    duration can be assigned to the note. *)
Lemma decode_entry_Ok (entry : string) (n : NewNote) :
  decode_entry entry = Ok n <->
  exists (pitch_name dur_val : string) (dur : PrimFloat.float),
    Py.split ":" entry = [pitch_name; dur_val] /\
    resolve_duration dur_val = Ok dur /\
    Note pitch_name = Ok (nn_pitch n) /\
    set_quarterLength dur = Ok (nn_quarterLength n).
Proof.
  unfold decode_entry. split.
  - destruct (Py.split ":" entry) as [|a [|b [|c l]]]; try discriminate.
    intros H. exists a, b.
    destruct (resolve_duration b) as [v|e]; simpl in H; [|discriminate].
    destruct (Note a) as [p|e]; simpl in H; [|discriminate].
    destruct (set_quarterLength v) as [q|e] eqn:Hq; simpl in H; [|discriminate].
    injection H as <-. exists v. auto.
  - intros (a & b & v & -> & Hd & Hn & Hq). rewrite Hd; simpl. rewrite Hn; simpl.
    rewrite Hq; simpl. destruct n; reflexivity.
Qed.

(** The loop appends the decoded entries, in order, to the stream. *)
Lemma decode_loop_Ok (entries : list string) (acc notes : list NewNote) :
  decode_loop entries acc = Ok notes <->
  exists ns, Forall2 (fun entry n => decode_entry entry = Ok n) entries ns /\
             notes = (acc ++ ns)%list.
Proof.
  revert acc notes. induction entries as [|entry rest IH]; intros acc notes; simpl.
  - split.
    + intros [= <-]. exists []. split; [constructor|]. now rewrite app_nil_r.
    + intros (ns & HF & ->). inversion HF. now rewrite app_nil_r.
  - destruct (decode_entry entry) as [n|e] eqn:He; simpl.
    + rewrite IH. split.
      * intros (ns & HF & ->). exists (n :: ns). split; [constructor; auto|].
        now rewrite <- app_assoc.
      * intros (ns & HF & ->). inversion HF as [|? n' ? ns' Hn HF']; subst.
        rewrite He in Hn. injection Hn as <-. exists ns'. split; [assumption|].
        now rewrite <- app_assoc.
    + split; [discriminate|].
      intros (ns & HF & _). inversion HF; subst. congruence.
Qed.

(** The loop raises what its first failing entry raises. *)
Lemma decode_loop_Raise (entries : list string) (acc : list NewNote) (e : exn) :
  decode_loop entries acc = Raise e <->
  exists before entry after,
    entries = (before ++ entry :: after)%list /\
    Forall (fun x => is_Ok (decode_entry x) = true) before /\
    decode_entry entry = Raise e.
Proof.
  revert acc. induction entries as [|entry rest IH]; intros acc; simpl.
  - split; [discriminate|].
    intros (b & x & a & H & _). destruct b; discriminate.
  - destruct (decode_entry entry) as [n|e'] eqn:He; simpl.
    + rewrite IH. split.
      * intros (b & x & a & -> & HF & Hx).
        exists (entry :: b), x, a. repeat split; auto.
        constructor; [now rewrite He|assumption].
      * intros (b & x & a & Heq & HF & Hx).
        destruct b as [|y b]; simpl in Heq; injection Heq as -> ->.
        -- congruence.
        -- inversion HF; subst. exists b, x, a. auto.
    + split.
      * intros [= ->]. exists [], entry, rest. repeat split; auto.
      * intros (b & x & a & Heq & HF & Hx).
        destruct b as [|y b]; simpl in Heq; injection Heq as -> ->.
        -- congruence.
        -- inversion HF as [|? ? Hy]; subst. rewrite He in Hy. discriminate.
Qed.

Lemma decode_Ok (text : string) (notes : list NewNote) :
  decode text = Ok notes <->
  Forall2 (fun entry n => decode_entry entry = Ok n)
          (map Py.strip (Py.split "," text)) notes.
Proof.
  unfold decode. rewrite decode_loop_Ok. simpl. split.
  - intros (ns & HF & ->). exact HF.
  - intros HF. exists notes. auto.
Qed.

Lemma update_musicxml_Raise (fs : FS) (xml_path text : string) (e : exn) :
  decode text = Raise e ->
  update_musicxml fs xml_path text = (fs, error_parsing e).
Proof. intros H. unfold update_musicxml. rewrite H. reflexivity. Qed.

End Decode.

Section Codec.

Context {File : Type} `{Ext : Extern File}.
Abbreviation FS := (gmap string File).

Lemma resolve_duration_Ok (dur_val : string) (dur : PrimFloat.float) :
  resolve_duration dur_val = Ok dur <->
  match dict_get duration_map (Py.lower (Py.strip dur_val)) with
  | Some v => dur = v
  | None => float dur_val = Ok dur
  end.
Proof.
  unfold resolve_duration.
  destruct (dict_get duration_map (Py.lower (Py.strip dur_val))).
  - split; [intros [= ->]|intros ->]; reflexivity.
  - reflexivity.
Qed.

(** The five floats of the table are greater than zero. *)
Lemma duration_map_positive (key : string) (v : PrimFloat.float) :
  dict_get duration_map key = Some v -> PrimFloat.ltb 0 v = true.
Proof.
  unfold duration_map. simpl.
  repeat (destruct (String.eqb key _); [intros [= <-]; reflexivity |]).
  discriminate.
Qed.

Lemma first_failing_entry (entries : list string) :
  (exists entry, In entry entries /\ is_Ok (decode_entry entry) = false) ->
  exists before entry after e,
    entries = (before ++ entry :: after)%list /\
    Forall (fun x => is_Ok (decode_entry x) = true) before /\
    decode_entry entry = Raise e.
Proof.
  induction entries as [|x rest IH]; intros (entry & Hin & Hbad).
  - destruct Hin.
  - destruct (decode_entry x) as [n|e] eqn:Hx.
    + destruct Hin as [<-|Hin]; [rewrite Hx in Hbad; discriminate|].
      destruct IH as (b & y & a & e & -> & HF & Hy); [eauto|].
      exists (x :: b), y, a, e. repeat split; auto.
      constructor; [now rewrite Hx|assumption].
    + exists [], x, rest, e. repeat split; auto.
Qed.

(** C1, amended: a successful decode of an ASCII text pairs the entries
    of the text, in order, with the notes of the stream; the note of an
    entry [Pitch:Duration] has the pitch that the notation library makes of
    [Pitch], and its quarter length is what the library stores when it is
    assigned the float of the table {16th: 0.25, eighth: 0.5, quarter: 1.0,
    half: 2.0, whole: 4.0} when [Duration] (trimmed, in lower case) is one
    of its names, and when it is assigned the float that [float] makes of
    [Duration] otherwise; the decode fails when that assignment does.  If
    the library reads "G4" and "A4" as G and A of octave 4 and stores 1.0
    and 2.0 as they are, then "G4:quarter, A4:half" decodes to (G,4,1.0)
    followed by (A,4,2.0). *)
Theorem decode_table_or_float :
  (forall (text : string) (notes : list NewNote),
     Py.isascii text = true ->
     (decode text = Ok notes <->
      Forall2
        (fun entry n =>
           exists (pitch_name dur_val : string) (dur : PrimFloat.float),
             Py.split ":" entry = [pitch_name; dur_val] /\
             match dict_get duration_map (Py.lower (Py.strip dur_val)) with
             | Some v => dur = v
             | None => float dur_val = Ok dur
             end /\
             Note pitch_name = Ok (nn_pitch n) /\
             set_quarterLength dur = Ok (nn_quarterLength n))
        (map Py.strip (Py.split "," text)) notes)) /\
  map (fun name => dict_get duration_map (Py.lower (Py.strip name)))
      ["16th"; "eighth"; "quarter"; "half"; "whole"]
  = [Some 0.25; Some 0.5; Some 1; Some 2; Some 4]%float /\
  (Note "G4" = Ok (mkPitch sG None (Some 4%Z)) ->
   Note "A4" = Ok (mkPitch sA None (Some 4%Z)) ->
   set_quarterLength 1%float = Ok 1%Q ->
   set_quarterLength 2%float = Ok 2%Q ->
   decode "G4:quarter, A4:half"
   = Ok [ mkNewNote (mkPitch sG None (Some 4%Z)) 1;
          mkNewNote (mkPitch sA None (Some 4%Z)) 2 ]).
Proof.
  split; [|split; [reflexivity|]].
  - intros text notes _. rewrite decode_Ok.
    split; intros HF; eapply Forall2_impl; try exact HF;
      intros entry n; cbv beta; rewrite decode_entry_Ok;
      intros (p & d & v & Hs & H1 & H2 & H3); exists p, d, v.
    + rewrite resolve_duration_Ok in H1. tauto.
    + rewrite resolve_duration_Ok. tauto.
  - intros HG HA H1 H2. apply decode_Ok. simpl.
    repeat constructor; apply decode_entry_Ok; simpl.
    + exists "G4", "quarter", 1%float. auto.
    + exists "A4", "half", 2%float. auto.
Qed.

(** C2, amended: when some entry of the correction text does not decode
    (it has not exactly two [:]-separated parts, its duration is no name of
    the table and [float] raises on it, or the notation library refuses its
    pitch), nothing is written: the file system is returned as it was, and
    the caller receives the string
    "Error parsing notes: <text>. Please use format 'Pitch:Duration'."
    where <text> is the text of the exception of the first such entry.  For
    an entry without a colon that text is the fixed
    "not enough values to unpack (expected 2, got 1)"; for a bad duration or
    pitch it is the text the raising call gives. *)
Theorem failed_decode_is_reported :
  (forall (fs : FS) (xml_path text : string),
     (exists entry, In entry (map Py.strip (Py.split "," text)) /\
                    is_Ok (decode_entry entry) = false) ->
     exists before entry after e,
       map Py.strip (Py.split "," text) = (before ++ entry :: after)%list /\
       Forall (fun x => is_Ok (decode_entry x) = true) before /\
       decode_entry entry = Raise e /\
       update_musicxml fs xml_path text
       = (fs, "Error parsing notes: " ++ exn_str e ++
              ". Please use format 'Pitch:Duration'.")) /\
  (forall entry : string,
     (forall c, In c (list_ascii_of_string entry) -> Ascii.eqb c ":" = false) ->
     decode_entry entry
     = Raise (mkExn ValueError "not enough values to unpack (expected 2, got 1)")) /\
  (forall entry : string,
     length (Py.split ":" entry) <> 2%nat ->
     decode_entry entry = Raise (unpack_error (length (Py.split ":" entry)))) /\
  (forall (entry pitch_name dur_val : string) (e : exn),
     Py.split ":" entry = [pitch_name; dur_val] ->
     dict_get duration_map (Py.lower (Py.strip dur_val)) = None ->
     float dur_val = Raise e ->
     decode_entry entry = Raise e) /\
  (forall (entry pitch_name dur_val : string) (q : PrimFloat.float) (e : exn),
     Py.split ":" entry = [pitch_name; dur_val] ->
     resolve_duration dur_val = Ok q ->
     Note pitch_name = Raise e ->
     decode_entry entry = Raise e).
Proof.
  repeat split.
  - intros fs xml_path text Hbad.
    destruct (first_failing_entry _ Hbad) as (b & x & a & e & Heq & HF & Hx).
    exists b, x, a, e. repeat split; auto.
    apply update_musicxml_Raise. unfold decode. apply decode_loop_Raise.
    exists b, x, a. auto.
  - intros entry Hc. unfold decode_entry.
    rewrite split_without_sep by assumption. reflexivity.
  - intros entry Hlen. unfold decode_entry.
    destruct (Py.split ":" entry) as [|a [|b [|c l]]]; try reflexivity.
    simpl in Hlen. congruence.
  - intros entry p d e Hs Hd Hf. unfold decode_entry, resolve_duration.
    rewrite Hs, Hd, Hf. reflexivity.
  - intros entry p d q e Hs Hd Hn. unfold decode_entry.
    rewrite Hs, Hd. simpl. rewrite Hn. reflexivity.
Qed.

(** C9, amended: the decode checks no invariant of its own.  Every note of
    a successful decode of an ASCII text has the pitch that the notation
    library makes of the pitch token of its own entry, and the quarter
    length that the library stores for the duration token of its own
    entry: for a name of the table one of its five floats, all greater than
    zero, and otherwise the float of [float], of whatever sign: an entry
    decodes as soon as its parts are read and the assignment is accepted,
    a zero or negative length included.  Such a stream is kept from the document only by the
    writer: when the writer refuses the stream nothing is written and the
    caller receives the error string. *)
Theorem decoded_notes :
  (forall (text : string) (notes : list NewNote),
     Py.isascii text = true ->
     decode text = Ok notes ->
     Forall2
       (fun entry n =>
          exists (pitch_name dur_val : string) (dur : PrimFloat.float),
            Py.split ":" entry = [pitch_name; dur_val] /\
            Note pitch_name = Ok (nn_pitch n) /\
            resolve_duration dur_val = Ok dur /\
            set_quarterLength dur = Ok (nn_quarterLength n) /\
            (forall v : PrimFloat.float,
               dict_get duration_map (Py.lower (Py.strip dur_val)) = Some v ->
               dur = v /\ PrimFloat.ltb 0 v = true))
       (map Py.strip (Py.split "," text)) notes) /\
  (forall (entry pitch_name dur_val : string) (p : Pitch)
          (dur : PrimFloat.float) (q : Q),
     Py.split ":" entry = [pitch_name; dur_val] ->
     dict_get duration_map (Py.lower (Py.strip dur_val)) = None ->
     float dur_val = Ok dur ->
     Note pitch_name = Ok p ->
     set_quarterLength dur = Ok q ->
     decode_entry entry = Ok (mkNewNote p q)) /\
  (forall (fs : FS) (xml_path text : string) (notes : list NewNote) (e : exn),
     decode text = Ok notes ->
     stream_write notes = Raise e ->
     update_musicxml fs xml_path text = (fs, error_parsing e)).
Proof.
  split; [|split].
  - intros text notes _. rewrite decode_Ok. intros HF.
    eapply Forall2_impl; [exact HF|].
    intros entry n; cbv beta. rewrite decode_entry_Ok.
    intros (p & d & v & Hs & Hd & Hn & Hq). exists p, d, v.
    repeat (split; [assumption|]).
    intros v' Hv'. unfold resolve_duration in Hd. rewrite Hv' in Hd.
    injection Hd as <-. split; [reflexivity|].
    eapply duration_map_positive; eauto.
  - intros entry pitch_name dur_val p dur q Hs Hd Hf Hn Hq.
    apply decode_entry_Ok. exists pitch_name, dur_val, dur.
    unfold resolve_duration. rewrite Hd. auto.
  - intros fs xml_path text notes e Hd Hw.
    unfold update_musicxml. rewrite Hd, Hw. reflexivity.
Qed.

(** C10: a correction text of white space only, the empty text included,
    is refused with the parse-error message and nothing is written; and no
    text at all decodes to the empty sequence. *)
Theorem blank_text_is_refused :
  (forall (fs : FS) (xml_path text : string),
     Py.blank text = true ->
     update_musicxml fs xml_path text
     = (fs, "Error parsing notes: not enough values to unpack (expected 2, got 1). Please use format 'Pitch:Duration'.")) /\
  (forall (text : string) (notes : list NewNote),
     decode text = Ok notes -> notes <> []).
Proof.
  split.
  - intros fs xml_path text Hb.
    apply (update_musicxml_Raise fs xml_path text
             (mkExn ValueError "not enough values to unpack (expected 2, got 1)")).
    unfold decode.
    rewrite split_without_sep
      by (intros c Hc; apply isspace_not_comma; eapply blank_chars; eauto).
    simpl. rewrite strip_blank by assumption. reflexivity.
  - intros text notes H. apply decode_Ok in H.
    intros ->. inversion H as [Hnil|].
    apply (split_nonempty "," text).
    destruct (Py.split "," text); [reflexivity|discriminate].
Qed.

End Codec.

Section PlaybackProperties.

Context {File : Type} `{Ext : Extern File}.
Abbreviation FS := (gmap string File).

(** ** Playback *)

Lemma blocked_time_app (l1 l2 : list audio_op) :
  (blocked_time (l1 ++ l2) == blocked_time l1 + blocked_time l2)%Q.
Proof.
  induction l1 as [|op l1 IH]; simpl.
  - now rewrite Qplus_0_l.
  - destruct op; try exact IH. rewrite IH. now rewrite Qplus_assoc.
Qed.

Lemma sounds_played_app (l1 l2 : list audio_op) :
  sounds_played (l1 ++ l2) = (sounds_played l1 ++ sounds_played l2)%list.
Proof.
  induction l1 as [|op l1 IH]; simpl; [reflexivity|].
  destruct op; simpl; now rewrite ?IH.
Qed.

Lemma missing_warnings_app (l1 l2 : list msg_part) :
  missing_warnings (l1 ++ l2) = (missing_warnings l1 + missing_warnings l2)%nat.
Proof. unfold missing_warnings. now rewrite filter_app, length_app. Qed.

Lemma missing_warnings_snoc (l : list msg_part) (m : msg_part) :
  missing_warnings (l ++ [m]) =
  (missing_warnings l + (if is_missing_warning m then 1 else 0))%nat.
Proof. rewrite missing_warnings_app. destruct m; reflexivity. Qed.

Lemma sleep_nonneg (secs : Q) (st : play_state) :
  (0 <= secs)%Q -> sleep secs st = Ok (add_audio (time_sleep secs) st).
Proof.
  intros H. unfold sleep. apply Qle_bool_iff in H. now rewrite H.
Qed.

Lemma scaled_nonneg (q : Q) : (0 <= q)%Q -> (0 <= q * seconds_per_beat)%Q.
Proof. intros H. apply Qmult_le_0_compat; [assumption|discriminate]. Qed.

(** One timed note: the loop goes on, the note blocks for its scaled
    duration unless its sample is there and fails to load, it adds a
    warning exactly when its sample is missing, and its sample is started
    exactly when it is there and loads. *)
Lemma play_note_timed (fs : FS) (folder_name : string)
    (pitch : Pitch) (duration : Duration) (st : play_state) :
  timed_note (NoteEv pitch duration) ->
  exists st',
    play_note fs folder_name pitch duration st = (st', None) /\
    (blocked_time (audio st') ==
     blocked_time (audio st) +
     (if sample_missing fs folder_name pitch || sample_loads fs folder_name pitch
      then quarterLength duration * seconds_per_beat else 0))%Q /\
    missing_warnings (message st') =
    (missing_warnings (message st) +
     (if sample_missing fs folder_name pitch then 1 else 0))%nat /\
    sounds_played (audio st') =
    (sounds_played (audio st) ++ loaded_sample fs folder_name pitch)%list.
Proof.
  intros [Hname Hq].
  unfold play_note, sample_missing, sample_loads, loaded_sample.
  destruct (sample_filename pitch) as [filename|e]; [|discriminate].
  destruct (fs !! os_path_join folder_name filename) as [f|].
  - destruct (mixer_Sound f) as [u|e]; simpl.
    + rewrite sleep_nonneg by (simpl; now apply scaled_nonneg).
      eexists. split; [reflexivity|]. simpl. repeat split.
      * rewrite !blocked_time_app. simpl. ring.
      * rewrite missing_warnings_snoc. simpl. lia.
      * rewrite !sounds_played_app. simpl. now rewrite !app_nil_r.
    + eexists. split; [reflexivity|]. simpl. repeat split.
      * ring.
      * rewrite !missing_warnings_snoc. simpl. lia.
      * now rewrite app_nil_r.
  - rewrite sleep_nonneg by (simpl; now apply scaled_nonneg).
    eexists. split; [reflexivity|]. simpl. repeat split.
    + rewrite blocked_time_app. simpl. ring.
    + rewrite missing_warnings_snoc. simpl. lia.
    + rewrite sounds_played_app. simpl. reflexivity.
Qed.

Lemma play_loop_timed (fs : FS) (folder_name : string) (notes : list Event) :
  Forall timed_note notes ->
  forall st, exists st',
    play_loop fs folder_name notes st = (st', None) /\
    (blocked_time (audio st') ==
     blocked_time (audio st) + scaled_durations fs folder_name notes)%Q /\
    missing_warnings (message st') =
    (missing_warnings (message st) + missing_notes fs folder_name notes)%nat /\
    sounds_played (audio st') =
    (sounds_played (audio st) ++ loaded_samples fs folder_name notes)%list.
Proof.
  induction 1 as [|ev rest Hev _ IH]; intros st; simpl.
  - exists st. split; [reflexivity|]. repeat split; [ring|lia|].
    now rewrite app_nil_r.
  - destruct ev as [pitch duration| |]; try apply IH.
    destruct (play_note_timed fs folder_name pitch duration st Hev)
      as (st1 & -> & Hb1 & Hm1 & Hs1).
    destruct (IH st1) as (st2 & -> & Hb2 & Hm2 & Hs2).
    exists st2. split; [reflexivity|]. repeat split.
    + rewrite Hb2, Hb1. ring.
    + rewrite Hm2, Hm1. lia.
    + rewrite Hs2, Hs1. now rewrite <- app_assoc.
Qed.

Lemma play_timed (fs : FS) (xml_path folder_name : string) (f : File)
    (notes : list Event) :
  fs !! xml_path = Some f ->
  converter_parse xml_path (Some f) = Ok notes ->
  Forall timed_note notes ->
  exists trace msg,
    play_violin_mp3_library fs xml_path folder_name = (trace, Ok msg) /\
    (blocked_time trace == scaled_durations fs folder_name notes)%Q /\
    missing_warnings msg = missing_notes fs folder_name notes /\
    sounds_played trace = loaded_samples fs folder_name notes.
Proof.
  intros Hf Hp Hn. unfold play_violin_mp3_library. rewrite Hf, Hp.
  cbv zeta. cbn [audio message].
  destruct (play_loop_timed fs folder_name notes Hn
              (mkPlay [mixer_init] [MsgReady folder_name]))
    as (st & -> & Hb & Hm & Hs).
  do 2 eexists. split; [reflexivity|]. simpl. repeat split.
  - rewrite blocked_time_app, Hb. simpl. ring.
  - rewrite missing_warnings_snoc, Hm. simpl. lia.
  - rewrite sounds_played_app, Hs. simpl. now rewrite app_nil_r.
Qed.

(** C3, amended: for a document whose notes have a sample name and a
    duration that is not negative, the playback returns its message; a
    note whose sample file is missing starts no sound, blocks for its
    quarter length times 0.6 s and adds one missing-asset warning, a note
    whose sample is there and loads blocks for the same time, and a note
    whose sample is there but fails to load does not block.  So the caller
    is blocked for the sum of the scaled durations of the notes whose
    sample is missing or loads, the message holds one warning per note
    whose sample is missing, and the sounds started are the samples that
    load; a sequence of one note whose sample loads and one whose sample
    is missing, in either order, starts one sound, blocks for the sum of
    both scaled durations and returns exactly one warning. *)
Theorem playback_blocks_and_warns :
  (forall (fs : FS) (xml_path folder_name : string) (f : File)
          (notes : list Event),
     fs !! xml_path = Some f ->
     converter_parse xml_path (Some f) = Ok notes ->
     Forall timed_note notes ->
     exists trace msg,
       play_violin_mp3_library fs xml_path folder_name = (trace, Ok msg) /\
       (blocked_time trace == scaled_durations fs folder_name notes)%Q /\
       missing_warnings msg = missing_notes fs folder_name notes /\
       sounds_played trace = loaded_samples fs folder_name notes) /\
  (forall (fs : FS) (xml_path folder_name : string) (f : File)
          (notes : list Event) (p1 p2 : Pitch) (d1 d2 : Duration),
     fs !! xml_path = Some f ->
     converter_parse xml_path (Some f) = Ok notes ->
     notes = [NoteEv p1 d1; NoteEv p2 d2] \/ notes = [NoteEv p2 d2; NoteEv p1 d1] ->
     (0 <= quarterLength d1)%Q -> (0 <= quarterLength d2)%Q ->
     sample_loads fs folder_name p1 = true ->
     sample_missing fs folder_name p2 = true ->
     exists trace msg,
       play_violin_mp3_library fs xml_path folder_name = (trace, Ok msg) /\
       (blocked_time trace ==
        quarterLength d1 * (6 # 10) + quarterLength d2 * (6 # 10))%Q /\
       missing_warnings msg = 1%nat /\
       length (sounds_played trace) = 1%nat).
Proof.
  split; [exact play_timed|].
  intros fs xml_path folder_name f notes p1 p2 d1 d2 Hf Hp Hnotes Hq1 Hq2 Hl Hm.
  assert (Hn1 : is_Ok (sample_filename p1) = true).
  { unfold sample_loads in Hl. destruct (sample_filename p1); [reflexivity|discriminate]. }
  assert (Hn2 : is_Ok (sample_filename p2) = true).
  { unfold sample_missing in Hm. destruct (sample_filename p2); [reflexivity|discriminate]. }
  assert (Hm1 : sample_missing fs folder_name p1 = false).
  { unfold sample_loads in Hl. unfold sample_missing.
    destruct (sample_filename p1); [|reflexivity].
    destruct (fs !! os_path_join folder_name a); [reflexivity|discriminate]. }
  assert (Hs1 : length (loaded_sample fs folder_name p1) = 1%nat).
  { unfold sample_loads in Hl. unfold loaded_sample.
    destruct (sample_filename p1); [|discriminate].
    destruct (fs !! os_path_join folder_name a); [|discriminate].
    now rewrite Hl. }
  assert (Hs2 : loaded_sample fs folder_name p2 = []).
  { unfold sample_missing in Hm. unfold loaded_sample.
    destruct (sample_filename p2); [|reflexivity].
    destruct (fs !! os_path_join folder_name a); [discriminate|reflexivity]. }
  destruct (play_timed fs xml_path folder_name f notes Hf Hp)
    as (trace & msg & Hplay & Hb & Hw & Hs).
  { destruct Hnotes as [-> | ->]; repeat constructor; assumption. }
  exists trace, msg. split; [exact Hplay|].
  destruct Hnotes as [-> | ->]; simpl in Hb, Hw, Hs;
    rewrite Hl, Hm, Hm1 in *; simpl in Hb, Hw; repeat split; try exact Hw.
  - rewrite Hb; unfold seconds_per_beat; ring.
  - rewrite Hs, Hs2, !app_nil_r. exact Hs1.
  - rewrite Hb; unfold seconds_per_beat; ring.
  - rewrite Hs, Hs2, app_nil_r. exact Hs1.
Qed.

(** C7: the session starts the mixer and, when the document is not at
    [xml_path], returns the not-found message without stopping it; when
    the document does not parse, the exception leaves the function with
    the mixer started as well. *)
Theorem mixer_not_released_without_document :
  (forall (fs : FS) (xml_path folder_name : string),
     fs !! xml_path = None ->
     play_violin_mp3_library fs xml_path folder_name
     = ([mixer_init], Ok [MsgNotFound xml_path])) /\
  (forall (fs : FS) (xml_path folder_name : string) (f : File) (e : exn),
     fs !! xml_path = Some f ->
     converter_parse xml_path (Some f) = Raise e ->
     play_violin_mp3_library fs xml_path folder_name = ([mixer_init], Raise e)).
Proof.
  split.
  - intros fs xml_path folder_name H. unfold play_violin_mp3_library.
    now rewrite H.
  - intros fs xml_path folder_name f e Hf Hp. unfold play_violin_mp3_library.
    now rewrite Hf, Hp.
Qed.

End PlaybackProperties.

(** ** Floats

    The order of the floats, read on their exact values. *)

(** The mantissa of a float has as many bits as its number of digits. *)
Lemma digits2_pos_bounds (m : positive) :
  (2 ^ (Zpos (digits2_pos m) - 1) <= Zpos m < 2 ^ Zpos (digits2_pos m))%Z.
Proof.
  induction m as [p IH|p IH|]; cbn [digits2_pos].
  - rewrite Pos2Z.inj_succ.
    replace (Z.succ (Zpos (digits2_pos p)) - 1)%Z
      with (Z.succ (Zpos (digits2_pos p) - 1))%Z by lia.
    rewrite !Z.pow_succ_r by lia. lia.
  - rewrite Pos2Z.inj_succ.
    replace (Z.succ (Zpos (digits2_pos p)) - 1)%Z
      with (Z.succ (Zpos (digits2_pos p) - 1))%Z by lia.
    rewrite !Z.pow_succ_r by lia. lia.
  - simpl. lia.
Qed.

(** The float 4.0 is 2^52 * 2^-50. *)
Lemma four_as_spec_float : Prim2SF 4 = S754_finite false 4503599627370496 (-50).
Proof. reflexivity. Qed.

(** A positive finite float is above 4.0 exactly when its value is. *)
Lemma finite_above_four (m : positive) (e : Z) :
  bounded prec emax m e = true ->
  SFltb (S754_finite false 4503599627370496 (-50)) (S754_finite false m e) = true <->
  (4 < match e with
       | Z.neg p => Zpos m # Pos.pow 2 p
       | _ => inject_Z (Zpos m * 2 ^ e)
       end)%Q.
Proof.
  intros Hb. unfold bounded, canonical_mantissa, fexp, emin, prec, emax in Hb.
  apply andb_prop in Hb as [Hc _]. apply Z.eqb_eq in Hc.
  pose proof (digits2_pos_bounds m) as Hd.
  set (d := Zpos (digits2_pos m)) in *.
  assert (Hq : forall p : positive,
            (4 < Zpos m # Pos.pow 2 p)%Q <-> (4 * 2 ^ Zpos p < Zpos m)%Z).
  { intros p. unfold Qlt. cbn [Qnum Qden]. rewrite Pos2Z.inj_pow. lia. }
  unfold SFltb, SFcompare.
  destruct (Z.compare_spec (-50) e) as [<-|Hlt|Hgt].
  - change (Pos.compare_cont Eq 4503599627370496 m)
      with (4503599627370496 ?= m)%positive.
    rewrite Hq. change (4 * 2 ^ 50)%Z with 4503599627370496%Z.
    clear Hc Hd Hq d.
    destruct (Pos.compare_spec 4503599627370496 m) as [Heq|H|H].
    + split; [discriminate|]. rewrite <- Heq. intros H'.
      exfalso. exact (Z.lt_irrefl _ H').
    + split; [intros _|reflexivity]. exact H.
    + split; [discriminate|]. intros H'. exfalso.
      exact (Pos.lt_irrefl _ (Pos.lt_trans _ _ _ H H')).
  - assert (d = 53)%Z as Hd53 by lia. rewrite Hd53 in Hd.
    change (2 ^ (53 - 1))%Z with 4503599627370496%Z in Hd.
    split; [intros _|reflexivity].
    destruct e as [|p|p].
    + unfold Qlt. cbn [Qnum Qden inject_Z]. rewrite Z.pow_0_r. lia.
    + unfold Qlt. cbn [Qnum Qden inject_Z].
      assert (1 <= 2 ^ Zpos p)%Z by (apply (Z.pow_le_mono_r 2 0); lia).
      nia.
    + apply Hq.
      assert (2 ^ Zpos p <= 2 ^ 49)%Z by (apply Z.pow_le_mono_r; lia).
      change (2 ^ 49)%Z with 562949953421312%Z in *. lia.
  - assert (d <= 53)%Z as Hd53 by lia.
    split; [discriminate|]. intros H. exfalso.
    destruct e as [|p|p]; try lia.
    apply Hq in H.
    assert (2 ^ 51 <= 2 ^ Zpos p)%Z by (apply Z.pow_le_mono_r; lia).
    assert (2 ^ d <= 2 ^ 53)%Z by (apply Z.pow_le_mono_r; lia).
    change (2 ^ 51)%Z with 2251799813685248%Z in *.
    change (2 ^ 53)%Z with 9007199254740992%Z in *. lia.
Qed.

(** A float is above 4.0 exactly when its value is above 4, or it is the
    positive infinity. *)
Lemma float_above_four (f : PrimFloat.float) :
  PrimFloat.ltb 4 f = true <->
  match Py.float_value f with
  | Some q => (4 < q)%Q
  | None => f = infinity
  end.
Proof.
  rewrite ltb_spec, four_as_spec_float. unfold Py.float_value.
  pose proof (Prim2SF_valid f) as Hv. pose proof (SF2Prim_Prim2SF f) as Hf.
  destruct (Prim2SF f) as [s|s| |s m e].
  - split; [discriminate|]. intros H. discriminate H.
  - destruct s; cbn [SFltb SFcompare].
    + split; [discriminate|]. intros ->. discriminate Hf.
    + split; [|reflexivity]. intros _. now rewrite <- Hf.
  - split; [discriminate|]. intros ->. discriminate Hf.
  - cbv zeta. rewrite Qred_correct. destruct s.
    + split; [discriminate|]. intros H. exfalso.
      destruct e as [|p|p]; unfold Qlt in H; cbn [Qnum Qden inject_Z] in H.
      * rewrite Z.pow_0_r in H. lia.
      * assert (0 < 2 ^ Zpos p)%Z by (apply Z.pow_pos_nonneg; lia). nia.
      * lia.
    + apply finite_above_four. exact Hv.
Qed.

Section RendererProperties.

Context {File : Type} `{Ext : Extern File}.
Abbreviation FS := (gmap string File).

(** ** Renderer *)

Lemma to_float_add (a : PrimFloat.float) (b : Py.number) :
  Py.to_float (Py.add (Py.Float a) b) = PrimFloat.add a (Py.to_float b).
Proof. destruct b; reflexivity. Qed.

(** The body of the loop on an overfull line, once the sticker is open. *)
Lemma render_note_wrap (fs : FS) (library_folder : string)
    (pitch : Pitch) (duration : Duration) (st : sheet_state) (sticker : string) :
  wrap_needed st = true ->
  open_sticker fs library_folder pitch duration = Ok sticker ->
  render_note fs library_folder pitch duration st
  = Ok (mkSheet (Py.add (Py.Int 100) (advance (quarterLength duration)))
                (y_origin_offset st + 500)
                (accumulate 0 (quarterLength duration))
                (master_canvas st ++
                 [ composite (library_folder ++ "/blank_staff.png") 0
                             (y_origin_offset st + 500);
                   composite sticker 100
                             (544 + (y_origin_offset st + 500)
                              - M21.diatonicNoteNum pitch * 15) ])).
Proof.
  intros Hw Ho. unfold render_note. rewrite Hw, Ho.
  cbn [rbind wrap_line x_cursor y_origin_offset accumulated_duration
       master_canvas Py.int_of].
  rewrite to_float_add, <- app_assoc. reflexivity.
Qed.

(** The body of the loop on a line that is not overfull, once the sticker
    is open and the cursor is read as an integer. *)
Lemma render_note_no_wrap (fs : FS) (library_folder : string)
    (pitch : Pitch) (duration : Duration) (st : sheet_state)
    (sticker : string) (x : Z) :
  wrap_needed st = false ->
  open_sticker fs library_folder pitch duration = Ok sticker ->
  Py.int_of (x_cursor st) = Ok x ->
  render_note fs library_folder pitch duration st
  = Ok (mkSheet (Py.add (x_cursor st) (advance (quarterLength duration)))
                (y_origin_offset st)
                (accumulate (accumulated_duration st) (quarterLength duration))
                (master_canvas st ++
                 [ composite sticker x
                             (544 + y_origin_offset st
                              - M21.diatonicNoteNum pitch * 15) ])).
Proof.
  intros Hw Ho Hx. unfold render_note. rewrite Hw, Ho.
  cbn [rbind]. rewrite Hx. cbn [rbind].
  rewrite to_float_add. reflexivity.
Qed.

(** What a note that is placed changes. *)
Lemma render_note_inv (fs : FS) (library_folder : string)
    (pitch : Pitch) (duration : Duration) (st st' : sheet_state) :
  render_note fs library_folder pitch duration st = Ok st' ->
  y_origin_offset st'
  = (y_origin_offset st + (if wrap_needed st then 500 else 0))%Z /\
  x_cursor st'
  = Py.add (if wrap_needed st then Py.Int 100 else x_cursor st)
           (advance (quarterLength duration)) /\
  accumulated_duration st'
  = accumulate (if wrap_needed st then 0%float else accumulated_duration st)
               (quarterLength duration) /\
  length (master_canvas st')
  = (length (master_canvas st) + (if wrap_needed st then 2 else 1))%nat.
Proof.
  intros H.
  destruct (open_sticker fs library_folder pitch duration) as [sticker|e] eqn:Ho;
    [|unfold render_note in H; rewrite Ho in H;
      destruct (wrap_needed st); discriminate].
  destruct (wrap_needed st) eqn:Hw.
  - rewrite (render_note_wrap _ _ _ _ _ _ Hw Ho) in H. injection H as <-.
    cbn [y_origin_offset x_cursor accumulated_duration master_canvas].
    rewrite length_app. simpl. repeat split; lia.
  - destruct (Py.int_of (x_cursor st)) as [x|e] eqn:Hx.
    + rewrite (render_note_no_wrap _ _ _ _ _ _ _ Hw Ho Hx) in H. injection H as <-.
      cbn [y_origin_offset x_cursor accumulated_duration master_canvas].
      rewrite length_app. simpl. repeat split; lia.
    + unfold render_note in H. rewrite Hw, Ho in H. cbn [rbind] in H.
      rewrite Hx in H. discriminate.
Qed.

Lemma render_loop_lines (fs : FS) (library_folder : string) (notes : list Event) :
  forall st st' : sheet_state,
    render_loop fs library_folder notes st = Ok st' ->
    y_origin_offset st'
    = (y_origin_offset st
       + 500 * Z.of_nat (overfull_lines (accumulated_duration st) notes))%Z /\
    length (master_canvas st')
    = (length (master_canvas st) + note_count notes
       + overfull_lines (accumulated_duration st) notes)%nat.
Proof.
  induction notes as [|ev rest IH]; intros st st' H; simpl in H.
  - injection H as <-. simpl. split; lia.
  - destruct ev as [pitch duration| |]; try (apply IH; exact H).
    destruct (render_note fs library_folder pitch duration st) as [st1|e] eqn:E;
      [|discriminate].
    cbn [rbind] in H.
    apply render_note_inv in E as (Hy & _ & Ha & Hl).
    apply IH in H as [Hy' Hl']. rewrite Hy', Hl', Hy, Ha, Hl.
    cbn [overfull_lines note_count]. unfold wrap_needed, MAX_DURATION_PER_LINE.
    destruct (PrimFloat.ltb 4 (accumulated_duration st)); split; lia.
Qed.

Lemma render_loop_total (fs : FS) (library_folder : string) (notes : list Event) :
  Forall (sticker_opens fs library_folder) notes ->
  forall st : sheet_state,
    Forall (fun x => is_Ok (Py.int_of x) = true)
           (cursors (x_cursor st) (accumulated_duration st) notes) ->
    exists st', render_loop fs library_folder notes st = Ok st'.
Proof.
  induction 1 as [|ev rest Hev _ IH]; intros st Hx; simpl.
  - eauto.
  - destruct ev as [pitch duration| |]; try (apply IH; exact Hx).
    simpl in Hev, Hx.
    destruct (open_sticker fs library_folder pitch duration) as [sticker|] eqn:Ho;
      [|discriminate].
    inversion Hx as [|? ? Hx1 Hx2]; subst.
    destruct (wrap_needed st) eqn:Hw;
      unfold wrap_needed, MAX_DURATION_PER_LINE in Hw; rewrite Hw in Hx1, Hx2.
    + rewrite (render_note_wrap _ _ _ _ _ _ Hw Ho). cbn [rbind].
      apply IH. exact Hx2.
    + destruct (Py.int_of (x_cursor st)) as [x|] eqn:Hi; [|discriminate].
      rewrite (render_note_no_wrap _ _ _ _ _ _ _ Hw Ho Hi). cbn [rbind].
      apply IH. exact Hx2.
Qed.

(** C4, amended: the renderer wraps the line when, and only when, a note
    is about to be placed while the accumulator, a float sum, holds more
    than 4.0 (its value is above 4, or it is the positive infinity); the
    wrap composites a staff tile at the offset advanced by 500, and the
    note then goes to the line start 100 with the accumulator restarted
    from zero; otherwise the note goes to the cursor and adds to the
    accumulator.  Over a whole sequence that is rendered the offset
    ends at 500 times the number of notes that were met with an overfull
    line, and the canvas receives one tile per such note besides one
    sticker per note; the sequence is rendered when every sticker opens
    and every cursor is read as an integer. *)
Theorem line_wrap_when_overfull :
  (forall st : sheet_state,
     wrap_needed st = true <->
     match Py.float_value (accumulated_duration st) with
     | Some q => (4 < q)%Q
     | None => accumulated_duration st = infinity
     end) /\
  (forall (fs : FS) (library_folder : string) (pitch : Pitch)
          (duration : Duration) (st : sheet_state) (sticker : string),
     wrap_needed st = true ->
     open_sticker fs library_folder pitch duration = Ok sticker ->
     render_note fs library_folder pitch duration st
     = Ok (mkSheet (Py.add (Py.Int 100) (advance (quarterLength duration)))
                   (y_origin_offset st + 500)
                   (accumulate 0 (quarterLength duration))
                   (master_canvas st ++
                    [ composite (library_folder ++ "/blank_staff.png") 0
                                (y_origin_offset st + 500);
                      composite sticker 100
                                (544 + (y_origin_offset st + 500)
                                 - M21.diatonicNoteNum pitch * 15) ]))) /\
  (forall (fs : FS) (library_folder : string) (pitch : Pitch)
          (duration : Duration) (st : sheet_state) (sticker : string) (x : Z),
     wrap_needed st = false ->
     open_sticker fs library_folder pitch duration = Ok sticker ->
     Py.int_of (x_cursor st) = Ok x ->
     render_note fs library_folder pitch duration st
     = Ok (mkSheet (Py.add (x_cursor st) (advance (quarterLength duration)))
                   (y_origin_offset st)
                   (accumulate (accumulated_duration st) (quarterLength duration))
                   (master_canvas st ++
                    [ composite sticker x
                                (544 + y_origin_offset st
                                 - M21.diatonicNoteNum pitch * 15) ]))) /\
  (forall (fs : FS) (library_folder : string) (notes : list Event)
          (st' : sheet_state),
     render_loop fs library_folder notes (initial_sheet library_folder) = Ok st' ->
     y_origin_offset st' = (500 * Z.of_nat (overfull_lines 0 notes))%Z /\
     length (master_canvas st')
     = (1 + note_count notes + overfull_lines 0 notes)%nat) /\
  (forall (fs : FS) (library_folder : string) (notes : list Event),
     Forall (sticker_opens fs library_folder) notes ->
     Forall (fun x => is_Ok (Py.int_of x) = true)
            (cursors (Py.Int 100) 0 notes) ->
     exists st',
       render_loop fs library_folder notes (initial_sheet library_folder) = Ok st').
Proof.
  split; [intros st; apply float_above_four|]. split; [exact render_note_wrap|].
  split; [exact render_note_no_wrap|]. split.
  - intros fs library_folder notes st' H.
    apply render_loop_lines in H as [Hy Hl]. simpl in Hy, Hl. split; [lia|exact Hl].
  - intros fs library_folder notes Hn Hx.
    apply (render_loop_total fs library_folder notes Hn (initial_sheet library_folder)).
    exact Hx.
Qed.

Lemma Image_open_present (fs : FS) (path : string) (f : File) :
  fs !! path = Some f -> is_Ok (Image_decode f) = true ->
  Image_open fs path = Ok path.
Proof.
  intros Hf Hd. unfold Image_open. rewrite Hf.
  destruct (Image_decode f); [reflexivity|discriminate].
Qed.

(** C5: the sticker asked for is named after the duration type; it is the
    reversed one, [{type}_rev.png], exactly when the diatonic step number
    is 35 or more, and [{type}.png] below 35; when the reversed file is
    absent, [{type}.png] is opened instead; the sticker that opens is the
    one composited for the note. *)
Theorem sticker_by_duration_and_step
    (fs : FS) (library_folder : string) (pitch : Pitch) (duration : Duration) :
  (sticker_name pitch duration = type duration ++ "_rev.png"
   <-> (35 <= M21.diatonicNoteNum pitch)%Z) /\
  (sticker_name pitch duration = type duration ++ ".png"
   <-> (M21.diatonicNoteNum pitch < 35)%Z) /\
  (forall f : File,
     fs !! (library_folder ++ "/" ++ sticker_name pitch duration) = Some f ->
     is_Ok (Image_decode f) = true ->
     open_sticker fs library_folder pitch duration
     = Ok (library_folder ++ "/" ++ sticker_name pitch duration)) /\
  ((35 <= M21.diatonicNoteNum pitch)%Z ->
   fs !! (library_folder ++ "/" ++ type duration ++ "_rev.png") = None ->
   open_sticker fs library_folder pitch duration
   = Image_open fs (library_folder ++ "/" ++ type duration ++ ".png")) /\
  (forall st st' : sheet_state,
     render_note fs library_folder pitch duration st = Ok st' ->
     exists sticker x y,
       open_sticker fs library_folder pitch duration = Ok sticker /\
       last (master_canvas st') = Some (composite sticker x y)).
Proof.
  assert (Hname : forall b : bool,
            (if b then type duration ++ "_rev.png" else type duration ++ ".png")
            = type duration ++ "_rev.png" <-> b = true).
  { intros [|]; split; auto; try discriminate.
    intros H. symmetry in H. now apply rev_name_differs in H. }
  repeat split.
  - unfold sticker_name. intros H. apply Hname in H. now apply Z.leb_le.
  - unfold sticker_name. intros H. apply Z.leb_le in H. now rewrite H.
  - unfold sticker_name. intros H.
    destruct (35 <=? M21.diatonicNoteNum pitch)%Z eqn:E.
    + now apply rev_name_differs in H.
    + now apply Z.leb_gt.
  - unfold sticker_name. intros H. apply Z.leb_gt in H. now rewrite H.
  - intros f Hf Hd. unfold open_sticker.
    now rewrite (Image_open_present _ _ _ Hf Hd).
  - intros Hhigh Habsent. unfold open_sticker, sticker_name.
    apply Z.leb_le in Hhigh. rewrite Hhigh.
    unfold Image_open at 1. rewrite Habsent. reflexivity.
  - intros st st' H. unfold render_note in H.
    destruct (open_sticker fs library_folder pitch duration) as [sticker|];
      [|discriminate].
    cbn [rbind] in H.
    destruct (Py.int_of _) as [x|]; [|discriminate].
    cbn [rbind] in H. injection H as <-. cbn [master_canvas].
    do 3 eexists. split; [reflexivity|]. apply last_snoc.
Qed.

End RendererProperties.

Section SummaryProperties.

Context {File : Type} `{Ext : Extern File}.
Abbreviation FS := (gmap string File).

(** ** Summary *)

Lemma notes_loop_chord (notes : list Event) (notes_list : list string) :
  existsb is_chord notes = true ->
  notes_loop notes notes_list = Raise concat_error.
Proof.
  revert notes_list. induction notes as [|ev rest IH]; intros acc; simpl.
  - discriminate.
  - destruct ev; simpl; auto.
Qed.

Lemma notes_loop_notes (notes : list Event) (notes_list : list string) :
  existsb is_chord notes = false ->
  notes_loop notes notes_list = Ok (notes_list ++ note_tokens notes)%list.
Proof.
  revert notes_list. induction notes as [|ev rest IH]; intros acc; simpl.
  - now rewrite app_nil_r.
  - destruct ev; simpl; auto; try discriminate.
    intros H. rewrite IH by assumption. now rewrite <- app_assoc.
Qed.

(** C8: on a document that holds a chord the summary ends with the
    [TypeError] of [n.pitches + ":"] and returns no text; on a document
    without chords it returns the status line followed by the tokens
    [PitchOctave:durationName] of the notes, joined by ", ". *)
Theorem summary_raises_on_chord :
  (forall (fs : FS) (file_path : string) (f : File) (notes : list Event),
     fs !! file_path = Some f ->
     converter_parse file_path (Some f) = Ok notes ->
     existsb is_chord notes = true ->
     get_notes_from_xml fs file_path = Raise concat_error) /\
  (forall (fs : FS) (file_path : string) (f : File) (notes : list Event),
     fs !! file_path = Some f ->
     converter_parse file_path (Some f) = Ok notes ->
     existsb is_chord notes = false ->
     get_notes_from_xml fs file_path
     = Ok ("🎉 Found the payload: " ++ file_path ++ newline ++
           "--- 🎼 NOTES DETECTED ---" ++ ":" ++
           Py.join ", " (note_tokens notes))).
Proof.
  split; intros fs file_path f notes Hf Hp Hc; unfold get_notes_from_xml;
    rewrite Hf, Hp; simpl.
  - now rewrite notes_loop_chord.
  - rewrite notes_loop_notes by assumption. simpl.
    now rewrite !string_app_assoc.
Qed.

End SummaryProperties.

(** ** The script on examples *)

Import Demo.

(** C1, as stated, fails on "G4:0.333333": the token parsed as a float is
    the float nearest to 0.333333, and the quarter length of the note is
    one third. *)
Lemma stored_length_is_rounded :
  decode (Ext := Lib.extern) "G4:0.333333" = Ok [mkNewNote G4 (1 # 3)] /\
  exists f : PrimFloat.float,
    Lib.float "0.333333" = Ok f /\
    Py.float_value f = Some (3002396749180579 # 9007199254740992) /\
    ~ (3002396749180579 # 9007199254740992 == 1 # 3)%Q.
Proof.
  split; [reflexivity|].
  eexists. split; [reflexivity|]. split; [reflexivity|].
  intros H. discriminate H.
Qed.

(** The concrete library stores the five floats of the table as they
    are, and refuses an infinity and a NaN; the pitch is read first. *)
Example table_values_are_kept :
  map Lib.set_quarterLength [0.25; 0.5; 1; 2; 4]%float
  = [Ok (1 # 4); Ok (1 # 2); Ok 1; Ok 2; Ok 4]%Q /\
  decode (Ext := Lib.extern) "G4:inf"
  = Raise (mkExn OverflowError "cannot convert Infinity to integer ratio") /\
  decode (Ext := Lib.extern) "G4:nan"
  = Raise (mkExn ValueError "cannot convert NaN to integer ratio") /\
  decode (Ext := Lib.extern) "X9:inf"
  = Raise (mkExn OtherException "Cannot make a step out of 'X'").
Proof. repeat split. Qed.

(** C1, amended, on the concrete library: the text of the example decodes
    to (G,4,1.0) followed by (A,4,2.0). *)
Lemma decode_example :
  decode (Ext := Lib.extern) "G4:quarter, A4:half"
  = Ok [mkNewNote G4 1; mkNewNote A4 2].
Proof.
  apply (proj2 (proj2 (decode_table_or_float (Ext := Lib.extern))));
    reflexivity.
Defined.

(** C2, as stated, fails on the text "G4": the entry has no colon, nothing
    is written, and the message returned does not mention "G4". *)
Lemma error_message_without_input :
  update_musicxml (Ext := Lib.extern) two_notes "song.musicxml" "G4"
  = (two_notes,
     "Error parsing notes: not enough values to unpack (expected 2, got 1). Please use format 'Pitch:Duration'.") /\
  Py.contains
    (snd (update_musicxml (Ext := Lib.extern) two_notes "song.musicxml" "G4"))
    "G4" = false.
Proof. split; reflexivity. Qed.

(** C2, amended, on the text "G4:notaduration": the entry does not decode,
    so the document stays and the message carries the text of [float]'s
    exception. *)
Lemma failed_decode_example :
  exists before entry after e,
    map Py.strip (Py.split "," "G4:notaduration") = (before ++ entry :: after)%list /\
    Forall (fun x => is_Ok (decode_entry (Ext := Lib.extern) x) = true) before /\
    decode_entry (Ext := Lib.extern) entry = Raise e /\
    update_musicxml (Ext := Lib.extern) two_notes "song.musicxml" "G4:notaduration"
    = (two_notes, "Error parsing notes: " ++ exn_str e ++
                  ". Please use format 'Pitch:Duration'.").
Proof.
  apply (proj1 (failed_decode_is_reported (Ext := Lib.extern))).
  exists "G4:notaduration". split; [left|]; reflexivity.
Defined.

(** C9, as stated, fails on "G4:0" and on "G4:-1.5": the decode succeeds
    with a note of duration zero, and with one of negative duration.  The
    writer of the concrete library refuses both streams, so that the
    document stays as it was and the error string is returned. *)
Lemma zero_duration_decodes :
  decode (Ext := Lib.extern) "G4:0" = Ok [mkNewNote G4 0] /\
  ~ (0 < nn_quarterLength (mkNewNote G4 0))%Q /\
  decode (Ext := Lib.extern) "G4:-1.5" = Ok [mkNewNote G4 (-3 # 2)] /\
  ~ (0 < nn_quarterLength (mkNewNote G4 (-3 # 2)))%Q /\
  (exists e,
     update_musicxml (Ext := Lib.extern) two_notes "song.musicxml" "G4:0"
     = (two_notes, error_parsing e)) /\
  (exists e,
     update_musicxml (Ext := Lib.extern) two_notes "song.musicxml" "G4:-1.5"
     = (two_notes, error_parsing e)).
Proof.
  repeat split; try reflexivity; try (intros H; discriminate H);
    eexists; reflexivity.
Qed.

(** C9, amended, on the entry "G4:-1.5": its parts are read, the
    assignment is accepted, and the entry decodes to a note of negative
    quarter length. *)
Lemma decoded_notes_example :
  decode_entry (Ext := Lib.extern) "G4:-1.5" = Ok (mkNewNote G4 (-3 # 2)).
Proof.
  apply (proj1 (proj2 (decoded_notes (Ext := Lib.extern)))
           "G4:-1.5" "G4" "-1.5" G4 (-1.5)%float (-3 # 2)%Q);
    reflexivity.
Defined.

(** C10 on a text of three spaces. *)
Lemma blank_text_example :
  Py.blank "   " = true /\
  update_musicxml (Ext := Lib.extern) two_notes "song.musicxml" "   "
  = (two_notes,
     "Error parsing notes: not enough values to unpack (expected 2, got 1). Please use format 'Pitch:Duration'.").
Proof.
  split; [reflexivity|].
  apply (proj1 (blank_text_is_refused (Ext := Lib.extern))). reflexivity.
Defined.

(** C3, as stated, fails when the sample that is present does not load:
    the first note is announced, its failure is recorded, and only the
    second note, whose sample is missing, blocks the caller: 1.2 s and not
    0.6 s + 1.2 s. *)
Lemma unloadable_sample_does_not_block :
  play_violin_mp3_library (Ext := Lib.extern) broken_sample
    "song.musicxml" "chromatic_samples_library"
  = ([mixer_init; time_sleep (12 # 10); mixer_quit],
     Ok [ MsgReady "chromatic_samples_library";
          MsgPlaying "G4.mp3";
          MsgErrorPlaying "G4.mp3" (mkExn OtherException "Unable to open file");
          MsgMissing "A4.mp3";
          MsgFinished ]) /\
  ~ (blocked_time [mixer_init; time_sleep (12 # 10); mixer_quit]
     == quarterLength quarter * (6 # 10) + quarterLength half * (6 # 10))%Q.
Proof. split; [reflexivity|]. intros H. discriminate H. Qed.

(** C3, amended, on the document of two notes: G4 plays, A4 is missing. *)
Lemma playback_example :
  exists trace msg,
    play_violin_mp3_library (Ext := Lib.extern) two_notes
      "song.musicxml" "chromatic_samples_library" = (trace, Ok msg) /\
    (blocked_time trace == 1 * (6 # 10) + 2 * (6 # 10))%Q /\
    missing_warnings msg = 1%nat /\
    length (sounds_played trace) = 1%nat.
Proof.
  apply (proj2 (playback_blocks_and_warns (Ext := Lib.extern))
           two_notes "song.musicxml" "chromatic_samples_library"
           (Lib.Document [NoteEv G4 quarter; NoteEv A4 half])
           [NoteEv G4 quarter; NoteEv A4 half] G4 A4 quarter half);
    try reflexivity; try discriminate.
  left; reflexivity.
Defined.

(** C6: the file looked up for a double sharp keeps its sharps, whatever
    the notation library does; and for G sharp 4 the lower enharmonic is
    F triple sharp, so that F###4.mp3 is looked up, not Ab4.mp3, and the
    note is reported missing from a library that holds Ab4.mp3. *)
Theorem sharp_filename_looked_up :
  (forall (File : Type) (Ext : Extern File),
     sample_filename (Ext := Ext) C_double_sharp_4 = Ok "C##4.mp3") /\
  sample_filename (Ext := Lib.extern) G_sharp_4 = Ok "F###4.mp3" /\
  play_violin_mp3_library (Ext := Lib.extern) one_sharp
    "song.musicxml" "chromatic_samples_library"
  = ([mixer_init; time_sleep (6 # 10); mixer_quit],
     Ok [ MsgReady "chromatic_samples_library";
          MsgMissing "F###4.mp3";
          MsgFinished ]).
Proof. repeat split. Qed.

(** C7 on a file system without the document. *)
Lemma mixer_not_released_example :
  play_violin_mp3_library (Ext := Lib.extern) one_sharp
    "absent.musicxml" "chromatic_samples_library"
  = ([mixer_init], Ok [MsgNotFound "absent.musicxml"]).
Proof.
  apply (proj1 (mixer_not_released_without_document (Ext := Lib.extern))).
  reflexivity.
Defined.

(** C8 on the document with a chord. *)
Lemma summary_chord_example :
  get_notes_from_xml (Ext := Lib.extern) with_chord "song.musicxml"
  = Raise concat_error.
Proof.
  apply (proj1 (summary_raises_on_chord (Ext := Lib.extern))
           with_chord "song.musicxml"
           (Lib.Document [NoteEv G4 quarter; ChordEv [C4; E4] half])
           [NoteEv G4 quarter; ChordEv [C4; E4] half]);
    reflexivity.
Defined.

(** C4, as stated, fails on a whole note followed by a quarter note: the
    accumulated duration, 5.0, has crossed the boundary 4.0, and the sheet
    holds one staff tile only: no line wrap was made. *)
Lemma no_wrap_after_last_note :
  generate_visual_sheet (Ext := Lib.extern)
    (stickers [NoteEv C4 whole; NoteEv C4 quarter])
    "song.musicxml" "visual_notes_library"
  = Ok [ composite "visual_notes_library/blank_staff.png" 0 0;
         composite "visual_notes_library/whole.png" 100 109;
         composite "visual_notes_library/quarter.png" 1300 109;
         canvas_show;
         canvas_save "rendered_song.png" ] /\
  (total_duration [NoteEv C4 whole; NoteEv C4 quarter] == 5)%Q /\
  boundaries_crossed (total_duration [NoteEv C4 whole; NoteEv C4 quarter]) = 1%Z /\
  overfull_lines 0 [NoteEv C4 whole; NoteEv C4 quarter] = 0%nat.
Proof. repeat split. Qed.

(** The accumulator is a float sum: after twenty notes of one fifth it
    holds 4.000000000000001 (in hexadecimal below), more than 4.0,
    although the notes add up to 4, and the next note starts a new
    line. *)
Example rounded_sum_wraps :
  fold_left accumulate (repeat (1 # 5)%Q 20) 0%float = 0x1.0000000000001p+2%float /\
  (total_duration (repeat (NoteEv C4 (mkDuration "16th" (1 # 5))) 20) == 4)%Q /\
  overfull_lines 0 (repeat (NoteEv C4 (mkDuration "16th" (1 # 5))) 21) = 1%nat /\
  exists st',
    render_loop (Ext := Lib.extern)
      {[ "visual_notes_library/16th.png" := Lib.Picture ]}
      "visual_notes_library"
      (repeat (NoteEv C4 (mkDuration "16th" (1 # 5))) 21)
      (initial_sheet "visual_notes_library") = Ok st' /\
    y_origin_offset st' = 500%Z /\
    x_cursor st' = Py.Fraction 160.
Proof.
  split; [reflexivity|]. split; [reflexivity|]. split; [reflexivity|].
  eexists. split; [vm_compute; reflexivity|]. split; reflexivity.
Qed.

(** C4, amended, on a whole note followed by two quarter notes: the third
    note meets a line holding 5.0 and starts the second line. *)
Lemma line_wrap_example :
  exists st',
    render_loop (Ext := Lib.extern)
      (stickers [NoteEv C4 whole; NoteEv C4 quarter; NoteEv C4 quarter])
      "visual_notes_library"
      [NoteEv C4 whole; NoteEv C4 quarter; NoteEv C4 quarter]
      (initial_sheet "visual_notes_library") = Ok st' /\
    y_origin_offset st' = 500%Z /\
    length (master_canvas st') = 5%nat.
Proof.
  destruct (proj2 (proj2 (proj2 (proj2 (line_wrap_when_overfull (Ext := Lib.extern)))))
              (stickers [NoteEv C4 whole; NoteEv C4 quarter; NoteEv C4 quarter])
              "visual_notes_library"
              [NoteEv C4 whole; NoteEv C4 quarter; NoteEv C4 quarter])
    as [st' H]; [repeat constructor .. |].
  exists st'. split; [exact H|].
  exact (proj1 (proj2 (proj2 (proj2 (line_wrap_when_overfull (Ext := Lib.extern)))))
           _ _ _ _ H).
Defined.

(** C5 on B4, the first step with a reversed stem, in a library without
    reversed stickers: the plain sticker is opened. *)
Lemma sticker_fallback_example :
  M21.diatonicNoteNum B4 = 35%Z /\
  sticker_name B4 quarter = "quarter_rev.png" /\
  open_sticker (Ext := Lib.extern) (stickers [NoteEv B4 quarter])
    "visual_notes_library" B4 quarter
  = Ok "visual_notes_library/quarter.png".
Proof.
  split; [reflexivity|]. split; [reflexivity|].
  rewrite (proj1 (proj2 (proj2 (proj2
             (sticker_by_duration_and_step (Ext := Lib.extern)
                (stickers [NoteEv B4 quarter]) "visual_notes_library"
                B4 quarter)))));
    reflexivity.
Defined.

(** A missing sample with a negative duration: [time.sleep] raises after
    the warning was added, and the exception leaves the function. *)
Example negative_duration_raises :
  play_violin_mp3_library (Ext := Lib.extern)
    {[ "song.musicxml" := Lib.Document [NoteEv A4 (mkDuration "complex" (-1))] ]}
    "song.musicxml" "chromatic_samples_library"
  = ([mixer_init], Raise sleep_error).
Proof. reflexivity. Qed.

(** The string returned for the document of two notes. *)
Example playback_message_text :
  render_message
    [ MsgReady "chromatic_samples_library"; MsgPlaying "G4.mp3";
      MsgMissing "A4.mp3"; MsgFinished ]
  = "🎻 Ready! Accessing library: chromatic_samples_library...🔊 Playing: G4.mp3⚠️ Missing from library: A4.mp3✅ Performance finished!".
Proof. reflexivity. Qed.

(** The summary of the document of two notes. *)
Example summary_text :
  get_notes_from_xml (Ext := Lib.extern) two_notes "song.musicxml"
  = Ok ("🎉 Found the payload: song.musicxml" ++ newline ++
        "--- 🎼 NOTES DETECTED ---:G4:quarter, A4:half").
Proof. reflexivity. Qed.

(** * Further properties *)

(** ** Entries of a correction text *)

Lemma split_length (sep : ascii) (s : string) :
  length (Py.split sep s) = S (count_char sep s).
Proof.
  induction s as [|c s IH]; simpl; [reflexivity|].
  destruct (Ascii.eqb c sep); simpl; [now rewrite IH|].
  destruct (Py.split sep s) as [|hd tl] eqn:E; simpl in *; lia.
Qed.

Lemma split_cons (sep c : ascii) (s : string) :
  Ascii.eqb c sep = false ->
  exists hd tl, Py.split sep s = hd :: tl /\
                Py.split sep (String c s) = String c hd :: tl.
Proof.
  intros Hc. simpl. rewrite Hc.
  destruct (Py.split sep s) as [|hd tl] eqn:E.
  - now apply split_nonempty in E.
  - eauto.
Qed.

Lemma split_fields (sep : ascii) (s : string) :
  Forall (fun field => count_char sep field = 0%nat) (Py.split sep s).
Proof.
  induction s as [|c s IH]; simpl.
  - repeat constructor.
  - destruct (Ascii.eqb c sep) eqn:Hc.
    + constructor; [reflexivity|exact IH].
    + destruct (Py.split sep s) as [|hd tl]; [repeat constructor; simpl; now rewrite Hc|].
      inversion IH; subst. constructor; [simpl; now rewrite Hc|assumption].
Qed.

Lemma join_cons (sep : string) (x y : string) (l : list string) :
  Py.join sep (x :: y :: l) = x ++ sep ++ Py.join sep (y :: l).
Proof. reflexivity. Qed.

Lemma split_join (sep : ascii) (s : string) :
  Py.join (String sep EmptyString) (Py.split sep s) = s.
Proof.
  induction s as [|c s IH]; [reflexivity|].
  simpl Py.split. destruct (Ascii.eqb_spec c sep) as [->|Hne].
  - destruct (Py.split sep s) as [|hd tl] eqn:E; [now apply split_nonempty in E|].
    rewrite join_cons, IH. reflexivity.
  - destruct (Py.split sep s) as [|hd tl] eqn:E; [now apply split_nonempty in E|].
    destruct tl as [|y tl].
    + simpl in *. now rewrite IH.
    + rewrite join_cons in *.
      change (String c hd ++ String sep "" ++ Py.join (String sep "") (y :: tl))
        with (String c (hd ++ String sep "" ++ Py.join (String sep "") (y :: tl))).
      now rewrite IH.
Qed.

(** A separator between two strings separates their fields. *)
Lemma split_app (sep : ascii) (s t : string) :
  Py.split sep (s ++ String sep t) = (Py.split sep s ++ Py.split sep t)%list.
Proof.
  induction s as [|c s IH].
  - change ("" ++ String sep t) with (String sep t).
    simpl. now rewrite Ascii.eqb_refl.
  - change (String c s ++ String sep t) with (String c (s ++ String sep t)).
    simpl. rewrite IH. destruct (Ascii.eqb c sep); [reflexivity|].
    destruct (Py.split sep s) as [|hd tl] eqn:E; [now apply split_nonempty in E|].
    reflexivity.
Qed.

(** X1: splitting a text at a character loses nothing: the fields do not
    hold the character, there is one more field than occurrences, and the
    fields joined by the character give the text back. *)
Theorem split_fields_round_trip (sep : ascii) (s : string) :
  Py.join (String sep EmptyString) (Py.split sep s) = s /\
  length (Py.split sep s) = S (count_char sep s) /\
  Forall (fun field => count_char sep field = 0%nat) (Py.split sep s).
Proof.
  split; [apply split_join|]. split; [apply split_length|apply split_fields].
Qed.

Section CodecMore.

Context {File : Type} `{Ext : Extern File}.
Abbreviation FS := (gmap string File).

Lemma blank_entry_raises (entry : string) :
  Py.blank entry = true -> is_Ok (decode_entry (Py.strip entry)) = false.
Proof.
  intros Hb. rewrite strip_blank by assumption. reflexivity.
Qed.

(** X2: a successful decode yields one note per comma-separated entry: as
    many notes as the text has commas, plus one. *)
Theorem decode_one_note_per_entry (text : string) (notes : list NewNote) :
  decode text = Ok notes ->
  length notes = S (count_char "," text).
Proof.
  intros H. apply decode_Ok in H. apply Forall2_length in H.
  rewrite <- H, length_map. apply split_length.
Qed.

(** X3: an entry of white space only refuses the whole text: a text with a
    blank entry, and so every text that ends with a comma, starts with one
    or holds two in a row, is answered with a parse-error string and
    nothing is written. *)
Theorem blank_entry_refuses_text :
  (forall (fs : FS) (xml_path text : string),
     (exists entry, In entry (Py.split "," text) /\ Py.blank entry = true) ->
     exists e, update_musicxml fs xml_path text = (fs, error_parsing e)) /\
  (forall (fs : FS) (xml_path text : string),
     exists e, update_musicxml fs xml_path (text ++ ",") = (fs, error_parsing e)) /\
  (forall (fs : FS) (xml_path text : string),
     exists e, update_musicxml fs xml_path ("," ++ text) = (fs, error_parsing e)) /\
  (forall (fs : FS) (xml_path before after : string),
     exists e,
       update_musicxml fs xml_path (before ++ ",," ++ after) = (fs, error_parsing e)).
Proof.
  assert (Hmain : forall (fs : FS) (xml_path text : string),
            (exists entry, In entry (Py.split "," text) /\ Py.blank entry = true) ->
            exists e, update_musicxml fs xml_path text = (fs, error_parsing e)).
  { intros fs xml_path text (entry & Hin & Hb).
    destruct (first_failing_entry (map Py.strip (Py.split "," text)))
      as (b & x & a & e & Heq & HF & Hx).
    { exists (Py.strip entry). split; [now apply in_map|now apply blank_entry_raises]. }
    exists e. apply update_musicxml_Raise. unfold decode.
    apply decode_loop_Raise. exists b, x, a. auto. }
  split; [exact Hmain|]. split; [|split].
  - intros fs xml_path text. apply Hmain. exists "". split; [|reflexivity].
    change (text ++ ",") with (text ++ String "," "").
    rewrite split_app. apply in_or_app. right. now left.
  - intros fs xml_path text. apply Hmain. exists "". split; [|reflexivity].
    change ("," ++ text) with (String "," text). simpl. now left.
  - intros fs xml_path before after. apply Hmain. exists "". split; [|reflexivity].
    change (before ++ ",," ++ after) with (before ++ String "," (String "," after)).
    rewrite split_app. apply in_or_app. right. simpl. now left.
Qed.

End CodecMore.

Lemma count_char_lstrip (c : ascii) (s : string) :
  Py.isspace c = false -> count_char c (Py.lstrip s) = count_char c s.
Proof.
  intros Hc. induction s as [|a s IH]; simpl; [reflexivity|].
  destruct (Py.isspace a) eqn:Ha; [|reflexivity].
  rewrite IH. destruct (Ascii.eqb_spec a c) as [->|]; [congruence|reflexivity].
Qed.

Lemma count_char_rstrip (c : ascii) (s : string) :
  Py.isspace c = false -> count_char c (Py.rstrip s) = count_char c s.
Proof.
  intros Hc. induction s as [|a s IH]; simpl; [reflexivity|].
  destruct (Py.rstrip s) as [|b r] eqn:E.
  - simpl in IH. rewrite <- IH.
    destruct (Py.isspace a) eqn:Ha; simpl.
    + destruct (Ascii.eqb_spec a c) as [->|]; [congruence|reflexivity].
    + lia.
  - simpl in *. now rewrite IH.
Qed.

Lemma count_char_strip (c : ascii) (s : string) :
  Py.isspace c = false -> count_char c (Py.strip s) = count_char c s.
Proof.
  intros Hc. unfold Py.strip.
  now rewrite count_char_rstrip, count_char_lstrip.
Qed.

Section UpdateMore.

Context {File : Type} `{Ext : Extern File}.
Abbreviation FS := (gmap string File).

Lemma too_many_parts (entry : string) :
  (2 <= count_char ":" entry)%nat ->
  decode_entry entry
  = Raise (mkExn ValueError "too many values to unpack (expected 2)").
Proof.
  intros H. unfold decode_entry.
  pose proof (split_length ":" entry) as Hl.
  destruct (Py.split ":" entry) as [|a [|b [|c l]]]; simpl in Hl; try lia.
  reflexivity.
Qed.

(** X4: an entry is not split at its first colon only: an entry with two
    colons or more is refused, whatever its parts are, with the text "too
    many values to unpack (expected 2)"; a text that is one such entry
    leaves the file system as it was. *)
Theorem extra_colon_is_refused :
  (forall entry : string,
     (2 <= count_char ":" entry)%nat ->
     decode_entry entry
     = Raise (mkExn ValueError "too many values to unpack (expected 2)")) /\
  (forall (fs : FS) (xml_path text : string),
     count_char "," text = 0%nat ->
     (2 <= count_char ":" text)%nat ->
     update_musicxml fs xml_path text
     = (fs, "Error parsing notes: too many values to unpack (expected 2). Please use format 'Pitch:Duration'.")).
Proof.
  split; [exact too_many_parts|].
  intros fs xml_path text Hcomma Hcolon.
  apply (update_musicxml_Raise fs xml_path text
           (mkExn ValueError "too many values to unpack (expected 2)")).
  unfold decode.
  pose proof (split_length "," text) as Hl. rewrite Hcomma in Hl.
  pose proof (split_join "," text) as Hj.
  destruct (Py.split "," text) as [|x [|y l]]; simpl in Hl; try lia.
  simpl in Hj. subst x. simpl.
  rewrite too_many_parts; [reflexivity|].
  now rewrite count_char_strip.
Qed.

Lemma get_notes_from_xml_local (fs fs' : FS) (file_path : string) :
  fs !! file_path = fs' !! file_path ->
  get_notes_from_xml fs file_path = get_notes_from_xml fs' file_path.
Proof. intros H. unfold get_notes_from_xml. now rewrite H. Qed.

(** X6: when the text decodes and the stream is written, the document at
    [xml_path] is replaced, whatever the path held before, and the string
    returned is the summary of what the library reads back from the new
    document; when reading it back raises, or gives a chord, the caller
    receives the error string although the document has been replaced. *)
Theorem update_replaces_document
    (fs : FS) (xml_path text : string) (notes : list NewNote) (doc : File) :
  decode text = Ok notes ->
  stream_write notes = Ok doc ->
  fst (update_musicxml fs xml_path text) = <[xml_path := doc]> fs /\
  (forall old : File,
     update_musicxml (<[xml_path := old]> fs) xml_path text
     = update_musicxml fs xml_path text) /\
  (forall events : list Event,
     converter_parse xml_path (Some doc) = Ok events ->
     existsb is_chord events = false ->
     snd (update_musicxml fs xml_path text)
     = "🎉 Found the payload: " ++ xml_path ++ newline ++
       "--- 🎼 NOTES DETECTED ---" ++ ":" ++ Py.join ", " (note_tokens events)) /\
  (forall e : exn,
     converter_parse xml_path (Some doc) = Raise e ->
     update_musicxml fs xml_path text = (<[xml_path := doc]> fs, error_parsing e)) /\
  (forall events : list Event,
     converter_parse xml_path (Some doc) = Ok events ->
     existsb is_chord events = true ->
     update_musicxml fs xml_path text
     = (<[xml_path := doc]> fs, error_parsing concat_error)).
Proof.
  intros Hd Hw. unfold update_musicxml. rewrite Hd, Hw.
  split; [|split; [|split; [|split]]].
  - destruct (get_notes_from_xml (<[xml_path:=doc]> fs) xml_path); reflexivity.
  - intros old. rewrite insert_insert_eq. reflexivity.
  - intros events Hp Hc.
    unfold get_notes_from_xml. rewrite lookup_insert_eq, Hp. simpl.
    rewrite notes_loop_notes by assumption. simpl.
    now rewrite !string_app_assoc.
  - intros e Hp. unfold get_notes_from_xml. rewrite lookup_insert_eq, Hp.
    reflexivity.
  - intros events Hp Hc. unfold get_notes_from_xml.
    rewrite lookup_insert_eq, Hp. simpl. now rewrite notes_loop_chord.
Qed.

End UpdateMore.

(** ** More on playback *)

Lemma replace_char_app (old : ascii) (new a b : string) :
  Py.replace_char old new (a ++ b)
  = Py.replace_char old new a ++ Py.replace_char old new b.
Proof.
  induction a as [|c a IH]; [reflexivity|].
  change (String c a ++ b) with (String c (a ++ b)). simpl.
  destruct (Ascii.eqb c old).
  - rewrite IH. now rewrite string_app_assoc.
  - now rewrite IH.
Qed.

Lemma replace_char_digits (d : Decimal.uint) :
  Py.replace_char "-" "b" (NilEmpty.string_of_uint d) = NilEmpty.string_of_uint d.
Proof. induction d; simpl; now rewrite ?IHd. Qed.

Lemma str_int_nonneg (o : Z) :
  (0 <= o)%Z -> Py.replace_char "-" "b" (M21.str_int o) = M21.str_int o.
Proof.
  intros H. unfold M21.str_int. destruct o as [|p|p]; [reflexivity| |lia].
  simpl. apply replace_char_digits.
Qed.

Lemma str_int_neg (p : positive) :
  M21.str_int (Z.neg p) = String "-" (M21.str_int (Z.pos p)).
Proof. reflexivity. Qed.

Lemma replace_char_letter (s : Step) :
  Py.replace_char "-" "b" (M21.step_letter s) = M21.step_letter s.
Proof. destruct s; reflexivity. Qed.

Section PlaybackMore.

Context {File : Type} `{Ext : Extern File}.
Abbreviation FS := (gmap string File).

(** The name of a pitch that is not sharpened, its flats written [b]. *)
Lemma unsharpened_base (pitch : Pitch) :
  is_sharpened (accidental pitch) = false ->
  match octave pitch with Some o => (0 <= o)%Z | None => True end ->
  Py.replace_char "-" "b" (M21.nameWithOctave pitch)
  = M21.step_letter (step pitch) ++ flat_letters (accidental pitch) ++
    match octave pitch with Some o => M21.str_int o | None => "" end.
Proof.
  intros Hs Ho. unfold M21.nameWithOctave, M21.name.
  destruct (octave pitch) as [o|].
  - rewrite !replace_char_app, replace_char_letter, str_int_nonneg by assumption.
    rewrite string_app_assoc. f_equal. f_equal.
    destruct (accidental pitch) as [[]|]; try reflexivity; discriminate.
  - rewrite !replace_char_app, replace_char_letter. f_equal.
    destruct (accidental pitch) as [[]|]; try reflexivity; discriminate.
Qed.

(** X7: a pitch that is not sharpened and whose octave is not negative is
    looked up under its step letter, one [b] per flat, the octave and
    [.mp3]: flats are written with the letter b, and the notation
    library's enharmonic call is not used. *)
Theorem flat_sample_filename (pitch : Pitch) :
  is_sharpened (accidental pitch) = false ->
  match octave pitch with Some o => (0 <= o)%Z | None => True end ->
  sample_filename pitch
  = Ok (M21.step_letter (step pitch) ++ flat_letters (accidental pitch) ++
        match octave pitch with Some o => M21.str_int o | None => "" end ++
        ".mp3").
Proof.
  intros Hs Ho. unfold sample_filename.
  pose proof (unsharpened_base pitch Hs Ho) as Hbase.
  destruct (accidental pitch) as [a|] eqn:Ha.
  - destruct a; try discriminate; simpl; rewrite Hbase;
      now rewrite !string_app_assoc.
  - simpl. rewrite Hbase. now rewrite !string_app_assoc.
Qed.

(** X8: the minus sign of a negative octave is rewritten like a flat: a
    natural pitch in octave -n is looked up under the file of the flat of
    the same step in octave n. *)
Theorem negative_octave_read_as_flat (s : Step) (n : positive) :
  sample_filename (mkPitch s None (Some (Z.neg n)))
  = sample_filename (mkPitch s (Some flat) (Some (Z.pos n))).
Proof.
  unfold sample_filename. simpl.
  rewrite (unsharpened_base (mkPitch s (Some flat) (Some (Z.pos n))))
    by (simpl; auto; lia).
  unfold M21.nameWithOctave, M21.name. simpl.
  rewrite str_int_neg.
  rewrite !replace_char_app, replace_char_letter.
  change (Py.replace_char "-" "b" (String "-" (M21.str_int (Z.pos n))))
    with ("b" ++ Py.replace_char "-" "b" (M21.str_int (Z.pos n))).
  rewrite str_int_nonneg by lia.
  now rewrite !string_app_assoc.
Qed.

Lemma play_loop_filter (fs : FS) (folder_name : string) (notes : list Event)
    (st : play_state) :
  play_loop fs folder_name notes st
  = play_loop fs folder_name (List.filter is_note notes) st.
Proof.
  revert st. induction notes as [|ev rest IH]; intros st; [reflexivity|].
  destruct ev as [pitch duration| |]; simpl; auto.
  destruct (play_note fs folder_name pitch duration st) as [st' [e|]]; auto.
Qed.

Lemma render_loop_filter (fs : FS) (library_folder : string)
    (notes : list Event) (st : sheet_state) :
  render_loop fs library_folder notes st
  = render_loop fs library_folder (List.filter is_note notes) st.
Proof.
  revert st. induction notes as [|ev rest IH]; intros st; [reflexivity|].
  destruct ev as [pitch duration| |]; simpl; auto.
  destruct (render_note fs library_folder pitch duration st); simpl; auto.
Qed.

Lemma notes_loop_filter (notes : list Event) (notes_list : list string) :
  notes_loop notes notes_list
  = notes_loop (List.filter (fun ev => negb (is_other ev)) notes) notes_list.
Proof.
  revert notes_list. induction notes as [|ev rest IH]; intros acc; [reflexivity|].
  destruct ev; simpl; auto.
Qed.

(** X9: events that are no notes change nothing: playback and the sheet
    are those of the notes alone, chords and other events removed, and the
    summary is that of the sequence without the events that are neither
    note nor chord. *)
Theorem non_notes_are_skipped :
  (forall (fs : FS) (folder_name : string) (notes : list Event) (st : play_state),
     play_loop fs folder_name notes st
     = play_loop fs folder_name (List.filter is_note notes) st) /\
  (forall (fs : FS) (library_folder : string) (notes : list Event)
          (st : sheet_state),
     render_loop fs library_folder notes st
     = render_loop fs library_folder (List.filter is_note notes) st) /\
  (forall (notes : list Event) (notes_list : list string),
     notes_loop notes notes_list
     = notes_loop (List.filter (fun ev => negb (is_other ev)) notes) notes_list).
Proof.
  split; [exact play_loop_filter|].
  split; [exact render_loop_filter|exact notes_loop_filter].
Qed.

Lemma mixer_ops_app (l1 l2 : list audio_op) :
  mixer_ops (l1 ++ l2) = (mixer_ops l1 ++ mixer_ops l2)%list.
Proof. unfold mixer_ops. apply filter_app. Qed.

Lemma sleep_Ok (secs : Q) (st st' : play_state) :
  sleep secs st = Ok st' ->
  (0 <= secs)%Q /\ st' = add_audio (time_sleep secs) st.
Proof.
  unfold sleep. destruct (Qle_bool 0 secs) eqn:E; [|discriminate].
  intros [= <-]. split; [now apply Qle_bool_iff|reflexivity].
Qed.

(** What a note adds to the trace: safe operations, none on the mixer. *)
Lemma play_note_adds (fs : FS) (folder_name : string)
    (pitch : Pitch) (duration : Duration) (st : play_state) :
  exists ops,
    audio (fst (play_note fs folder_name pitch duration st))
    = (audio st ++ ops)%list /\
    Forall (safe_op fs) ops /\ mixer_ops ops = [].
Proof.
  unfold play_note.
  destruct (sample_filename pitch) as [filename|e];
    [|exists []; simpl; rewrite app_nil_r; repeat split; constructor].
  destruct (fs !! os_path_join folder_name filename) as [f|] eqn:Hf.
  - destruct (mixer_Sound f) as [u|e] eqn:Hs; simpl.
    + destruct (sleep _ _) as [st'|e] eqn:Hsl.
      * apply sleep_Ok in Hsl as [Hq ->]. simpl.
        eexists. rewrite <- !app_assoc. split; [reflexivity|].
        split; [|reflexivity].
        repeat constructor; simpl; auto.
        exists f. now rewrite Hs.
      * simpl. eexists. split; [reflexivity|]. split; [|reflexivity].
        repeat constructor. exists f. now rewrite Hs.
    + exists []. simpl. rewrite app_nil_r. repeat split; constructor.
  - destruct (sleep _ _) as [st'|e] eqn:Hsl.
    + apply sleep_Ok in Hsl as [Hq ->]. simpl.
      eexists. split; [reflexivity|]. split; [|reflexivity].
      repeat constructor. exact Hq.
    + exists []. simpl. rewrite app_nil_r. repeat split; constructor.
Qed.

Lemma play_loop_adds (fs : FS) (folder_name : string) (notes : list Event)
    (st : play_state) :
  exists ops,
    audio (fst (play_loop fs folder_name notes st)) = (audio st ++ ops)%list /\
    Forall (safe_op fs) ops /\ mixer_ops ops = [].
Proof.
  revert st. induction notes as [|ev rest IH]; intros st.
  - exists []. simpl. rewrite app_nil_r. repeat split; constructor.
  - destruct ev as [pitch duration| |]; simpl; auto.
    destruct (play_note_adds fs folder_name pitch duration st)
      as (ops1 & H1 & Hs1 & Hm1).
    destruct (play_note fs folder_name pitch duration st) as [st1 [e|]];
      simpl in H1.
    + exists ops1. auto.
    + destruct (IH st1) as (ops2 & H2 & Hs2 & Hm2).
      exists (ops1 ++ ops2)%list. rewrite H2, H1, <- app_assoc.
      split; [reflexivity|]. split; [now apply Forall_app|].
      now rewrite mixer_ops_app, Hm1, Hm2.
Qed.

Lemma every_sound_fades_app (l1 l2 : list audio_op) :
  every_sound_fades l1 -> every_sound_fades l2 -> every_sound_fades (l1 ++ l2).
Proof.
  intros H1 H2. induction l1 as [|op l1 IH]; [exact H2|].
  destruct op; simpl in *; auto.
  destruct H1 as [(secs & rest' & ->) H1]. split; [|auto].
  exists secs, (rest' ++ l2)%list. reflexivity.
Qed.

Lemma sleep_negative (q : Q) (st : play_state) :
  (q < 0)%Q -> sleep (q * seconds_per_beat) st = Raise sleep_error.
Proof.
  intros H. unfold sleep.
  destruct (Qle_bool 0 (q * seconds_per_beat)) eqn:E; [|reflexivity].
  apply Qle_bool_iff in E. exfalso.
  apply (Qlt_not_le _ _ (Qmult_lt_compat_r q 0 seconds_per_beat eq_refl H)).
  now rewrite Qmult_0_l.
Qed.

(** A note whose duration is not negative adds a whole block to the
    trace: nothing, a sleep, or a sound with its sleep and its fade-out. *)
Lemma play_note_fades (fs : FS) (folder_name : string)
    (pitch : Pitch) (duration : Duration) (st : play_state) :
  (0 <= quarterLength duration)%Q ->
  exists ops,
    audio (fst (play_note fs folder_name pitch duration st))
    = (audio st ++ ops)%list /\
    every_sound_fades ops.
Proof.
  intros Hq. unfold play_note.
  destruct (sample_filename pitch) as [filename|e];
    [|exists []; simpl; rewrite app_nil_r; split; [reflexivity|exact I]].
  destruct (fs !! os_path_join folder_name filename) as [f|].
  - destruct (mixer_Sound f) as [u|e]; simpl.
    + rewrite sleep_nonneg by now apply scaled_nonneg. simpl.
      eexists. rewrite <- !app_assoc. split; [reflexivity|].
      simpl. split; [eauto|exact I].
    + exists []. rewrite app_nil_r. split; [reflexivity|exact I].
  - rewrite sleep_nonneg by now apply scaled_nonneg. simpl.
    eexists. split; [reflexivity|]. exact I.
Qed.

Lemma play_loop_fades (fs : FS) (folder_name : string) (notes : list Event) :
  Forall no_negative_duration notes ->
  forall st : play_state,
  exists ops,
    audio (fst (play_loop fs folder_name notes st)) = (audio st ++ ops)%list /\
    every_sound_fades ops /\ every_sound_fades (ops ++ [mixer_quit]).
Proof.
  assert (Hq : forall ops, every_sound_fades ops ->
                           every_sound_fades (ops ++ [mixer_quit])).
  { intros ops H. apply every_sound_fades_app; [exact H|exact I]. }
  induction 1 as [|ev rest Hev _ IH]; intros st.
  - exists []. simpl. rewrite app_nil_r. repeat split.
  - destruct ev as [pitch duration| |]; simpl; auto.
    destruct (play_note_fades fs folder_name pitch duration st Hev)
      as (ops1 & H1 & Hf1).
    destruct (play_note fs folder_name pitch duration st) as [st1 [e|]];
      simpl in H1.
    + exists ops1. auto.
    + destruct (IH st1) as (ops2 & H2 & Hf2 & _).
      exists (ops1 ++ ops2)%list. rewrite H2, H1, <- app_assoc.
      split; [reflexivity|].
      assert (every_sound_fades (ops1 ++ ops2)) by now apply every_sound_fades_app.
      auto.
Qed.

(** X10: whatever the document and the library hold, the engine never
    sleeps a negative time and never starts a sample that is not in the
    library or does not load.  On a document without a note of negative
    duration every sample it starts is followed at once by the sleep of
    the note and by the fade-out of that sample, of 150 ms.  A sample
    that loads for a note of negative duration is started and left
    without a fade-out: the refusal of the sleep is recorded in the message
    and the loop goes on. *)
Theorem playback_trace_is_safe :
  (forall (fs : FS) (xml_path folder_name : string),
     Forall (safe_op fs) (fst (play_violin_mp3_library fs xml_path folder_name))) /\
  (forall (fs : FS) (xml_path folder_name : string),
     (forall (f : File) (notes : list Event),
        fs !! xml_path = Some f ->
        converter_parse xml_path (Some f) = Ok notes ->
        Forall no_negative_duration notes) ->
     every_sound_fades (fst (play_violin_mp3_library fs xml_path folder_name))) /\
  (forall (fs : FS) (folder_name : string) (pitch : Pitch) (duration : Duration)
          (st : play_state) (filename : string) (f : File),
     sample_filename pitch = Ok filename ->
     fs !! os_path_join folder_name filename = Some f ->
     is_Ok (mixer_Sound f) = true ->
     (quarterLength duration < 0)%Q ->
     play_note fs folder_name pitch duration st
     = (mkPlay (audio st ++ [sound_play (os_path_join folder_name filename)])
               (message st ++
                [MsgPlaying filename; MsgErrorPlaying filename sleep_error]),
        None)).
Proof.
  split; [|split].
  - intros fs xml_path folder_name. unfold play_violin_mp3_library.
    destruct (fs !! xml_path) as [f|]; [|repeat constructor].
    destruct (converter_parse xml_path (Some f)) as [notes|e]; [|repeat constructor].
    cbv zeta. cbn [audio message].
    destruct (play_loop_adds fs folder_name notes
                (mkPlay [mixer_init] [MsgReady folder_name]))
      as (ops & Ha & Hs & _).
    destruct (play_loop fs folder_name notes _) as [st [e|]]; simpl in *;
      rewrite Ha.
    + constructor; [exact I|exact Hs].
    + constructor; [exact I|]. apply Forall_app. split; [exact Hs|repeat constructor].
  - intros fs xml_path folder_name Hn. unfold play_violin_mp3_library.
    destruct (fs !! xml_path) as [f|] eqn:Hf; [|exact I].
    destruct (converter_parse xml_path (Some f)) as [notes|e] eqn:Hp; [|exact I].
    cbv zeta. cbn [audio message].
    destruct (play_loop_fades fs folder_name notes (Hn f notes eq_refl Hp)
                (mkPlay [mixer_init] [MsgReady folder_name]))
      as (ops & Ha & Hf1 & Hf2).
    destruct (play_loop fs folder_name notes _) as [st [e|]];
      cbn [fst snd audio message add_audio add_message] in *; rewrite Ha.
    + exact Hf1.
    + rewrite <- app_assoc. exact Hf2.
  - intros fs folder_name pitch duration st filename f Hn Hf Hs Hq.
    unfold play_note. rewrite Hn, Hf.
    destruct (mixer_Sound f) as [u|e]; [|discriminate].
    rewrite sleep_negative by assumption.
    unfold add_message, add_audio. cbn [audio message].
    now rewrite <- app_assoc.
Qed.

(** X11: the mixer is started first in every session and is stopped
    exactly when the session returns the message that ends with the
    finished line, as its last operation; a session that returns the
    not-found message or ends with an exception leaves it started. *)
Theorem mixer_released_iff_finished (fs : FS) (xml_path folder_name : string) :
  head (fst (play_violin_mp3_library fs xml_path folder_name)) = Some mixer_init /\
  ((exists msg,
      snd (play_violin_mp3_library fs xml_path folder_name)
      = Ok (msg ++ [MsgFinished])%list /\
      mixer_ops (fst (play_violin_mp3_library fs xml_path folder_name))
      = [mixer_init; mixer_quit] /\
      last (fst (play_violin_mp3_library fs xml_path folder_name))
      = Some mixer_quit) \/
   ((snd (play_violin_mp3_library fs xml_path folder_name)
     = Ok [MsgNotFound xml_path] \/
     exists e, snd (play_violin_mp3_library fs xml_path folder_name) = Raise e) /\
    mixer_ops (fst (play_violin_mp3_library fs xml_path folder_name))
    = [mixer_init])).
Proof.
  unfold play_violin_mp3_library.
  destruct (fs !! xml_path) as [f|]; [|split; [reflexivity|right; auto]].
  destruct (converter_parse xml_path (Some f)) as [notes|e];
    [|split; [reflexivity|right; split; [right; eauto|reflexivity]]].
  cbv zeta. cbn [audio message].
  destruct (play_loop_adds fs folder_name notes
              (mkPlay [mixer_init] [MsgReady folder_name]))
    as (ops & Ha & _ & Hm).
  destruct (play_loop fs folder_name notes _) as [st [e|]];
    cbn [fst snd audio message add_audio add_message app] in *;
    rewrite Ha; (split; [reflexivity|]).
  - right. split; [right; eauto|].
    change (mixer_init :: ops) with ([mixer_init] ++ ops)%list.
    now rewrite mixer_ops_app, Hm.
  - left. exists (message st). split; [reflexivity|]. split.
    + rewrite mixer_ops_app.
      change (mixer_init :: ops) with ([mixer_init] ++ ops)%list.
      now rewrite mixer_ops_app, Hm.
    + apply last_snoc.
Qed.

End PlaybackMore.

(** ** More on the renderer *)

Section RendererMore.

Context {File : Type} `{Ext : Extern File}.
Abbreviation FS := (gmap string File).

Lemma render_loop_aborts (fs : FS) (library_folder : string)
    (notes : list Event) (st : sheet_state) :
  (exists pitch duration,
     In (NoteEv pitch duration) notes /\
     is_Ok (open_sticker fs library_folder pitch duration) = false) ->
  exists e, render_loop fs library_folder notes st = Raise e.
Proof.
  revert st. induction notes as [|ev rest IH]; intros st (p & d & Hin & Hbad).
  - destruct Hin.
  - destruct Hin as [->|Hin].
    + simpl. unfold render_note.
      destruct (open_sticker fs library_folder p d) as [|e]; [discriminate|].
      simpl. eauto.
    + destruct ev as [pitch duration| |]; simpl; try (apply IH; eauto).
      destruct (render_note fs library_folder pitch duration st) as [st1|e];
        simpl; [apply IH|]; eauto.
Qed.

(** X13: unlike the playback, the renderer does not go on without an asset:
    when neither the sticker asked for nor the plain one is in the library
    the opening raises [FileNotFoundError], one note whose sticker does not
    open ends the whole sheet with an exception, nothing shown or saved,
    and so does a library without the staff tile. *)
Theorem unopenable_sticker_aborts_sheet :
  (forall (fs : FS) (library_folder : string) (pitch : Pitch) (duration : Duration),
     fs !! (library_folder ++ "/" ++ sticker_name pitch duration) = None ->
     fs !! (library_folder ++ "/" ++ type duration ++ ".png") = None ->
     open_sticker fs library_folder pitch duration
     = Raise (no_such_file (library_folder ++ "/" ++ type duration ++ ".png"))) /\
  (forall (fs : FS) (xml_path library_folder : string) (notes : list Event),
     converter_parse xml_path (fs !! xml_path) = Ok notes ->
     (exists pitch duration,
        In (NoteEv pitch duration) notes /\
        is_Ok (open_sticker fs library_folder pitch duration) = false) ->
     exists e, generate_visual_sheet fs xml_path library_folder = Raise e) /\
  (forall (fs : FS) (xml_path library_folder : string),
     fs !! (library_folder ++ "/blank_staff.png") = None ->
     generate_visual_sheet fs xml_path library_folder
     = Raise (no_such_file (library_folder ++ "/blank_staff.png"))).
Proof.
  split; [|split].
  - intros fs library_folder pitch duration H1 H2. unfold open_sticker.
    unfold Image_open at 1. rewrite H1. simpl.
    unfold Image_open. now rewrite H2.
  - intros fs xml_path library_folder notes Hp Hbad.
    unfold generate_visual_sheet.
    destruct (Image_open fs (staff_path library_folder)) as [s|e]; simpl; [|eauto].
    rewrite Hp. simpl.
    destruct (render_loop_aborts fs library_folder notes
                (initial_sheet library_folder) Hbad) as (e & ->).
    simpl. eauto.
  - intros fs xml_path library_folder H. unfold generate_visual_sheet.
    unfold Image_open, staff_path. now rewrite H.
Qed.

End RendererMore.

(** ** Paths *)

Lemma string_app_nil_r (s : string) : s ++ "" = s.
Proof.
  induction s as [|c s IH]; [reflexivity|].
  change (String c s ++ "") with (String c (s ++ "")). now rewrite IH.
Qed.

Lemma split_no_sep (sep : ascii) (s : string) :
  count_char sep s = 0%nat -> Py.split sep s = [s].
Proof.
  intros H. apply split_without_sep. induction s as [|a s IH]; simpl.
  - intros c [].
  - simpl in H. destruct (Ascii.eqb a sep) eqn:Ha; [discriminate|].
    intros c [<-|Hc]; auto.
Qed.

Lemma count_char_app (c : ascii) (a b : string) :
  count_char c (a ++ b) = (count_char c a + count_char c b)%nat.
Proof.
  induction a as [|x a IH]; [reflexivity|].
  change (String x a ++ b) with (String x (a ++ b)). simpl. rewrite IH. lia.
Qed.

(** The first field of a string that starts with a separator-free part. *)
Lemma split_head (sep : ascii) (a b : string) :
  count_char sep a = 0%nat ->
  exists tl, Py.split sep (a ++ String sep b) = a :: tl.
Proof.
  intros H. rewrite split_app, (split_no_sep sep a H). simpl. eauto.
Qed.

Lemma replace_absent (old new s : string) :
  Py.contains s old = false -> PyStr.replace old new s = s.
Proof.
  unfold PyStr.replace. induction s as [|c s IH]; [reflexivity|].
  intros H. simpl in H. apply orb_false_elim in H as [Hp Hc].
  cbn [PyStr.replace_from]. rewrite Hp. now rewrite IH.
Qed.

Lemma replace_musicxml_suffix (new stem : string) :
  count_char "." stem = 0%nat ->
  PyStr.replace ".musicxml" new (stem ++ ".musicxml") = stem ++ new.
Proof.
  unfold PyStr.replace. induction stem as [|c stem IH]; intros H.
  - change ("" ++ ".musicxml") with ".musicxml". cbn. apply string_app_nil_r.
  - simpl in H. destruct (Ascii.eqb c ".") eqn:Hc; [discriminate|].
    change (String c stem ++ ".musicxml") with (String c (stem ++ ".musicxml")).
    cbn [PyStr.replace_from Py.prefix_of].
    rewrite Ascii.eqb_sym, Hc. cbn [andb].
    now rewrite IH.
Qed.

Lemma basename_no_slash (p : string) : count_char "/" (PyStr.basename p) = 0%nat.
Proof.
  unfold PyStr.basename. pose proof (split_fields "/" p) as HF.
  induction HF as [|x l Hx HF IH]; [reflexivity|].
  destruct l; [exact Hx|exact IH].
Qed.

Lemma basename_idempotent (p : string) :
  PyStr.basename (PyStr.basename p) = PyStr.basename p.
Proof.
  unfold PyStr.basename at 1.
  now rewrite (split_no_sep "/" _ (basename_no_slash p)).
Qed.

Lemma path_stem_no_dot (p : string) : count_char "." (path_stem p) = 0%nat.
Proof.
  unfold path_stem. pose proof (split_fields "." p) as HF.
  destruct (Py.split "." p); [reflexivity|]. now inversion HF.
Qed.

(** The sheet is never saved over the document it was made from. *)
Lemma rendered_path_differs (p : string) :
  "rendered_" ++ path_stem p ++ ".png" <> p.
Proof.
  intros H.
  assert (Hs : path_stem ("rendered_" ++ path_stem p ++ ".png")
               = "rendered_" ++ path_stem p).
  { unfold path_stem at 1.
    destruct (split_head "." ("rendered_" ++ path_stem p) "png") as (tl & Htl).
    - rewrite count_char_app, path_stem_no_dot. reflexivity.
    - rewrite string_app_assoc in Htl.
      change (path_stem p ++ String "." "png") with (path_stem p ++ ".png") in Htl.
      now rewrite Htl. }
  rewrite H in Hs. apply (f_equal String.length) in Hs.
  change ("rendered_" ++ path_stem p)
    with (String "r" ("endered_" ++ path_stem p)) in Hs.
  revert Hs. generalize (path_stem p). intros s Hs.
  assert (Hl : forall a b : string,
            String.length (a ++ b) = (String.length a + String.length b)%nat).
  { induction a as [|x a IH]; intros b; [reflexivity|].
    change (String x a ++ b) with (String x (a ++ b)). simpl. now rewrite IH. }
  simpl in Hs. rewrite Hl in Hs. simpl in Hs. lia.
Qed.

(** ** Transcription, fallbacks and review *)

Section HelpersProperties.

Context {File : Type} `{Ext : Extern File} `{Tls : Tools File}.
Abbreviation FS := (gmap string File).

(** X14: the transcription never raises: however the run of the tool ends,
    a message is returned, the success message exactly for return code 0.
    So the first tier of the transcription tool always returns: its result
    is the message of the transcription whatever the vision model is, the
    vision model is never asked and no document is written by the tool
    itself. *)
Theorem vision_fallback_never_runs
    (model : option (File -> result string)) (fs : FS) (image_path : string) :
  run_oemer_with_updates fs image_path
  = (fst (fst (oemer fs image_path)),
     oemer_printed image_path (snd (fst (oemer fs image_path))),
     Ok (oemer_message (snd (oemer fs image_path)))) /\
  VisionTranscribeTool_run model fs image_path
  = (fst (fst (oemer fs image_path)),
     oemer_printed image_path (snd (fst (oemer fs image_path))),
     oemer_message (snd (oemer fs image_path))).
Proof.
  assert (H : run_oemer_with_updates fs image_path
              = (fst (fst (oemer fs image_path)),
                 oemer_printed image_path (snd (fst (oemer fs image_path))),
                 Ok (oemer_message (snd (oemer fs image_path))))).
  { unfold run_oemer_with_updates, oemer_try, oemer_printed.
    destruct (oemer fs image_path) as [[fs' lines] [rc|[k m]]]; simpl.
    - destruct rc; reflexivity.
    - destruct k; reflexivity. }
  split; [exact H|].
  unfold VisionTranscribeTool_run. now rewrite H.
Qed.

(** X15: the saved sheet goes where [.musicxml] is replaced by [.png]: for a
    document [stem.musicxml] with a stem without dots the picture is
    written at [stem.png], and for a path that does not hold [.musicxml]
    the write is asked at the path of the document itself; when the
    document does not parse nothing is written. *)
Theorem saved_sheet_path :
  (forall (fs : FS) (stem : string),
     count_char "." stem = 0%nat ->
     is_Ok (converter_parse (stem ++ ".musicxml") (fs !! (stem ++ ".musicxml"))) = true ->
     save_visual_sheet fs (stem ++ ".musicxml")
     = match score_write "musicxml.png" fs (stem ++ ".musicxml") (stem ++ ".png") with
       | (fs', Ok _) =>
           (fs', ["Visualization saved to: " ++ stem ++ ".png"], Ok (stem ++ ".png"))
       | (fs', Raise e) => (fs', [], Raise e)
       end) /\
  (forall (fs : FS) (xml_path : string),
     Py.contains xml_path ".musicxml" = false ->
     is_Ok (converter_parse xml_path (fs !! xml_path)) = true ->
     save_visual_sheet fs xml_path
     = match score_write "musicxml.png" fs xml_path xml_path with
       | (fs', Ok _) =>
           (fs', ["Visualization saved to: " ++ xml_path], Ok xml_path)
       | (fs', Raise e) => (fs', [], Raise e)
       end) /\
  (forall (fs : FS) (xml_path : string) (e : exn),
     converter_parse xml_path (fs !! xml_path) = Raise e ->
     save_visual_sheet fs xml_path = (fs, [], Raise e)).
Proof.
  split; [|split].
  - intros fs stem Hstem Hp. unfold save_visual_sheet.
    destruct (converter_parse _ _); [|discriminate].
    rewrite replace_musicxml_suffix by assumption.
    destruct (score_write _ _ _ _) as [fs' [u|e]]; reflexivity.
  - intros fs xml_path Hc Hp. unfold save_visual_sheet.
    destruct (converter_parse _ _); [|discriminate].
    rewrite replace_absent by assumption.
    destruct (score_write _ _ _ _) as [fs' [u|e]]; reflexivity.
  - intros fs xml_path e Hp. unfold save_visual_sheet. now rewrite Hp.
Qed.

(** X16: the converted sound goes where [.musicxml] is replaced by [.mid]
    and [.mp3]: for [stem.musicxml] with a stem without dots the MIDI is
    written at [stem.mid] and the converter asked for [stem.mp3]; for a
    path that does not hold [.musicxml] the MIDI is written at the path of
    the document itself and the converter receives that path as input and
    as output.  A failing converter is reported in the string returned; a
    failing parse or MIDI write raises. *)
Theorem saved_sound_paths :
  (forall (fs : FS) (stem : string),
     count_char "." stem = 0%nat ->
     is_Ok (converter_parse (stem ++ ".musicxml") (fs !! (stem ++ ".musicxml"))) = true ->
     save_violin_mp3_library fs (stem ++ ".musicxml")
     = match score_write "midi" fs (stem ++ ".musicxml") (stem ++ ".mid") with
       | (fs1, Raise e) => (fs1, Raise e)
       | (fs1, Ok _) =>
           match fluidsynth fs1 (stem ++ ".mid") (stem ++ ".mp3") with
           | (fs2, Ok _) => (fs2, Ok ("MP3 created at " ++ stem ++ ".mp3"))
           | (fs2, Raise e) =>
               (fs2, Ok ("MIDI created, but MP3 conversion failed: " ++ exn_str e))
           end
       end) /\
  (forall (fs : FS) (file_path : string),
     Py.contains file_path ".musicxml" = false ->
     is_Ok (converter_parse file_path (fs !! file_path)) = true ->
     save_violin_mp3_library fs file_path
     = match score_write "midi" fs file_path file_path with
       | (fs1, Raise e) => (fs1, Raise e)
       | (fs1, Ok _) =>
           match fluidsynth fs1 file_path file_path with
           | (fs2, Ok _) => (fs2, Ok ("MP3 created at " ++ file_path))
           | (fs2, Raise e) =>
               (fs2, Ok ("MIDI created, but MP3 conversion failed: " ++ exn_str e))
           end
       end) /\
  (forall (fs : FS) (file_path : string) (e : exn),
     converter_parse file_path (fs !! file_path) = Raise e ->
     save_violin_mp3_library fs file_path = (fs, Raise e)).
Proof.
  split; [|split].
  - intros fs stem Hstem Hp. unfold save_violin_mp3_library.
    destruct (converter_parse _ _); [|discriminate].
    rewrite !replace_musicxml_suffix by assumption. reflexivity.
  - intros fs file_path Hc Hp. unfold save_violin_mp3_library.
    destruct (converter_parse _ _); [|discriminate].
    rewrite !replace_absent by assumption. reflexivity.
  - intros fs file_path e Hp. unfold save_violin_mp3_library. now rewrite Hp.
Qed.

(** X17: the review keeps the file name only: the directories of the path
    it is given are dropped, so a document is looked for in the working
    directory wherever the path points. *)
Theorem review_uses_file_name_only (fs : FS) (full_path : string) :
  process_and_play fs full_path = process_and_play fs (PyStr.basename full_path) /\
  count_char "/" (PyStr.basename full_path) = 0%nat /\
  (forall directory name : string,
     count_char "/" name = 0%nat ->
     PyStr.basename (directory ++ "/" ++ name) = name).
Proof.
  split; [|split].
  - unfold process_and_play. now rewrite basename_idempotent.
  - apply basename_no_slash.
  - intros directory name Hn. unfold PyStr.basename.
    change (directory ++ "/" ++ name) with (directory ++ String "/" name).
    rewrite split_app, (split_no_sep "/" name Hn).
    apply last_last.
Qed.

(** X18: a review of a document that is not there ends with an exception
    when the library raises on the missing file: the sheet raises, the
    fallback parses the same path and raises again, outside any handler;
    nothing is played and the not-found message of the summary is never
    reached. *)
Theorem review_of_missing_document_raises
    (fs : FS) (full_path : string) (e : exn) :
  fs !! PyStr.basename full_path = None ->
  converter_parse (PyStr.basename full_path) None = Raise e ->
  exists e',
    process_and_play fs full_path
    = (fs,
       [ PyStr.basename full_path;
         "GUI Display failed (" ++ exn_str e' ++ "), saving to file instead..." ],
       [], Raise e).
Proof.
  intros Hf Hp. unfold process_and_play, review_sheet.
  assert (Hg : exists e', generate_visual_sheet fs (PyStr.basename full_path)
                            visual_notes_library = Raise e').
  { unfold generate_visual_sheet.
    destruct (Image_open fs (staff_path visual_notes_library)); simpl; [|eauto].
    rewrite Hf, Hp. simpl. eauto. }
  destruct Hg as (e' & ->). exists e'.
  unfold save_visual_sheet. rewrite Hf, Hp. reflexivity.
Qed.

(** X19: when the sheet is made and the playback returns, the review
    returns the summary of the document, which the saved sheet never
    replaces; when the summary raises, as it does on a chord, the review
    prints the failure and returns no string. *)
Theorem review_returns_summary
    (fs : FS) (full_path : string) (ops : list canvas_op)
    (trace : list audio_op) (msg : list msg_part) :
  let file_path := PyStr.basename full_path in
  let fs1 := <["rendered_" ++ path_stem file_path ++ ".png" := canvas_image ops]> fs in
  generate_visual_sheet fs file_path visual_notes_library = Ok ops ->
  play_violin_mp3_library fs1 file_path chromatic_samples_library = (trace, Ok msg) ->
  process_and_play fs full_path
  = match get_notes_from_xml fs file_path with
    | Ok message => (fs1, [file_path], trace, Ok (Some message))
    | Raise e =>
        (fs1, [file_path; "Failed (" ++ exn_str e ++ ")..."], trace, Ok None)
    end /\
  (forall (f : File) (notes : list Event),
     fs !! file_path = Some f ->
     converter_parse file_path (Some f) = Ok notes ->
     existsb is_chord notes = true ->
     process_and_play fs full_path
     = (fs1, [file_path; "Failed (" ++ exn_str concat_error ++ ")..."], trace,
        Ok None)).
Proof.
  intros file_path fs1 Hg Hplay.
  assert (H : process_and_play fs full_path
              = match get_notes_from_xml fs file_path with
                | Ok message => (fs1, [file_path], trace, Ok (Some message))
                | Raise e =>
                    (fs1, [file_path; "Failed (" ++ exn_str e ++ ")..."], trace,
                     Ok None)
                end).
  { unfold process_and_play, review_sheet, review_sound.
    fold file_path. rewrite Hg. fold fs1. rewrite Hplay.
    rewrite (get_notes_from_xml_local fs1 fs file_path).
    - destruct (get_notes_from_xml fs file_path); reflexivity.
    - unfold fs1. apply lookup_insert_ne. apply rendered_path_differs. }
  split; [exact H|].
  intros f notes Hf Hp Hc. rewrite H.
  unfold get_notes_from_xml. rewrite Hf, Hp. simpl.
  now rewrite notes_loop_chord.
Qed.

End HelpersProperties.

(** ** Routing *)

Lemma lower_char_space (c : ascii) :
  Py.isspace (Py.lower_char c) = Py.isspace c.
Proof. destruct c as [[] [] [] [] [] [] [] []]; reflexivity. Qed.

Lemma lower_char_idempotent (c : ascii) :
  Py.lower_char (Py.lower_char c) = Py.lower_char c.
Proof. destruct c as [[] [] [] [] [] [] [] []]; reflexivity. Qed.

Lemma lower_idempotent (s : string) : Py.lower (Py.lower s) = Py.lower s.
Proof.
  induction s as [|c s IH]; simpl; [reflexivity|].
  now rewrite lower_char_idempotent, IH.
Qed.

Lemma lower_app (a b : string) : Py.lower (a ++ b) = Py.lower a ++ Py.lower b.
Proof.
  induction a as [|c a IH]; [reflexivity|].
  change (String c a ++ b) with (String c (a ++ b)). simpl. now rewrite IH.
Qed.

Lemma lower_blank (s : string) : Py.blank (Py.lower s) = Py.blank s.
Proof.
  induction s as [|c s IH]; simpl; [reflexivity|].
  now rewrite lower_char_space, IH.
Qed.

Lemma lstrip_blank_app (a s : string) :
  Py.blank a = true -> Py.lstrip (a ++ s) = Py.lstrip s.
Proof.
  induction a as [|c a IH]; intros H; [reflexivity|].
  simpl in H. apply andb_prop in H as [Hc Ha].
  change (String c a ++ s) with (String c (a ++ s)). simpl. rewrite Hc. auto.
Qed.

Lemma rstrip_blank (s : string) : Py.blank s = true -> Py.rstrip s = "".
Proof.
  induction s as [|c s IH]; simpl; intros H; [reflexivity|].
  apply andb_prop in H as [Hc Hs]. rewrite IH by assumption. now rewrite Hc.
Qed.

Lemma rstrip_app_blank (s b : string) :
  Py.blank b = true -> Py.rstrip (s ++ b) = Py.rstrip s.
Proof.
  intros Hb. induction s as [|c s IH].
  - change ("" ++ b) with b. now apply rstrip_blank.
  - change (String c s ++ b) with (String c (s ++ b)). simpl. now rewrite IH.
Qed.

Lemma lstrip_app_blank (s b : string) :
  Py.blank b = true ->
  Py.rstrip (Py.lstrip (s ++ b)) = Py.rstrip (Py.lstrip s).
Proof.
  intros Hb. induction s as [|c s IH].
  - change ("" ++ b) with b. rewrite lstrip_blank by assumption. reflexivity.
  - change (String c s ++ b) with (String c (s ++ b)). simpl.
    destruct (Py.isspace c); [exact IH|].
    change (String c (s ++ b)) with (String c s ++ b).
    now apply rstrip_app_blank.
Qed.

(** White space around a string does not change what is left of it. *)
Lemma strip_padded (a s b : string) :
  Py.blank a = true -> Py.blank b = true ->
  Py.strip (a ++ s ++ b) = Py.strip s.
Proof.
  intros Ha Hb. unfold Py.strip.
  rewrite lstrip_blank_app by assumption. now apply lstrip_app_blank.
Qed.

(** X20: the routers only name nodes the graphs know: whatever the
    conversation, a router that returns gives a key of the edges declared
    for its node, and after a message of the model it does return; only
    the first tool call of a message is looked at, and a tool name that is
    not in the mapping leads back to the user. *)
Theorem routers_name_known_nodes :
  (forall (messages : list Message) (node : string),
     Maya.check_tool_use messages = Ok node ->
     is_Some (dict_get Maya.model_response_edges node)) /\
  (forall (messages : list Message) (node : string),
     FirstAgent.check_tool_use messages = Ok node ->
     is_Some (dict_get FirstAgent.model_response_edges node)) /\
  (forall (messages : list Message) (node : string),
     route_user_input messages = Ok node ->
     is_Some (dict_get user_input_edges node)) /\
  (forall (messages : list Message) (content : string) (tool_calls : list ToolCall),
     is_Ok (Maya.check_tool_use (messages ++ [AIMessage content tool_calls])) = true) /\
  (forall (messages : list Message) (content : string) (tool_call : ToolCall)
          (rest rest' : list ToolCall),
     Maya.check_tool_use (messages ++ [AIMessage content (tool_call :: rest)])
     = Maya.check_tool_use (messages ++ [AIMessage content (tool_call :: rest')])) /\
  (forall (messages : list Message) (content : string) (tool_call : ToolCall)
          (rest : list ToolCall),
     dict_get Maya.mapping (tc_name tool_call) = None ->
     Maya.check_tool_use (messages ++ [AIMessage content (tool_call :: rest)])
     = Ok "user_input").
Proof.
  repeat split.
  - intros messages node. unfold Maya.check_tool_use, last_tool_calls.
    destruct (last messages) as [[]|]; simpl; try discriminate.
    destruct tool_calls as [|tc rest]; [intros [= <-]; simpl; eauto|].
    unfold Maya.mapping. simpl.
    repeat (destruct (String.eqb (tc_name tc) _);
            [intros [= <-]; simpl; eauto|]).
    intros [= <-]; simpl; eauto.
  - intros messages node. unfold FirstAgent.check_tool_use, last_tool_calls.
    destruct (last messages) as [[]|]; simpl; try discriminate.
    destruct tool_calls; intros [= <-]; simpl; eauto.
  - intros messages node. unfold route_user_input.
    destruct (last messages); [|discriminate].
    destruct (_ || _); intros [= <-]; simpl; eauto.
  - intros messages content tool_calls.
    unfold Maya.check_tool_use, last_tool_calls. rewrite last_snoc.
    cbn [rbind].
    destruct tool_calls as [|tc rest]; [reflexivity|].
    destruct (dict_get Maya.mapping (tc_name tc)); reflexivity.
  - intros. unfold Maya.check_tool_use, last_tool_calls.
    now rewrite !last_snoc.
  - intros messages content tc rest H.
    unfold Maya.check_tool_use, last_tool_calls. rewrite last_snoc.
    cbn [rbind]. now rewrite H.
Qed.

(** X21: the session ends on the word exit or quit in any letter case and
    with any white space around it: the route of an input is the route of
    its lower-case form, and of the input without the white space before
    and after it. *)
Theorem exit_word_ends_session
    (messages : list Message) (before content after : string) :
  Py.blank before = true -> Py.blank after = true ->
  route_user_input (messages ++ [HumanMessage (before ++ content ++ after)])
  = route_user_input (messages ++ [HumanMessage content]) /\
  route_user_input (messages ++ [HumanMessage (Py.lower content)])
  = route_user_input (messages ++ [HumanMessage content]) /\
  (route_user_input (messages ++ [HumanMessage content]) = Ok "end" <->
   Py.strip (Py.lower content) = "exit" \/ Py.strip (Py.lower content) = "quit").
Proof.
  intros Ha Hb. unfold route_user_input. rewrite !last_snoc. simpl.
  split; [|split].
  - rewrite !lower_app.
    rewrite strip_padded by (now rewrite lower_blank). reflexivity.
  - now rewrite lower_idempotent.
  - destruct (String.eqb_spec (Py.strip (Py.lower content)) "exit") as [->|H1];
      simpl; [tauto|].
    destruct (String.eqb_spec (Py.strip (Py.lower content)) "quit") as [->|H2];
      simpl; [tauto|].
    split; [discriminate|tauto].
Qed.

Section ToolUseProperties.

Variable fs : gmap string string.
Variable call_error : gmap string string -> string.

Abbreviation file_read_answer := (FirstAgent.file_read_answer fs call_error).

Lemma tool_use_loop_known (tool_calls : list ToolCall) (response : list Message) :
  Forall (fun tc => tc_name tc = "file_read") tool_calls ->
  FirstAgent.tool_use_loop fs call_error tool_calls response
  = Ok (response ++ map file_read_answer tool_calls)%list.
Proof.
  intros H. revert response.
  induction H as [|tc rest Htc _ IH]; intros response; simpl.
  - now rewrite app_nil_r.
  - rewrite Htc. simpl. rewrite IH, <- app_assoc. simpl.
    do 3 f_equal. unfold FirstAgent.file_read_answer.
    now destruct (FirstAgent.call_file_read fs call_error (tc_args tc)).
Qed.

Lemma tool_use_loop_unknown (tool_calls : list ToolCall) (response : list Message) :
  Exists (fun tc => tc_name tc <> "file_read") tool_calls ->
  exists key, key <> "file_read" /\
    FirstAgent.tool_use_loop fs call_error tool_calls response = Raise (KeyError key).
Proof.
  intros H. revert response.
  induction tool_calls as [|tc rest IH]; intros response; [inversion H|].
  simpl. destruct (String.eqb_spec (tc_name tc) "file_read") as [Heq|Hne].
  - simpl. apply IH. inversion H; subst; [contradiction|assumption].
  - exists (tc_name tc). split; [assumption|reflexivity].
Qed.

(** X22: the tool node answers every call: when all the calls of the last
    message name [file_read], it returns one tool message per call, in
    order, each with the id of its call, holding the text of the file or,
    when the call raises, the word Error followed by the text of the
    exception, and goes on with the next call; one call that names
    another tool raises [KeyError] and no answer at all is returned. *)
Theorem tool_calls_answered_in_order :
  (forall (messages : list Message) (content : string) (tool_calls : list ToolCall),
     Forall (fun tc => tc_name tc = "file_read") tool_calls ->
     FirstAgent.get_tool_use fs call_error (messages ++ [AIMessage content tool_calls])
     = Ok (map file_read_answer tool_calls)) /\
  (forall (messages : list Message) (content : string) (tool_calls : list ToolCall),
     Exists (fun tc => tc_name tc <> "file_read") tool_calls ->
     exists key, key <> "file_read" /\
       FirstAgent.get_tool_use fs call_error (messages ++ [AIMessage content tool_calls])
       = Raise (KeyError key)) /\
  (forall (id file_path : string),
     fs !! file_path = None ->
     file_read_answer (mkToolCall "file_read" {[ "file_path" := file_path ]} id)
     = ToolMessage ("Error[Errno 2] No such file or directory: '" ++ file_path ++ "'")
         "file_read" id) /\
  (forall (id file_path text : string),
     fs !! file_path = Some text ->
     file_read_answer (mkToolCall "file_read" {[ "file_path" := file_path ]} id)
     = ToolMessage text "file_read" id).
Proof.
  split; [|split; [|split]].
  - intros messages content tool_calls H.
    unfold FirstAgent.get_tool_use, last_tool_calls. rewrite last_snoc. simpl.
    now rewrite tool_use_loop_known.
  - intros messages content tool_calls H.
    unfold FirstAgent.get_tool_use, last_tool_calls. rewrite last_snoc. simpl.
    now apply tool_use_loop_unknown.
  - intros id file_path H.
    unfold FirstAgent.file_read_answer, FirstAgent.call_file_read.
    simpl. rewrite lookup_singleton_eq, map_size_singleton. simpl.
    unfold FirstAgent.FileReadTool_run. now rewrite H.
  - intros id file_path text H.
    unfold FirstAgent.file_read_answer, FirstAgent.call_file_read.
    simpl. rewrite lookup_singleton_eq, map_size_singleton. simpl.
    unfold FirstAgent.FileReadTool_run. now rewrite H.
Qed.

End ToolUseProperties.

(** ** The further properties on examples *)

Import Demo2.

(** X2 on a text of three entries. *)
Lemma one_note_per_entry_example :
  decode (Ext := Lib.extern) "G4:quarter, A4:half, B4:0.5"
  = Ok [mkNewNote G4 1; mkNewNote A4 2; mkNewNote B4 (1 # 2)] /\
  length [mkNewNote G4 1; mkNewNote A4 2; mkNewNote B4 (1 # 2)]
  = S (count_char "," "G4:quarter, A4:half, B4:0.5").
Proof.
  split; [reflexivity|].
  apply (decode_one_note_per_entry (Ext := Lib.extern)). reflexivity.
Defined.

(** X3 on a text whose last entry is a space after a comma. *)
Lemma trailing_comma_example :
  exists e,
    update_musicxml (Ext := Lib.extern) two_notes "song.musicxml"
      "G4:quarter, A4:half, "
    = (two_notes, error_parsing e).
Proof.
  apply (proj1 (blank_entry_refuses_text (Ext := Lib.extern))).
  exists " ". split; [|reflexivity]. simpl. tauto.
Defined.

(** X4 on an entry with two colons. *)
Lemma extra_colon_example :
  update_musicxml (Ext := Lib.extern) two_notes "song.musicxml" "G4:quarter:dotted"
  = (two_notes,
     "Error parsing notes: too many values to unpack (expected 2). Please use format 'Pitch:Duration'.").
Proof.
  apply (proj2 (extra_colon_is_refused (Ext := Lib.extern))); [reflexivity|].
  simpl. lia.
Defined.

(** X6 on the document of two notes, replaced by one whole note. *)
Lemma update_replaces_example :
  fst (update_musicxml (Ext := Lib.extern) two_notes "song.musicxml" "C4:whole")
  = <["song.musicxml" := Lib.Document [NoteEv C4 whole]]> two_notes /\
  snd (update_musicxml (Ext := Lib.extern) two_notes "song.musicxml" "C4:whole")
  = "🎉 Found the payload: song.musicxml" ++ newline ++
    "--- 🎼 NOTES DETECTED ---:C4:whole".
Proof.
  destruct (update_replaces_document (Ext := Lib.extern) two_notes
              "song.musicxml" "C4:whole" [mkNewNote C4 4]
              (Lib.Document [NoteEv C4 whole]) eq_refl eq_refl)
    as (H1 & _ & H3 & _).
  split; [exact H1|].
  rewrite (H3 [NoteEv C4 whole] eq_refl eq_refl). reflexivity.
Defined.

(** X7 on B double flat 3. *)
Lemma flat_filename_example :
  sample_filename (Ext := Lib.extern) (mkPitch sB (Some double_flat) (Some 3%Z))
  = Ok "Bbb3.mp3".
Proof.
  rewrite (flat_sample_filename (Ext := Lib.extern)); simpl; auto; lia.
Defined.

(** X10 on the document of two notes: G4 plays for 0.6 s and fades, A4
    is missing. *)
Lemma playback_fades_example :
  every_sound_fades
    (fst (play_violin_mp3_library (Ext := Lib.extern) two_notes
            "song.musicxml" "chromatic_samples_library")) /\
  fst (play_violin_mp3_library (Ext := Lib.extern) two_notes
         "song.musicxml" "chromatic_samples_library")
  = [ mixer_init;
      sound_play "chromatic_samples_library/G4.mp3";
      time_sleep (6 # 10);
      sound_fadeout "chromatic_samples_library/G4.mp3" 150;
      time_sleep (12 # 10);
      mixer_quit ].
Proof.
  split; [|reflexivity].
  apply (proj1 (proj2 (playback_trace_is_safe (Ext := Lib.extern)))).
  intros f notes Hf Hp.
  assert (notes = [NoteEv G4 quarter; NoteEv A4 half]) as ->.
  { vm_compute in Hf. injection Hf as <-. vm_compute in Hp. now injection Hp as <-. }
  repeat constructor; discriminate.
Defined.

(** X13 in a library without the sticker of half notes. *)
Lemma missing_sticker_example :
  exists e,
    generate_visual_sheet (Ext := Lib.extern)
      (stickers [NoteEv C4 quarter; NoteEv C4 half])
      "song.musicxml" "visual_notes_library"
    = Raise e.
Proof.
  apply (proj1 (proj2 (unopenable_sticker_aborts_sheet (Ext := Lib.extern)))
           (stickers [NoteEv C4 quarter; NoteEv C4 half])
           "song.musicxml" "visual_notes_library"
           [NoteEv C4 quarter; NoteEv C4 half]); [reflexivity|].
  exists C4, half. split; [simpl; tauto|reflexivity].
Defined.

(** X15 on song.musicxml. *)
Lemma saved_sheet_example :
  save_visual_sheet (Ext := Lib.extern) (Tls := Host.tools) studio "song.musicxml"
  = (<["song.png" := Lib.Picture]> studio,
     ["Visualization saved to: song.png"], Ok "song.png").
Proof.
  exact (proj1 (saved_sheet_path (Ext := Lib.extern) (Tls := Host.tools))
           studio "song" eq_refl eq_refl).
Defined.

(** X16 on a document whose name does not hold .musicxml. *)
Lemma saved_sound_example :
  save_violin_mp3_library (Ext := Lib.extern) (Tls := Host.tools)
    (<["song.xml" := Lib.Document []]> studio) "song.xml"
  = (<["song.xml" := Lib.Sample]> studio, Ok "MP3 created at song.xml").
Proof.
  exact (proj1 (proj2 (saved_sound_paths (Ext := Lib.extern) (Tls := Host.tools)))
           (<["song.xml" := Lib.Document []]> studio) "song.xml" eq_refl eq_refl).
Defined.

(** X17 on a path with directories. *)
Lemma review_file_name_example :
  PyStr.basename ("scores/2024" ++ "/" ++ "song.musicxml") = "song.musicxml".
Proof.
  apply (proj2 (proj2 (review_uses_file_name_only
                         (Ext := Lib.extern) (Tls := Host.tools)
                         studio "scores/2024/song.musicxml"))).
  reflexivity.
Defined.

(** X18 on a document that is not in the studio. *)
Lemma review_missing_example :
  exists e',
    process_and_play (Ext := Lib.extern) (Tls := Host.tools) studio
      "scores/absent.musicxml"
    = (studio,
       [ "absent.musicxml";
         "GUI Display failed (" ++ exn_str e' ++ "), saving to file instead..." ],
       [], Raise (Lib.unreadable "absent.musicxml")).
Proof.
  apply (review_of_missing_document_raises (Ext := Lib.extern) (Tls := Host.tools)
           studio "scores/absent.musicxml"); reflexivity.
Defined.

(** X19 on the document with a chord: the note is shown and played, and no string is returned. *)
Lemma review_chord_example :
  process_and_play (Ext := Lib.extern) (Tls := Host.tools) studio_with_chord
    "song.musicxml"
  = (<["rendered_song.png" := Lib.Picture]> studio_with_chord,
     [ "song.musicxml"; "Failed (" ++ exn_str concat_error ++ ")..." ],
     [ mixer_init; sound_play "chromatic_samples_library/G4.mp3";
       time_sleep (6 # 10);
       sound_fadeout "chromatic_samples_library/G4.mp3" 150; mixer_quit ],
     Ok None).
Proof.
  apply (proj2 (review_returns_summary (Ext := Lib.extern) (Tls := Host.tools)
                  studio_with_chord "song.musicxml"
                  [ composite "visual_notes_library/blank_staff.png" 0 0;
                    composite "visual_notes_library/quarter.png" 100 49;
                    canvas_show; canvas_save "rendered_song.png" ]
                  [ mixer_init; sound_play "chromatic_samples_library/G4.mp3";
                    time_sleep (6 # 10);
                    sound_fadeout "chromatic_samples_library/G4.mp3" 150;
                    mixer_quit ]
                  [ MsgReady "chromatic_samples_library"; MsgPlaying "G4.mp3";
                    MsgFinished ]
                  eq_refl eq_refl)
           (Lib.Document [NoteEv G4 quarter; ChordEv [C4; E4] half])
           [NoteEv G4 quarter; ChordEv [C4; E4] half]);
    reflexivity.
Defined.

(** X20 on a call of the review tool. *)
Lemma router_example :
  is_Some (dict_get Maya.model_response_edges "review").
Proof.
  apply (proj1 routers_name_known_nodes
           [ HumanMessage "play it";
             AIMessage "" [mkToolCall "Review_Process_and_Play"
                             {[ "xml_path" := "song.musicxml" ]} "call_1"] ]).
  reflexivity.
Defined.

(** X21 on the word Quit with spaces around it. *)
Lemma exit_example :
  route_user_input [HumanMessage ("  " ++ "Quit" ++ " ")] = Ok "end".
Proof.
  exact (eq_trans
           (proj1 (exit_word_ends_session [] "  " "Quit" " " eq_refl eq_refl))
           eq_refl).
Defined.

(** X22 on two calls, the second for a file that is not there. *)
Lemma tool_use_example :
  FirstAgent.get_tool_use notes_folder call_error
    [ HumanMessage "read both";
      AIMessage ""
        [ mkToolCall "file_read" {[ "file_path" := "/tmp/a.txt" ]} "call_1";
          mkToolCall "file_read" {[ "file_path" := "/tmp/c.txt" ]} "call_2" ] ]
  = Ok [ ToolMessage "first" "file_read" "call_1";
         ToolMessage "Error[Errno 2] No such file or directory: '/tmp/c.txt'"
           "file_read" "call_2" ].
Proof.
  refine (eq_trans
            (proj1 (tool_calls_answered_in_order notes_folder call_error)
               [HumanMessage "read both"] ""
               [ mkToolCall "file_read" {[ "file_path" := "/tmp/a.txt" ]} "call_1";
                 mkToolCall "file_read" {[ "file_path" := "/tmp/c.txt" ]} "call_2" ]
               _)
            eq_refl).
  repeat constructor.
Defined.
